(** * Translate-bot-Discord: the message admission and translation pipeline

    A shallow embedding of the bot's message handlers and of the pure filters
    they sequence (emoji classifier, banned-word filter, similarity scorer,
    channel router), for the variants of the bot found in the repository:

    - [ThreeChannel]: three channel slots per server, in-memory channel index
      and banned-word set, translation through the [trans] command line;
    - [TwoChannel]: two channel slots per server, enrollment answered by the
      database, the one-token and ["en"]-prefix checks;
    - [DetectCli]: one channel, remote language detection, [trans];
    - [DetectApi]: one channel, remote detection and remote translation
      (a further copy of this handler calls the translation service without
      the detected language).

    The language detector, the translation gateway and the environment are
    parameters of the handlers; a handler run is the list of what it does to
    them and to the channel, in order.

    Go strings are modelled by the sequence of runes that [range] yields.
    [strings.Fields], [strings.TrimSpace], [strings.ToLower] and [range] all
    act on that sequence, and so does [encoding/json], through which message
    contents and identities arrive and posts leave: it only produces valid
    UTF-8, for which equality of strings is equality of rune sequences.  The
    Unicode tables behind [unicode.Is] and [unicode.ToLower] are parameters
    as well. *)

From Stdlib Require DecimalString.
From stdpp Require Import gmap list strings.

(** ** The Go standard library, as far as the bot uses it *)

Abbreviation rune := Z (only parsing).
Abbreviation gostring := (list Z) (only parsing).

(** An ASCII literal as a Go string. *)
Definition lit (s : string) : gostring :=
  (λ a, Z.of_N (Ascii.N_of_ascii a)) <$> String.list_ascii_of_string s.
Arguments lit : simpl never.

(** [fmt.Sprintf("%d", n)]. *)
Definition Sprintf_d (n : Z) : gostring :=
  lit (DecimalString.NilZero.string_of_int (Z.to_int n)).

Module unicode.
Local Open Scope Z_scope.

Definition MaxASCII : rune := 0x7F.
Definition MaxLatin1 : rune := 0xFF.

(** The general category of a code point; every code point has exactly
    one.  Go's range tables [unicode.S], [unicode.So], [unicode.Mn], ...
    are generated from this classification. *)
Inductive GeneralCategory :=
| GcLu | GcLl | GcLt | GcLm | GcLo
| GcMn | GcMc | GcMe
| GcNd | GcNl | GcNo
| GcPc | GcPd | GcPs | GcPe | GcPi | GcPf | GcPo
| GcSm | GcSc | GcSk | GcSo
| GcZs | GcZl | GcZp
| GcCc | GcCf | GcCs | GcCo | GcCn.

(** A range table, by the categories it collects. *)
Definition RangeTable := GeneralCategory → bool.

(** [unicode.S]: Symbol = Sm | Sc | Sk | So. *)
Definition S : RangeTable :=
  λ c, match c with GcSm | GcSc | GcSk | GcSo => true | _ => false end.
(** [unicode.So]: Symbol, other. *)
Definition So : RangeTable :=
  λ c, match c with GcSo => true | _ => false end.
(** [unicode.Mn]: Mark, nonspacing. *)
Definition Mn : RangeTable :=
  λ c, match c with GcMn => true | _ => false end.

(** [unicode.Is(rangeTab, r)]; the Unicode character database is the
    parameter [category]. *)
Definition Is (category : rune → GeneralCategory)
    (rangeTab : RangeTable) (r : rune) : bool :=
  rangeTab (category r).

(** [unicode.IsSpace]: the Latin-1 switch, then the [White_Space] table. *)
Definition White_Space (r : rune) : bool :=
  ((0x0009 <=? r) && (r <=? 0x000d)) || (r =? 0x0020) || (r =? 0x0085)
  || (r =? 0x00a0) || (r =? 0x1680) || ((0x2000 <=? r) && (r <=? 0x200a))
  || ((0x2028 <=? r) && (r <=? 0x2029)) || (r =? 0x202f) || (r =? 0x205f)
  || (r =? 0x3000).

Definition IsSpace (r : rune) : bool :=
  if (0 <=? r) && (r <=? MaxLatin1) then
    (r =? 9) || (r =? 10) || (r =? 11) || (r =? 12) || (r =? 13)
    || (r =? 32) || (r =? 0x85) || (r =? 0xA0)
  else White_Space r.

(** [unicode.ToLower]: the ASCII case is decided in the function itself,
    the rest by the [CaseRanges] table, here the parameter [To_LowerCase]
    (Go's [To(LowerCase, r)]). *)
Definition ToLower (To_LowerCase : rune → rune) (r : rune) : rune :=
  if r <=? MaxASCII then
    if (65 <=? r) && (r <=? 90) then r + (97 - 65) else r
  else To_LowerCase r.
End unicode.

Module strings.
Section funcs.
Context (f : rune → bool).

(** [strings.FieldsFunc]: the loop keeps the field that is open (Go keeps
    its start index) and closes it at the next rune satisfying [f]. *)
Fixpoint FieldsFunc_loop (start : option gostring) (s : gostring)
    : list gostring :=
  match s with
  | [] => match start with Some w => [w] | None => [] end
  | r :: s' =>
      if f r then
        match start with
        | Some w => w :: FieldsFunc_loop None s'
        | None => FieldsFunc_loop None s'
        end
      else FieldsFunc_loop (Some (default [] start ++ [r])) s'
  end.

Definition FieldsFunc (s : gostring) : list gostring :=
  FieldsFunc_loop None s.

(** [strings.TrimLeftFunc]: cut before the first rune not satisfying [f]. *)
Fixpoint TrimLeftFunc (s : gostring) : gostring :=
  match s with
  | [] => []
  | r :: s' => if f r then TrimLeftFunc s' else s
  end.

(** [strings.TrimRightFunc]: the same scan from the end. *)
Definition TrimRightFunc (s : gostring) : gostring :=
  reverse (TrimLeftFunc (reverse s)).

Definition TrimFunc (s : gostring) : gostring :=
  TrimRightFunc (TrimLeftFunc s).
End funcs.

(** [strings.Fields]: split around runs of white space. *)
Definition Fields (s : gostring) : list gostring :=
  FieldsFunc unicode.IsSpace s.

Definition TrimSpace (s : gostring) : gostring :=
  TrimFunc unicode.IsSpace s.

(** [strings.ToLower] = [strings.Map(unicode.ToLower, s)]. *)
Definition ToLower (To_LowerCase : rune → rune) (s : gostring) : gostring :=
  unicode.ToLower To_LowerCase <$> s.
End strings.

(** [fmt.Sprintf("Translated: %s", text)]. *)
Definition Sprintf_Translated (text : gostring) : gostring :=
  lit "Translated: " ++ text.

(** ** Errors, effects and the discordgo types *)

Abbreviation error := (list Z) (only parsing).

Inductive Result (A : Type) : Type :=
| Ok (a : A)
| Err (err : error).
Arguments Ok {A} a.
Arguments Err {A} err.

(** What a handler does to the outside world, in the order it does it. *)
Inductive Event : Type :=
| DetectLanguage (text : gostring)
| TranslateToEnglish (text : gostring) (sourceLang : option gostring)
| LogPrintln (msg : gostring) (err : error)
| ChannelMessageSend (channelID content : gostring).

(** A handler run: the events produced so far and the value computed. *)
Definition Handler (A : Type) : Type := list Event * A.

#[global] Instance Handler_ret : MRet Handler := λ A a, ([], a).
#[global] Instance Handler_bind : MBind Handler :=
  λ A B k m, let '(t1, a) := m in let '(t2, b) := k a in (t1 ++ t2, b).

Definition emit (e : Event) : Handler unit := ([e], tt).
Definition trace {A} (h : Handler A) : list Event := h.1.

(** The calls of the TranslationGateway and of the LanguageDetector, the
    posts, and how many of them a trace holds. *)
Definition isGatewayCall (e : Event) : bool :=
  match e with TranslateToEnglish _ _ => true | _ => false end.
Definition isDetectorCall (e : Event) : bool :=
  match e with DetectLanguage _ => true | _ => false end.
Definition isPost (e : Event) : bool :=
  match e with ChannelMessageSend _ _ => true | _ => false end.
Definition count (p : Event → bool) (t : list Event) : nat :=
  length (filter (λ e, p e = true) t).

Record Session := { State_User_ID : gostring }.
Record MessageCreate :=
  { Author_ID : gostring; ChannelID : gostring; Content : gostring }.
Record Channel := { ID : gostring }.

(** ** The filters shared by the variants

    [isEmoji], [isOnlyEmoji] and [areTextsSimilar] have the same text in
    every variant that has them. *)

Module Filters.
Section filters.
Context (category : rune → unicode.GeneralCategory).
Context (To_LowerCase : rune → rune).

Definition isEmoji (r : rune) : bool :=
  unicode.Is category unicode.S r || unicode.Is category unicode.So r
  || unicode.Is category unicode.Mn r.

Fixpoint isOnlyEmoji (s : gostring) : bool :=
  match s with
  | [] => true
  | r :: s' => if negb (isEmoji r) then false else isOnlyEmoji s'
  end.

(** The loop of [areTextsSimilar]: [i] is the index of the head of [rest]
    in [originalWords]. *)
Fixpoint areTextsSimilar_loop (translatedWords : list gostring)
    (i : nat) (rest : list gostring) (diffCount : nat) : bool :=
  match rest with
  | [] => true
  | originalWord :: rest' =>
      if bool_decide (length translatedWords ≤ i)
         || bool_decide (translatedWords !! i ≠ Some originalWord)
      then
        let diffCount := diffCount + 1 in
        if bool_decide (2 < diffCount) then false
        else areTextsSimilar_loop translatedWords (i + 1) rest' diffCount
      else areTextsSimilar_loop translatedWords (i + 1) rest' diffCount
  end.

Definition areTextsSimilar (original translated : gostring) : bool :=
  let original := strings.ToLower To_LowerCase (strings.TrimSpace original) in
  let translated :=
    strings.ToLower To_LowerCase (strings.TrimSpace translated) in
  if bool_decide (original = translated) then true
  else
    let originalWords := strings.Fields original in
    let translatedWords := strings.Fields translated in
    areTextsSimilar_loop translatedWords 0 originalWords 0.
End filters.
End Filters.

(** [translateToEnglish] of the variants that pipe the text into the
    program named by [TRANSLATE_PATH]; [cmd_Run path stdin] is the outcome
    of the subprocess: its error, standard output and standard error. *)
Module TransShell.
Section gateway.
Context (Getenv_TRANSLATE_PATH : gostring).
Context (cmd_Run : gostring → gostring → option error * gostring * gostring).

Definition translateToEnglish (text : gostring) : Result gostring :=
  let translateShellPath := Getenv_TRANSLATE_PATH in
  if bool_decide (translateShellPath = []) then
    Err (lit "TRANSLATE_PATH environment variable is not set")
  else
    let '(err, out, stderr) := cmd_Run translateShellPath text in
    match err with
    | Some err =>
        Err (lit "cmd.Run() failed with " ++ err ++ lit ": " ++ stderr)
    | None => Ok (strings.TrimSpace out)
    end.
End gateway.
End TransShell.

(** ** Variant with three channel slots, an in-memory channel index and a
    banned-word set *)

Module ThreeChannel.

(** [sql.NullString]. *)
Record NullString := { NullString_String : gostring; NullString_Valid : bool }.

(** [Scan] of a column into a [NullString]; [None] is SQL's NULL. *)
Definition Scan_NullString (column : option gostring) : NullString :=
  match column with
  | Some v => {| NullString_String := v; NullString_Valid := true |}
  | None => {| NullString_String := []; NullString_Valid := false |}
  end.

(** The value a [NullString] is written as. *)
Definition NullString_Value (n : NullString) : option gostring :=
  if NullString_Valid n then Some (NullString_String n) else None.

(** Table [channels], by its [UNIQUE] and [NOT NULL] column [server_id]:
    the columns [channel_id1], [channel_id2], [channel_id3] of the one row
    of a server.  The store is taken to answer every statement. *)
Abbreviation channelsTable :=
  (gmap (list Z) (option (list Z) * option (list Z) * option (list Z)))
  (only parsing).

(** The package variables, with the table behind them. *)
Record Globals := {
  db : channelsTable;
  bannedWords : gset (list Z);
  translateChannels : gmap (list Z) (list Z * list Z * list Z)
}.

Definition loadTranslateChannels (table : channelsTable)
    : gmap (list Z) (list Z * list Z * list Z) :=
  (λ '(channelID1, channelID2, channelID3),
     (NullString_String (Scan_NullString channelID1),
      NullString_String (Scan_NullString channelID2),
      NullString_String (Scan_NullString channelID3))) <$> table.

(** [if channel != nil { existing.String = channel.ID; existing.Valid = true }] *)
Definition overwrite (channel : option Channel) (existing : NullString)
    : NullString :=
  match channel with
  | Some c => {| NullString_String := ID c; NullString_Valid := true |}
  | None => existing
  end.

Definition addTranslateChannels (serverID : gostring)
    (channel1 channel2 channel3 : option Channel) (g : Globals) : Globals :=
  let '(existingChannelID1, existingChannelID2, existingChannelID3) :=
    match db g !! serverID with
    | Some (c1, c2, c3) =>
        (Scan_NullString c1, Scan_NullString c2, Scan_NullString c3)
    | None => (Scan_NullString None, Scan_NullString None, Scan_NullString None)
    end in
  let existingChannelID1 := overwrite channel1 existingChannelID1 in
  let existingChannelID2 := overwrite channel2 existingChannelID2 in
  let existingChannelID3 := overwrite channel3 existingChannelID3 in
  let table :=
    <[serverID := (NullString_Value existingChannelID1,
                   NullString_Value existingChannelID2,
                   NullString_Value existingChannelID3)]> (db g) in
  {| db := table;
     bannedWords := bannedWords g;
     translateChannels := loadTranslateChannels table |}.

(** The inner loop over the [[3]string] of one server. *)
Fixpoint isTranslateChannel_slots (channels : list gostring)
    (channelID : gostring) : bool :=
  match channels with
  | [] => false
  | chID :: channels' =>
      if bool_decide (chID = channelID) then true
      else isTranslateChannel_slots channels' channelID
  end.

(** The outer loop, over the entries of the map in some order. *)
Fixpoint isTranslateChannel_entries
    (entries : list (gostring * (gostring * gostring * gostring)))
    (channelID : gostring) : bool :=
  match entries with
  | [] => false
  | (_, (c1, c2, c3)) :: entries' =>
      if isTranslateChannel_slots [c1; c2; c3] channelID then true
      else isTranslateChannel_entries entries' channelID
  end.

Definition isTranslateChannel
    (translateChannels : gmap (list Z) (list Z * list Z * list Z))
    (channelID : gostring) : bool :=
  isTranslateChannel_entries (map_to_list translateChannels) channelID.

Section handler.
Context (category : rune → unicode.GeneralCategory).
Context (To_LowerCase : rune → rune).
Context (Getenv_TRANSLATE_PATH : gostring).
Context (cmd_Run : gostring → gostring → option error * gostring * gostring).

Fixpoint containsBannedWord_loop (bannedWords : gset (list Z))
    (words : list gostring) : bool :=
  match words with
  | [] => false
  | word :: words' =>
      if bool_decide (word ∈ bannedWords) then true
      else containsBannedWord_loop bannedWords words'
  end.

Definition containsBannedWord (bannedWords : gset (list Z))
    (text : gostring) : bool :=
  let words := strings.Fields (strings.ToLower To_LowerCase text) in
  containsBannedWord_loop bannedWords words.

Definition translateToEnglish (text : gostring) : Handler (Result gostring) :=
  emit (TranslateToEnglish text None);;
  mret (TransShell.translateToEnglish Getenv_TRANSLATE_PATH cmd_Run text).

Definition messageCreate (g : Globals) (s : Session) (m : MessageCreate)
    : Handler unit :=
  if bool_decide (Author_ID m = State_User_ID s)
     || negb (isTranslateChannel (translateChannels g) (ChannelID m))
  then mret tt
  else if Filters.isOnlyEmoji category (Content m) then mret tt
  else if containsBannedWord (bannedWords g) (Content m) then mret tt
  else
    r ← translateToEnglish (Content m);
    match r with
    | Err err => emit (LogPrintln (lit "Error translating message,") err)
    | Ok translatedText =>
        if Filters.areTextsSimilar To_LowerCase (Content m) translatedText
        then mret tt
        else emit (ChannelMessageSend (ChannelID m)
                     (Sprintf_Translated translatedText))
    end.
End handler.
End ThreeChannel.

(** ** Variant with two channel slots, enrollment answered by the database,
    and the one-token and ["en"]-prefix checks *)

Module TwoChannel.

(** Table [channels], by its [UNIQUE] and [NOT NULL] column [server_id]:
    the columns [channel_id1] and [channel_id2]; [None] is SQL's NULL.
    The store is taken to answer every statement. *)
Abbreviation channelsTable :=
  (gmap (list Z) (option (list Z) * option (list Z))) (only parsing).

(** [Rows.Scan] of the column at [index], called [name], into a Go
    [string]: NULL is refused, and [Scan] wraps the error of the conversion
    with the place, [fmt.Errorf(`sql: Scan error on column index %d, name
    %q: %w`, ...)]; 34 is the double quote that [%q] puts around the name. *)
Definition Scan_string (index : Z) (name : gostring)
    (column : option gostring) : Result gostring :=
  match column with
  | Some v => Ok v
  | None =>
      Err (lit "sql: Scan error on column index " ++ Sprintf_d index
           ++ lit ", name " ++ [34%Z] ++ name ++ [34%Z]
           ++ lit ": converting NULL to string is unsupported")
  end.

(** [QueryRow(...).Scan(&existingChannelID1, &existingChannelID2)] of
    [SELECT channel_id1, channel_id2]: the columns are scanned in order and
    the first failure is returned; without a row ([sql.ErrNoRows]) both
    variables keep their zero value. *)
Definition QueryRow_Scan (table : channelsTable) (serverID : gostring)
    : Result (gostring * gostring) :=
  match table !! serverID with
  | None => Ok ([], [])
  | Some (c1, c2) =>
      match Scan_string 0 (lit "channel_id1") c1 with
      | Err err => Err err
      | Ok existingChannelID1 =>
          match Scan_string 1 (lit "channel_id2") c2 with
          | Err err => Err err
          | Ok existingChannelID2 => Ok (existingChannelID1, existingChannelID2)
          end
      end
  end.

Definition addTranslateChannels (serverID : gostring)
    (channel1 channel2 : option Channel) (table : channelsTable)
    : option error * channelsTable :=
  match QueryRow_Scan table serverID with
  | Err err => (Some err, table)
  | Ok (existingChannelID1, existingChannelID2) =>
      let existingChannelID1 :=
        match channel1 with Some c => ID c | None => existingChannelID1 end in
      let existingChannelID2 :=
        match channel2 with Some c => ID c | None => existingChannelID2 end in
      (None,
       <[serverID := (Some existingChannelID1, Some existingChannelID2)]> table)
  end.

(** [SELECT COUNT( * ) FROM channels WHERE channel_id1 = ? OR channel_id2 = ?];
    a NULL column equals nothing. *)
Definition isTranslateChannel (table : channelsTable) (channelID : gostring)
    : bool :=
  let count :=
    length (filter (λ row : list Z * (option (list Z) * option (list Z)),
                      row.2.1 = Some channelID ∨ row.2.2 = Some channelID)
                   (map_to_list table)) in
  bool_decide (0 < count).

Section handler.
Context (category : rune → unicode.GeneralCategory).
Context (To_LowerCase : rune → rune).
Context (Getenv_TRANSLATE_PATH : gostring).
Context (cmd_Run : gostring → gostring → option error * gostring * gostring).

Definition translateToEnglish (text : gostring) : Handler (Result gostring) :=
  emit (TranslateToEnglish text None);;
  mret (TransShell.translateToEnglish Getenv_TRANSLATE_PATH cmd_Run text).

(** [m.Content = words[1]] when the message is ["en"] and one more word. *)
Definition stripPrefix (words : list gostring) (content : gostring)
    : gostring :=
  if bool_decide (length words = 2)
     && bool_decide (strings.ToLower To_LowerCase (default [] (words !! 0))
                     = lit "en")
  then default [] (words !! 1)
  else content.

Definition messageCreate (table : channelsTable) (s : Session)
    (m : MessageCreate) : Handler unit :=
  if bool_decide (Author_ID m = State_User_ID s)
     || negb (isTranslateChannel table (ChannelID m))
  then mret tt
  else if Filters.isOnlyEmoji category (Content m) then mret tt
  else
    let words := strings.Fields (Content m) in
    if bool_decide (length words = 1) then mret tt
    else
      let content := stripPrefix words (Content m) in
      r ← translateToEnglish content;
      match r with
      | Err err => emit (LogPrintln (lit "Error translating message,") err)
      | Ok translatedText =>
          if Filters.areTextsSimilar To_LowerCase content translatedText
          then mret tt
          else emit (ChannelMessageSend (ChannelID m)
                       (Sprintf_Translated translatedText))
      end.
End handler.
End TwoChannel.

(** ** Variant with one channel, remote language detection and [trans] *)

Module DetectCli.
Section handler.
Context (category : rune → unicode.GeneralCategory).
(** The answer of the detection service, and the outcome of running
    [trans -b :en text]: its error and its standard output. *)
Context (detect : gostring → Result gostring).
Context (cmd_Run : gostring → option error * gostring).

Definition detectLanguage (text : gostring) : Handler (Result gostring) :=
  emit (DetectLanguage text);; mret (detect text).

Definition translateToEnglish (text : gostring) : Handler (Result gostring) :=
  emit (TranslateToEnglish text None);;
  mret (match cmd_Run text with
        | (Some err, _) => Err err
        | (None, out) => Ok (strings.TrimSpace out)
        end).

Definition messageCreate (translateChannelID : gostring) (s : Session)
    (m : MessageCreate) : Handler unit :=
  if bool_decide (Author_ID m = State_User_ID s)
     || bool_decide (ChannelID m ≠ translateChannelID)
  then mret tt
  else if Filters.isOnlyEmoji category (Content m) then mret tt
  else
    r ← detectLanguage (Content m);
    match r with
    | Err err => emit (LogPrintln (lit "Error detecting language,") err)
    | Ok detectedLang =>
        if bool_decide (detectedLang ≠ lit "en") then
          r ← translateToEnglish (Content m);
          match r with
          | Err err =>
              emit (LogPrintln (lit "Error translating message,") err)
          | Ok translatedText =>
              emit (ChannelMessageSend (ChannelID m)
                      (Sprintf_Translated translatedText))
          end
        else mret tt
    end.
End handler.
End DetectCli.

(** ** Variant with one channel, remote detection and remote translation *)

Module DetectApi.
Section handler.
(** The answers of the detection and of the translation service. *)
Context (detect : gostring → Result gostring).
Context (translate : gostring → gostring → Result gostring).

Definition detectLanguage (text : gostring) : Handler (Result gostring) :=
  emit (DetectLanguage text);; mret (detect text).

Definition translateToEnglish (text sourceLang : gostring)
    : Handler (Result gostring) :=
  emit (TranslateToEnglish text (Some sourceLang));;
  mret (translate text sourceLang).

Definition messageCreate (translateChannelID : gostring) (s : Session)
    (m : MessageCreate) : Handler unit :=
  if bool_decide (Author_ID m = State_User_ID s)
     || bool_decide (ChannelID m ≠ translateChannelID)
  then mret tt
  else
    r ← detectLanguage (Content m);
    match r with
    | Err err => emit (LogPrintln (lit "Error detecting language,") err)
    | Ok detectedLang =>
        if bool_decide (detectedLang ≠ lit "en") then
          r ← translateToEnglish (Content m) detectedLang;
          match r with
          | Err err =>
              emit (LogPrintln (lit "Error translating message,") err)
          | Ok translatedText =>
              emit (ChannelMessageSend (ChannelID m)
                      (Sprintf_Translated translatedText))
          end
        else mret tt
    end.
End handler.
End DetectApi.

(** ** The properties, in the words of the specification *)

Module Spec.

(** The code point belongs to the symbol, other-symbol or non-spacing-mark
    general category. *)
Definition symbolOrMark (category : rune → unicode.GeneralCategory)
    (r : rune) : Prop :=
  category r ∈ [unicode.GcSm; unicode.GcSc; unicode.GcSk; unicode.GcSo]
  ∨ category r = unicode.GcSo
  ∨ category r = unicode.GcMn.

Definition letter (category : rune → unicode.GeneralCategory)
    (r : rune) : Prop :=
  category r ∈ [unicode.GcLu; unicode.GcLl; unicode.GcLt; unicode.GcLm;
                unicode.GcLo].

Definition digit (category : rune → unicode.GeneralCategory)
    (r : rune) : Prop :=
  category r = unicode.GcNd.

(** Trim surrounding white space and lower-case. *)
Definition normalize (To_LowerCase : rune → rune) (text : gostring)
    : gostring :=
  strings.ToLower To_LowerCase (strings.TrimSpace text).

(** The mismatch counter: one for every index [i] of the original's tokens
    at which the translated token is absent or differs. *)
Definition mismatchCount (originalWords translatedWords : list gostring)
    : nat :=
  sum_list
    (imap (λ i originalWord,
             if decide (translatedWords !! i = Some originalWord)
             then 0 else 1)
          originalWords).

(** A field is not empty and holds no separator. *)
Definition isField (f : rune → bool) (w : gostring) : Prop :=
  w ≠ [] ∧ Forall (λ r, f r = false) w.

(** A slot is unset when it is NULL or empty; a set slot holds its value. *)
Definition slotHolds (slot : option gostring) (channelID : gostring) : Prop :=
  slot = Some channelID ∧ channelID ≠ [].

(** No set slot of any server's record holds the channel. *)
Definition noSetSlotHolds3
    (table : gmap (list Z)
               (option (list Z) * option (list Z) * option (list Z)))
    (channelID : gostring) : Prop :=
  ∀ serverID c1 c2 c3, table !! serverID = Some (c1, c2, c3) →
    ¬ slotHolds c1 channelID ∧ ¬ slotHolds c2 channelID
    ∧ ¬ slotHolds c3 channelID.

Definition noSetSlotHolds2
    (table : gmap (list Z) (option (list Z) * option (list Z)))
    (channelID : gostring) : Prop :=
  ∀ serverID c1 c2, table !! serverID = Some (c1, c2) →
    ¬ slotHolds c1 channelID ∧ ¬ slotHolds c2 channelID.

(** The tables of the two-slot variant: [CREATE TABLE IF NOT EXISTS] starts
    from nothing and [addTranslateChannels] is the only writer. *)
Inductive written
    : gmap (list Z) (option (list Z) * option (list Z)) → Prop :=
| written_empty : written ∅
| written_add (table : gmap (list Z) (option (list Z) * option (list Z)))
    (serverID : gostring) (channel1 channel2 : option Channel) :
    written table →
    written (TwoChannel.addTranslateChannels serverID channel1 channel2
               table).2.

(** Slot-wise upsert: a supplied channel overwrites the slot, an absent one
    keeps the prior value. *)
Definition upsert (supplied : option Channel) (prior : option gostring)
    : option gostring :=
  match supplied with
  | Some c => Some (ID c)
  | None => prior
  end.

(** The rule that [ToLower] leaves the white-space property of a rune alone;
    the ASCII case is in the code, this is the part on [CaseRanges]. *)
Definition caseKeepsSpace (To_LowerCase : rune → rune) : Prop :=
  ∀ r : rune, (unicode.MaxASCII < r)%Z →
    unicode.IsSpace (To_LowerCase r) = unicode.IsSpace r.
End Spec.

(** ** An excerpt of the Unicode tables, for the worked examples

    ASCII, Latin-1 and a few code points emoji are made of; a code point
    outside the excerpt is reported as unassigned. *)

Module Sample.
Import unicode.
Local Open Scope Z_scope.

Definition within (lo hi r : rune) : bool := (lo <=? r) && (r <=? hi).

Definition category (r : rune) : GeneralCategory :=
  if r <? 0 then GcCn
  else if r <? 0x20 then GcCc
  else if r =? 0x20 then GcZs
  else if within 0x30 0x39 r then GcNd
  else if within 0x41 0x5A r then GcLu
  else if within 0x61 0x7A r then GcLl
  else if r =? 0x24 then GcSc
  else if (r =? 0x2B) || within 0x3C 0x3E r || (r =? 0x7C) || (r =? 0x7E)
       then GcSm
  else if (r =? 0x5E) || (r =? 0x60) then GcSk
  else if (r =? 0x28) || (r =? 0x5B) || (r =? 0x7B) then GcPs
  else if (r =? 0x29) || (r =? 0x5D) || (r =? 0x7D) then GcPe
  else if r =? 0x2D then GcPd
  else if r =? 0x5F then GcPc
  else if r <? 0x7F then GcPo
  else if within 0x7F 0x9F r then GcCc
  else if r =? 0xA0 then GcZs
  else if within 0xA2 0xA5 r then GcSc
  else if (r =? 0xA6) || (r =? 0xA9) || (r =? 0xAE) || (r =? 0xB0) then GcSo
  else if (r =? 0xA8) || (r =? 0xAF) || (r =? 0xB4) || (r =? 0xB8) then GcSk
  else if (r =? 0xAA) || (r =? 0xBA) then GcLo
  else if r =? 0xAB then GcPi
  else if (r =? 0xAC) || (r =? 0xB1) then GcSm
  else if r =? 0xAD then GcCf
  else if (r =? 0xB2) || (r =? 0xB3) || (r =? 0xB9) || within 0xBC 0xBE r
       then GcNo
  else if r =? 0xB5 then GcLl
  else if r =? 0xBB then GcPf
  else if within 0xA1 0xBF r then GcPo
  else if (r =? 0xD7) || (r =? 0xF7) then GcSm
  else if within 0xC0 0xDE r then GcLu
  else if within 0xDF 0xFF r then GcLl
  else if r =? 0xFE0F then GcMn
  else if within 0x1F3FB 0x1F3FF r then GcSk
  else if (r =? 0x1F389) || within 0x1F600 0x1F64F r then GcSo
  else GcCn.

(** Lower case on Latin-1: [U+00C0]-[U+00DE] without the multiplication
    sign. *)
Definition To_LowerCase (r : rune) : rune :=
  if within 0xC0 0xDE r && negb (r =? 0xD7) then r + 32 else r.

(** A [trans] that answers from a fixed phrase book, each answer ending in a
    line feed, and fails on the rest. *)
Definition cmd_Run (path stdin : gostring)
    : option error * gostring * gostring :=
  if bool_decide (stdin = lit "bonjour le monde")
  then (None, lit "hello the world" ++ [10], [])
  else if bool_decide (stdin = lit "hello world")
  then (None, lit "hello world" ++ [10], [])
  else if bool_decide (stdin = lit "monde")
  then (None, lit "world" ++ [10], [])
  else (Some (lit "exit status 1"), [], lit "no network").

Definition TRANSLATE_PATH : gostring := lit "/usr/bin/trans".

(** The same [trans], given the text as an argument. *)
Definition trans_Run (text : gostring) : option error * gostring :=
  let '(err, out, _) := cmd_Run TRANSLATE_PATH text in (err, out).

Definition detect (text : gostring) : Result gostring :=
  if bool_decide (text = lit "bonjour le monde") then Ok (lit "fr")
  else if bool_decide (text = lit "hello world") then Ok (lit "en")
  else Err (lit "unexpected response format or empty data").

Definition translate (text sourceLang : gostring) : Result gostring :=
  if bool_decide (text = lit "bonjour le monde") then Ok (lit "hello the world")
  else Err (lit "unexpected response status: 429").

Definition bot : Session := {| State_User_ID := lit "900" |}.
Definition general : Channel := {| ID := lit "101" |}.
Definition random : Channel := {| ID := lit "102" |}.
Definition guild : gostring := lit "7".

(** The package variables at start-up with one banned word, and after
    [/translate channel1:#general] in [guild]. *)
Definition startup : ThreeChannel.Globals :=
  {| ThreeChannel.db := ∅;
     ThreeChannel.bannedWords := {[lit "spam"]};
     ThreeChannel.translateChannels := ∅ |}.

Definition enrolled : ThreeChannel.Globals :=
  ThreeChannel.addTranslateChannels guild (Some general) None None startup.

(** The two-slot table after the same command. *)
Definition enrolled2 : gmap (list Z) (option (list Z) * option (list Z)) :=
  (TwoChannel.addTranslateChannels guild (Some general) None ∅).2.

Definition message (channelID content : gostring) : MessageCreate :=
  {| Author_ID := lit "5"; ChannelID := channelID; Content := content |}.
End Sample.

(** ** The slash commands

    More of the standard library first: [strings.Split] (the commands only
    split on a comma, so the separator is one rune), [strings.Join],
    [strings.HasPrefix] and [strings.Contains]. *)

Module strings_.
Fixpoint Split_loop (sep : rune) (piece : gostring) (s : gostring)
    : list gostring :=
  match s with
  | [] => [piece]
  | r :: s' =>
      if bool_decide (r = sep) then piece :: Split_loop sep [] s'
      else Split_loop sep (piece ++ [r]) s'
  end.

Definition Split (s : gostring) (sep : rune) : list gostring :=
  Split_loop sep [] s.

Fixpoint Join (elems : list gostring) (sep : gostring) : gostring :=
  match elems with
  | [] => []
  | [e] => e
  | e :: rest => e ++ sep ++ Join rest sep
  end.

Fixpoint HasPrefix (s prefix : gostring) : bool :=
  match prefix, s with
  | [], _ => true
  | _ :: _, [] => false
  | p :: prefix', r :: s' => bool_decide (r = p) && HasPrefix s' prefix'
  end.

Fixpoint Contains (s substr : gostring) : bool :=
  HasPrefix s substr
  || match s with
     | [] => false
     | _ :: s' => Contains s' substr
     end.
End strings_.

(** [Channel.Mention]. *)
Definition Mention (c : Channel) : gostring := lit "<#" ++ ID c ++ lit ">".

(** An option of a [/translate] interaction: its name and the channel
    [ChannelValue] resolves it to, whose [ID] is the identity sent. *)
Record ChannelOption := { Name : gostring; ChannelValue : Channel }.

(** *** The commands of the three-slot variant *)

Module ThreeChannelCommands.

(** The loop over the options of [/translate]: a later option of the same
    name replaces an earlier one, other names are passed over. *)
Fixpoint options_loop (options : list ChannelOption)
    (channels : option Channel * option Channel * option Channel)
    : option Channel * option Channel * option Channel :=
  match options with
  | [] => channels
  | option :: options' =>
      let '(channel1, channel2, channel3) := channels in
      options_loop options'
        (if bool_decide (Name option = lit "channel1")
         then (Some (ChannelValue option), channel2, channel3)
         else if bool_decide (Name option = lit "channel2")
         then (channel1, Some (ChannelValue option), channel3)
         else if bool_decide (Name option = lit "channel3")
         then (channel1, channel2, Some (ChannelValue option))
         else channels)
  end.

(** The confirmation that [handleTranslateCommand] builds. *)
Definition responseContent (channel1 channel2 channel3 : option Channel)
    : gostring :=
  let responseContent := lit "Translation enabled for" in
  let responseContent :=
    match channel1 with
    | Some c => responseContent ++ lit " channel 1: " ++ Mention c
    | None => responseContent
    end in
  let responseContent :=
    match channel2 with
    | Some c =>
        (if bool_decide (channel1 ≠ None) then responseContent ++ lit " and"
         else responseContent) ++ lit " channel 2: " ++ Mention c
    | None => responseContent
    end in
  match channel3 with
  | Some c =>
      (if bool_decide (channel1 ≠ None) || bool_decide (channel2 ≠ None)
       then responseContent ++ lit " and"
       else responseContent) ++ lit " channel 3: " ++ Mention c
  | None => responseContent
  end.

(** [handleTranslateCommand]: the response and the package variables after
    it. *)
Definition handleTranslateCommand (GuildID : gostring)
    (options : list ChannelOption) (g : ThreeChannel.Globals)
    : gostring * ThreeChannel.Globals :=
  let '(channel1, channel2, channel3) :=
    options_loop options (None, None, None) in
  if bool_decide (channel1 = None) && bool_decide (channel2 = None)
     && bool_decide (channel3 = None)
  then (lit "Error: At least one channel must be provided.", g)
  else
    let g :=
      ThreeChannel.addTranslateChannels GuildID channel1 channel2 channel3 g in
    (responseContent channel1 channel2 channel3, g).

(** Table [wordban], by its [UNIQUE] and [NOT NULL] column [word], beside
    the package variables.  As for the channels, the store is taken to
    answer every statement, so the replies to a failed statement are not
    part of the commands below. *)
Record State := {
  wordban : gset (list Z);
  vars : ThreeChannel.Globals
}.

(** [loadBannedWords]: a fresh map, one key per row. *)
Definition loadBannedWords (table : gset (list Z)) : gset (list Z) :=
  foldr (λ word bannedWords, {[word]} ∪ bannedWords) ∅ (elements table).

Definition reload (table : gset (list Z)) (g : ThreeChannel.Globals)
    : ThreeChannel.Globals :=
  {| ThreeChannel.db := ThreeChannel.db g;
     ThreeChannel.bannedWords := loadBannedWords table;
     ThreeChannel.translateChannels := ThreeChannel.translateChannels g |}.

Section banword.
Context (To_LowerCase : rune → rune).

(** The loop of [handleBanwordAddCommand] over the comma-separated pieces:
    the table and [addedWords] as they grow.  [count] is the answer to
    [SELECT COUNT( * ) FROM wordban WHERE word = ?]. *)
Fixpoint handleBanwordAddCommand_loop (wordList : list gostring)
    (table : gset (list Z)) (addedWords : list gostring)
    : gset (list Z) * list gostring :=
  match wordList with
  | [] => (table, addedWords)
  | word :: wordList' =>
      let word := strings.TrimSpace (strings.ToLower To_LowerCase word) in
      if bool_decide (word = []) then
        handleBanwordAddCommand_loop wordList' table addedWords
      else
        let count := if bool_decide (word ∈ table) then 1 else 0 in
        if bool_decide (count = 0) then
          handleBanwordAddCommand_loop wordList' ({[word]} ∪ table)
            (addedWords ++ [word])
        else handleBanwordAddCommand_loop wordList' table addedWords
  end.

Definition handleBanwordAddCommand (words : gostring) (st : State)
    : gostring * State :=
  let wordList := strings_.Split words 44 in
  let '(table, addedWords) :=
    handleBanwordAddCommand_loop wordList (wordban st) [] in
  if bool_decide (0 < length addedWords) then
    (lit "Added words to ban list: " ++ strings_.Join addedWords (lit ", "),
     {| wordban := table; vars := reload table (vars st) |})
  else
    (lit "No new words were added to the ban list.",
     {| wordban := table; vars := vars st |}).

Definition handleBanwordRemoveCommand (word : gostring) (st : State)
    : gostring * State :=
  let word := strings.TrimSpace (strings.ToLower To_LowerCase word) in
  if bool_decide (word = []) then (lit "No word provided to remove.", st)
  else
    let table := wordban st ∖ {[word]} in
    (lit "Removed word from ban list: " ++ word,
     {| wordban := table; vars := reload table (vars st) |}).
End banword.

(** [handleBanwordListCommand], given the rows that
    [SELECT word FROM wordban] yields, in the order it yields them. *)
Definition handleBanwordListCommand (rows : list gostring) : gostring :=
  lit "Banned words: " ++ strings_.Join rows (lit ", ").
End ThreeChannelCommands.

(** *** The command of the two-slot variant *)

Module TwoChannelCommands.

Fixpoint options_loop (options : list ChannelOption)
    (channels : option Channel * option Channel)
    : option Channel * option Channel :=
  match options with
  | [] => channels
  | option :: options' =>
      let '(channel1, channel2) := channels in
      options_loop options'
        (if bool_decide (Name option = lit "channel1")
         then (Some (ChannelValue option), channel2)
         else if bool_decide (Name option = lit "channel2")
         then (channel1, Some (ChannelValue option))
         else channels)
  end.

Definition responseContent (channel1 channel2 : option Channel) : gostring :=
  let responseContent := lit "Translation enabled for" in
  let responseContent :=
    match channel1 with
    | Some c => responseContent ++ lit " channel 1: " ++ Mention c
    | None => responseContent
    end in
  match channel2 with
  | Some c =>
      (if bool_decide (channel1 ≠ None) then responseContent ++ lit " and"
       else responseContent) ++ lit " channel 2: " ++ Mention c
  | None => responseContent
  end.

(** [interactionCreate]: the response, if there is one, and the table after
    it.  [isApplicationCommand] is [i.Type == InteractionApplicationCommand]
    and [CommandName] the name of the command. *)
Definition interactionCreate (isApplicationCommand : bool)
    (CommandName GuildID : gostring) (options : list ChannelOption)
    (table : gmap (list Z) (option (list Z) * option (list Z)))
    : option gostring * gmap (list Z) (option (list Z) * option (list Z)) :=
  if isApplicationCommand then
    if bool_decide (CommandName = lit "translate") then
      let '(channel1, channel2) := options_loop options (None, None) in
      if bool_decide (channel1 = None) && bool_decide (channel2 = None)
      then (Some (lit "Error: At least one channel must be provided."), table)
      else
        match TwoChannel.addTranslateChannels GuildID channel1 channel2 table
        with
        | (Some err, table) =>
            (Some (lit "Failed to enable translation for channels: " ++ err),
             table)
        | (None, table) => (Some (responseContent channel1 channel2), table)
        end
    else (None, table)
  else (None, table).
End TwoChannelCommands.

(** *** The command of the one-channel variants

    The same text in all three of them: the first option named ["channel"]
    becomes the one enrolled channel. *)

Module OneChannelCommands.

Fixpoint options_loop (options : list ChannelOption)
    (translateChannelID : gostring) : option gostring * gostring :=
  match options with
  | [] => (None, translateChannelID)
  | option :: options' =>
      if bool_decide (Name option = lit "channel") then
        let channel := ChannelValue option in
        (Some (lit "Translation enabled for channel: " ++ Mention channel),
         ID channel)
      else options_loop options' translateChannelID
  end.

Definition interactionCreate (isApplicationCommand : bool)
    (CommandName : gostring) (options : list ChannelOption)
    (translateChannelID : gostring) : option gostring * gostring :=
  if isApplicationCommand then
    if bool_decide (CommandName = lit "translate") then
      options_loop options translateChannelID
    else (None, translateChannelID)
  else (None, translateChannelID).
End OneChannelCommands.

(** ** The remote services

    What [encoding/json] and [net/http] hand to the bot: the value decoded
    into an [interface{}], and the outcome of a request. *)

Module json.
(** The dynamic value of an [interface{}] after [json.Unmarshal]; a number
    is kept as the bits of its [float64], which the bot never looks at. *)
#[local] Set Warnings "-register-all".
Inductive Value :=
| Null
| Bool (b : bool)
| Number (bits : Z)
| String (s : list Z)
| Array (elems : list Value)
| Object (fields : gmap (list Z) Value).
#[local] Set Warnings "register-all".

(** [v.(map[string]interface{})], [v.([]interface{})] and [v.(string)] with
    the comma-ok form, [v] being the element a map lookup gave ([None] for a
    missing key, which reads as the nil interface). *)
Definition asObject (v : option Value) : option (gmap (list Z) Value) :=
  match v with Some (Object fields) => Some fields | _ => None end.
Definition asArray (v : option Value) : option (list Value) :=
  match v with Some (Array elems) => Some elems | _ => None end.
Definition asString (v : option Value) : option gostring :=
  match v with Some (String s) => Some s | _ => None end.
End json.

Module http.
Definition StatusOK : Z := 200.

(** The outcome of sending a request and reading the body: the request
    fails, or a response arrives and [ioutil.ReadAll] fails after reading
    [partial], or the body is read. *)
Inductive Outcome :=
| DoFailed (err : error)
| ReadAllFailed (StatusCode : Z) (ContentType partial : gostring) (err : error)
| Responded (StatusCode : Z) (ContentType body : gostring).
End http.

(** A function that returns a value and an error, or panics. *)
Inductive Run (A : Type) : Type :=
| Returned (r : Result A)
| Panicked.
Arguments Returned {A} r.
Arguments Panicked {A}.

(** The payload of the detection request: [fmt.Sprintf(`{"q": ["%s"]}`, text)];
    34 is the double quote. *)
Definition detectPayload (text : gostring) : gostring :=
  lit "{" ++ [34%Z] ++ lit "q" ++ [34%Z] ++ lit ": [" ++ [34%Z] ++ text
  ++ [34%Z] ++ lit "]}".

(** [detectLanguage]'s reading of the decoded response, in the copies that
    expect [data.detections[0][0].language]. *)
Definition detectionLanguage (result : gmap (list Z) json.Value)
    : Result gostring :=
  match json.asObject (result !! lit "data") with
  | None => Err (lit "unexpected response format or empty data")
  | Some data =>
      match json.asArray (data !! lit "detections") with
      | None | Some [] =>
          Err (lit "unexpected response format or empty detections")
      | Some (detections0 :: _) =>
          match json.asArray (Some detections0) with
          | None | Some [] =>
              Err (lit "unexpected response format or empty first detection")
          | Some (firstDetection0 :: _) =>
              match json.asObject (Some firstDetection0) with
              | None => Err (lit "unexpected response format for detection")
              | Some detection =>
                  match json.asString (detection !! lit "language") with
                  | None => Err (lit "language key not found or not a string")
                  | Some language => Ok language
                  end
              end
          end
      end
  end.

(** The same in the copy that expects [data[0].language]. *)
Definition detectionLanguage_flat (result : gmap (list Z) json.Value)
    : Result gostring :=
  match json.asArray (result !! lit "data") with
  | None | Some [] => Err (lit "unexpected response format or empty data")
  | Some (data0 :: _) =>
      match json.asObject (Some data0) with
      | None => Err (lit "unexpected response format for detection")
      | Some detection =>
          match json.asString (detection !! lit "language") with
          | None => Err (lit "language key not found or not a string")
          | Some language => Ok language
          end
      end
  end.

(** [translateToEnglish]'s reading of the decoded response, with the
    comma-ok assertions of the first copy in [main.go]. *)
Definition translatedText (result : gmap (list Z) json.Value)
    : Result gostring :=
  match json.asObject (result !! lit "responseData") with
  | None => Err (lit "responseData key not found or not a map")
  | Some responseData =>
      match json.asString (responseData !! lit "translatedText") with
      | None => Err (lit "translatedText key not found or not a string")
      | Some translatedText => Ok translatedText
      end
  end.


Section services.
(** [json.Unmarshal(body, &result)] for a [map[string]interface{}]: the
    error, or the map; on an error the map is left nil. *)
Context (Unmarshal : gostring → Result (gmap (list Z) json.Value)).

(** [detectLanguage] of the variant that translates with [trans]. *)
Definition DetectCli_detectLanguage (Do : gostring → http.Outcome)
    (text : gostring) : Result gostring :=
  match Do (detectPayload text) with
  | http.DoFailed err => Err err
  | http.ReadAllFailed _ _ _ err => Err err
  | http.Responded _ _ body =>
      match Unmarshal body with
      | Err err => Err err
      | Ok result => detectionLanguage result
      end
  end.

(** [detectLanguage] of the first copy in [main.go]: the content type is
    looked at before the body is decoded. *)
Definition DetectApi_detectLanguage (Do : gostring → http.Outcome)
    (text : gostring) : Result gostring :=
  match Do (detectPayload text) with
  | http.DoFailed err => Err err
  | http.ReadAllFailed _ _ _ err => Err err
  | http.Responded _ ContentType body =>
      if negb (strings_.Contains ContentType (lit "application/json")) then
        Err (lit "expected JSON response, got " ++ ContentType)
      else
        match Unmarshal body with
        | Err err => Err err
        | Ok result => detectionLanguage result
        end
  end.

(** [detectLanguage] of the second copy in [main.go]. *)
Definition DetectApiAuto_detectLanguage (Do : gostring → http.Outcome)
    (text : gostring) : Result gostring :=
  match Do (detectPayload text) with
  | http.DoFailed err => Err err
  | http.ReadAllFailed _ _ _ err => Err err
  | http.Responded _ _ body =>
      match Unmarshal body with
      | Err err => Err err
      | Ok result => detectionLanguage_flat result
      end
  end.

(** [translateToEnglish] of the first copy in [main.go]; [Get text
    sourceLang] is the outcome of the request for that pair. *)
Definition DetectApi_translateToEnglish
    (Get : gostring → gostring → http.Outcome) (text sourceLang : gostring)
    : Result gostring :=
  match Get text sourceLang with
  | http.DoFailed err => Err err
  | http.ReadAllFailed StatusCode ContentType partial err =>
      if bool_decide (StatusCode ≠ http.StatusOK) then
        Err (lit "unexpected response status: " ++ Sprintf_d StatusCode
             ++ lit ", body: " ++ partial)
      else Err err
  | http.Responded StatusCode ContentType body =>
      if bool_decide (StatusCode ≠ http.StatusOK) then
        Err (lit "unexpected response status: " ++ Sprintf_d StatusCode
             ++ lit ", body: " ++ body)
      else if negb (strings_.Contains ContentType (lit "application/json"))
      then Err (lit "expected JSON response, got " ++ ContentType)
      else
        match Unmarshal body with
        | Err err => Err err
        | Ok result => translatedText result
        end
  end.

End services.

(** ** Second copy in [main.go]: remote detection, translation without the
    detected language, and a handler that a panic of the gateway ends *)

Module DetectApiAuto.
Section handler.
Context (detect : gostring → Result gostring).
Context (translate : gostring → Run gostring).

(** The trace of [messageCreate], and whether it ended in a panic. *)
Definition messageCreate (translateChannelID : gostring) (s : Session)
    (m : MessageCreate) : list Event * bool :=
  if bool_decide (Author_ID m = State_User_ID s)
     || bool_decide (ChannelID m ≠ translateChannelID)
  then ([], false)
  else
    match detect (Content m) with
    | Err err =>
        ([DetectLanguage (Content m);
          LogPrintln (lit "Error detecting language,") err], false)
    | Ok detectedLang =>
        if bool_decide (detectedLang ≠ lit "en") then
          match translate (Content m) with
          | Panicked =>
              ([DetectLanguage (Content m);
                TranslateToEnglish (Content m) None], true)
          | Returned (Err err) =>
              ([DetectLanguage (Content m);
                TranslateToEnglish (Content m) None;
                LogPrintln (lit "Error translating message,") err], false)
          | Returned (Ok translatedText) =>
              ([DetectLanguage (Content m);
                TranslateToEnglish (Content m) None;
                ChannelMessageSend (ChannelID m)
                  (Sprintf_Translated translatedText)], false)
          end
        else ([DetectLanguage (Content m)], false)
    end.
End handler.
End DetectApiAuto.

(** ** What a handler may do for one message *)

Module Traces.
(** At most one call of the detector, one call of the gateway and one post;
    a post goes to the channel of the message and begins with the label; a
    run that logs an error posts nothing. *)
Definition orderly (m : MessageCreate) (t : list Event) : Prop :=
  count isDetectorCall t ≤ 1
  ∧ count isGatewayCall t ≤ 1
  ∧ count isPost t ≤ 1
  ∧ (∀ channelID content, ChannelMessageSend channelID content ∈ t →
       channelID = ChannelID m
       ∧ ∃ translatedText, content = lit "Translated: " ++ translatedText)
  ∧ (∀ text sourceLang, TranslateToEnglish text sourceLang ∈ t →
       text = Content m ∨ ∃ prefix, strings.Fields (Content m) = [prefix; text])
  ∧ (∀ msg err, LogPrintln msg err ∈ t → count isPost t = 0).
End Traces.

(** ** The commands, in words *)

Module CommandSpec.
(** The channel of the last, and of the first, option of a given name. *)
Definition lastNamed (name : gostring) (options : list ChannelOption)
    : option Channel :=
  ChannelValue <$> last (filter (λ o, Name o = name) options).

Definition firstNamed (name : gostring) (options : list ChannelOption)
    : option Channel :=
  ChannelValue <$> head (filter (λ o, Name o = name) options).

(** One item of the confirmation per slot that was supplied. *)
Definition item (label : gostring) (channel : option Channel)
    : list gostring :=
  match channel with
  | Some c => [label ++ Mention c]
  | None => []
  end.

(** A word as the ban list stores it: lower-cased, then trimmed. *)
Definition stored (To_LowerCase : rune → rune) (word : gostring) : gostring :=
  strings.TrimSpace (strings.ToLower To_LowerCase word).

(** The words of a comma-separated list that can be stored: the pieces,
    each lower-cased and trimmed, without the empty ones. *)
Definition storable (To_LowerCase : rune → rune) (words : gostring)
    : list gostring :=
  filter (λ word, word ≠ []) (stored To_LowerCase <$> strings_.Split words 44).

(** The cache of banned words agrees with the table. *)
Definition cached (st : ThreeChannelCommands.State) : Prop :=
  ThreeChannel.bannedWords (ThreeChannelCommands.vars st)
  = ThreeChannelCommands.wordban st.
End CommandSpec.

Module Sample2.
Definition options : list ChannelOption :=
  [{| Name := lit "channel2"; ChannelValue := Sample.random |};
   {| Name := lit "channel1"; ChannelValue := Sample.general |}].

Definition state : ThreeChannelCommands.State :=
  {| ThreeChannelCommands.wordban := {[lit "spam"]};
     ThreeChannelCommands.vars := Sample.enrolled |}.
End Sample2.


Module Sample3.
(** A detection service that answers in the nested shape, and a translation
    service that answers with an error document. *)
Definition Unmarshal (body : gostring) : Result (gmap (list Z) json.Value) :=
  if bool_decide (body = lit "detections") then
    Ok {[lit "data" :=
           json.Object
             {[lit "detections" :=
                 json.Array
                   [json.Array
                      [json.Object
                         {[lit "language" := json.String (lit "fr")]}]]]}]}
  else if bool_decide (body = lit "quota") then
    Ok {[lit "responseStatus" := json.Number 429]}
  else Err (lit "invalid character '<' looking for beginning of value").

Definition Do (payload : gostring) : http.Outcome :=
  http.Responded 200 (lit "application/json") (lit "detections").

Definition Get (text : gostring) : http.Outcome :=
  http.Responded 429 (lit "application/json") (lit "quota").
End Sample3.
(** * Facts about the library functions *)

Section FieldsFacts.
Context (f : rune → bool).

Lemma FieldsFunc_loop_sep (start : option gostring) (s : gostring) (r : rune) :
  f r = true →
  strings.FieldsFunc_loop f start (s ++ [r]) = strings.FieldsFunc_loop f start s.
Proof.
  intros Hr. revert start.
  induction s as [|x s IH]; intros start; simpl.
  - rewrite Hr. by destruct start.
  - destruct (f x); [destruct start|]; by rewrite IH.
Qed.

Lemma FieldsFunc_loop_seps (start : option gostring) (s t : gostring) :
  Forall (λ r, f r = true) t →
  strings.FieldsFunc_loop f start (s ++ t) = strings.FieldsFunc_loop f start s.
Proof.
  intros Ht. revert s.
  induction Ht as [|r t Hr _ IH]; intros s.
  - by rewrite app_nil_r.
  - rewrite cons_middle, (assoc_L (++)), IH. by apply FieldsFunc_loop_sep.
Qed.

Lemma TrimLeftFunc_split (s : gostring) :
  ∃ pre, s = pre ++ strings.TrimLeftFunc f s ∧ Forall (λ r, f r = true) pre.
Proof.
  induction s as [|x s (pre & Hs & Hpre)]; simpl.
  - by exists [].
  - destruct (f x) eqn:Hx.
    + exists (x :: pre). split; [by rewrite Hs at 1 | by constructor].
    + by exists [].
Qed.

Lemma TrimRightFunc_split (s : gostring) :
  ∃ post, s = strings.TrimRightFunc f s ++ post ∧ Forall (λ r, f r = true) post.
Proof.
  destruct (TrimLeftFunc_split (reverse s)) as (pre & Hs & Hpre).
  exists (reverse pre). split.
  - unfold strings.TrimRightFunc.
    rewrite <- reverse_app, <- Hs. by rewrite reverse_involutive.
  - by apply Forall_reverse.
Qed.

Lemma FieldsFunc_TrimLeftFunc (s : gostring) :
  strings.FieldsFunc f (strings.TrimLeftFunc f s) = strings.FieldsFunc f s.
Proof.
  unfold strings.FieldsFunc.
  induction s as [|x s IH]; simpl; [done|].
  destruct (f x) eqn:Hx; [done|]. simpl. by rewrite Hx.
Qed.

Lemma FieldsFunc_TrimRightFunc (s : gostring) :
  strings.FieldsFunc f (strings.TrimRightFunc f s) = strings.FieldsFunc f s.
Proof.
  destruct (TrimRightFunc_split s) as (post & Hs & Hpost).
  unfold strings.FieldsFunc. rewrite Hs at 2.
  by rewrite FieldsFunc_loop_seps.
Qed.

Lemma FieldsFunc_TrimFunc (s : gostring) :
  strings.FieldsFunc f (strings.TrimFunc f s) = strings.FieldsFunc f s.
Proof.
  unfold strings.TrimFunc.
  by rewrite FieldsFunc_TrimRightFunc, FieldsFunc_TrimLeftFunc.
Qed.

(** Mapping the runes through a function that respects [f] maps the fields. *)
Lemma FieldsFunc_loop_fmap (g : rune → rune) (start : option gostring)
    (s : gostring) :
  (∀ r, f (g r) = f r) →
  strings.FieldsFunc_loop f (fmap (M:=list) g <$> start) (g <$> s)
  = fmap (M:=list) g <$> strings.FieldsFunc_loop f start s.
Proof.
  intros Hg. revert start.
  induction s as [|x s IH]; intros start; simpl.
  - by destruct start.
  - rewrite Hg. destruct (f x).
    + destruct start; simpl; [f_equal|]; apply (IH None).
    + rewrite <- IH. f_equal. destruct start; simpl; [|done].
      by rewrite fmap_app.
Qed.

Lemma FieldsFunc_loop_fields (start : option gostring) (s : gostring) :
  (∀ w, start = Some w → Spec.isField f w) →
  Forall (Spec.isField f) (strings.FieldsFunc_loop f start s).
Proof.
  revert start.
  induction s as [|x s IH]; intros start Hstart; simpl.
  - destruct start; [|done]. constructor; [by apply Hstart | done].
  - destruct (f x) eqn:Hx.
    + destruct start.
      * constructor; [by apply Hstart|]. by apply IH.
      * by apply IH.
    + apply IH. intros w [= <-]. destruct start as [w0|]; simpl.
      * destruct (Hstart w0 eq_refl) as [? ?]. split.
        -- by destruct w0.
        -- apply Forall_app. split; [done|]. by constructor.
      * split; [done|]. by constructor.
Qed.

Lemma FieldsFunc_loop_one (start : option gostring) (w : gostring) :
  Forall (λ r, f r = false) w → is_Some start ∨ w ≠ [] →
  strings.FieldsFunc_loop f start w = [default [] start ++ w].
Proof.
  intros Hw. revert start.
  induction Hw as [|x w Hx _ IH]; intros start Hne; simpl.
  - destruct Hne as [[w0 ->]|?]; [|done]. simpl. by rewrite app_nil_r.
  - rewrite Hx, IH by (left; eauto). simpl. by rewrite <- (assoc_L (++)).
Qed.

Lemma FieldsFunc_field (w : gostring) :
  Spec.isField f w → strings.FieldsFunc f w = [w].
Proof.
  intros [Hne Hw]. unfold strings.FieldsFunc.
  rewrite FieldsFunc_loop_one; [done | done | by right].
Qed.

Lemma FieldsFunc_fields (s : gostring) :
  Forall (Spec.isField f) (strings.FieldsFunc f s).
Proof. by apply FieldsFunc_loop_fields. Qed.
End FieldsFacts.

Section CaseFacts.
Context (To_LowerCase : rune → rune).
Hypothesis case_space : Spec.caseKeepsSpace To_LowerCase.

Lemma ToLower_IsSpace (r : rune) :
  unicode.IsSpace (unicode.ToLower To_LowerCase r) = unicode.IsSpace r.
Proof.
  unfold unicode.ToLower.
  destruct (Z.leb_spec r unicode.MaxASCII) as [Hascii|Hhigh].
  - destruct (Z.leb_spec 65 r) as [Hlo|?]; [|done].
    destruct (Z.leb_spec r 90) as [Hhi|?]; [|done]. simpl.
    unfold unicode.IsSpace, unicode.MaxLatin1.
    replace (0 <=? r + (97 - 65))%Z with true by lia.
    replace (r + (97 - 65) <=? 255)%Z with true by lia.
    replace (0 <=? r)%Z with true by lia.
    replace (r <=? 255)%Z with true by lia.
    simpl. repeat (apply (f_equal2 orb); [|lia]). lia.
  - by apply case_space.
Qed.

Lemma Fields_ToLower (s : gostring) :
  strings.Fields (strings.ToLower To_LowerCase s)
  = strings.ToLower To_LowerCase <$> strings.Fields s.
Proof.
  exact (FieldsFunc_loop_fmap _ _ None s ToLower_IsSpace).
Qed.

Lemma Fields_normalize (s : gostring) :
  strings.Fields (Spec.normalize To_LowerCase s)
  = strings.ToLower To_LowerCase <$> strings.Fields s.
Proof.
  unfold Spec.normalize. rewrite Fields_ToLower. f_equal.
  apply FieldsFunc_TrimFunc.
Qed.
End CaseFacts.

Lemma Sample_caseKeepsSpace : Spec.caseKeepsSpace Sample.To_LowerCase.
Proof.
  intros r _. unfold Sample.To_LowerCase, Sample.within.
  destruct (Z.leb_spec 0xC0 r); [|done].
  destruct (Z.leb_spec r 0xDE); [|done].
  destruct (Z.eqb_spec r 0xD7); [done|]. simpl.
  unfold unicode.IsSpace, unicode.MaxLatin1.
  replace (0 <=? r + 32)%Z with true by lia.
  replace (r + 32 <=? 255)%Z with true by lia.
  replace (0 <=? r)%Z with true by lia.
  replace (r <=? 255)%Z with true by lia.
  simpl. repeat (apply (f_equal2 orb); [|lia]). lia.
Qed.

(** * Facts about the filters *)

Section EmojiFacts.
Context (category : rune → unicode.GeneralCategory).

Lemma isEmoji_symbolOrMark (r : rune) :
  Filters.isEmoji category r = true ↔ Spec.symbolOrMark category r.
Proof.
  unfold Filters.isEmoji, unicode.Is, Spec.symbolOrMark.
  rewrite !elem_of_cons, elem_of_nil.
  destruct (category r); simpl; intuition congruence.
Qed.

Lemma isOnlyEmoji_Forall (s : gostring) :
  Filters.isOnlyEmoji category s = true
  ↔ Forall (λ r, Filters.isEmoji category r = true) s.
Proof.
  induction s as [|r s IH]; simpl.
  - done.
  - rewrite Forall_cons. destruct (Filters.isEmoji category r); simpl.
    + rewrite IH. intuition.
    + intuition congruence.
Qed.

Lemma letter_or_digit_not_emoji (r : rune) :
  Spec.letter category r ∨ Spec.digit category r →
  Filters.isEmoji category r = false.
Proof.
  unfold Spec.letter, Spec.digit, Filters.isEmoji, unicode.Is.
  rewrite !elem_of_cons, elem_of_nil.
  destruct (category r); simpl; intuition congruence.
Qed.
End EmojiFacts.

Section SimilarityFacts.
Context (To_LowerCase : rune → rune).

Lemma areTextsSimilar_loop_count (translatedWords rest : list gostring)
    (i diffCount : nat) :
  diffCount ≤ 2 →
  Filters.areTextsSimilar_loop translatedWords i rest diffCount
  = bool_decide
      (diffCount
       + sum_list (imap (λ k originalWord,
                           if decide (translatedWords !! (i + k)
                                      = Some originalWord)
                           then 0 else 1) rest) ≤ 2).
Proof.
  revert i diffCount.
  induction rest as [|w rest IH]; intros i d Hd; simpl.
  - symmetry. apply bool_decide_eq_true. lia.
  - rewrite Nat.add_0_r.
    rewrite (imap_ext _ (λ k originalWord,
               if decide (translatedWords !! (i + 1 + k) = Some originalWord)
               then 0 else 1)); last first.
    { intros k x _. simpl. by replace (i + S k) with (i + 1 + k) by lia. }
    destruct (decide (translatedWords !! i = Some w)) as [Heq|Hne].
    + apply lookup_lt_Some in Heq as Hlt.
      rewrite (bool_decide_eq_false_2 (length translatedWords ≤ i)) by lia.
      rewrite (bool_decide_eq_false_2 (translatedWords !! i ≠ Some w))
        by (intros ?; done).
      simpl. by rewrite IH.
    + rewrite (bool_decide_eq_true_2 (translatedWords !! i ≠ Some w)) by done.
      rewrite orb_true_r.
      destruct (decide (2 < d + 1)) as [Hgt|Hle].
      * rewrite (bool_decide_eq_true_2 _ Hgt).
        symmetry. apply bool_decide_eq_false. lia.
      * rewrite (bool_decide_eq_false_2 _ Hle), IH by lia.
        apply bool_decide_ext. lia.
Qed.

Lemma areTextsSimilar_count (original translated : gostring) :
  Filters.areTextsSimilar To_LowerCase original translated
  = if decide (Spec.normalize To_LowerCase original
               = Spec.normalize To_LowerCase translated)
    then true
    else bool_decide
           (Spec.mismatchCount
              (strings.Fields (Spec.normalize To_LowerCase original))
              (strings.Fields (Spec.normalize To_LowerCase translated)) ≤ 2).
Proof.
  unfold Filters.areTextsSimilar, Spec.normalize, Spec.mismatchCount.
  case_bool_decide as Heq.
  - by rewrite decide_True.
  - rewrite decide_False by done.
    by rewrite areTextsSimilar_loop_count by lia.
Qed.

Lemma sum_list_imap_le {A} (g : nat → A → nat) (l : list A) :
  (∀ i x, g i x ≤ 1) → sum_list (imap g l) ≤ length l.
Proof.
  revert g. induction l as [|x l IH]; intros g Hg; simpl; [lia|].
  specialize (IH (g ∘ S) (λ i, Hg (S i))). specialize (Hg 0 x). lia.
Qed.

Lemma mismatchCount_le (originalWords translatedWords : list gostring) :
  Spec.mismatchCount originalWords translatedWords ≤ length originalWords.
Proof.
  apply sum_list_imap_le. intros i w. case_decide; lia.
Qed.
End SimilarityFacts.

(** The counter cannot pass the number of words of the original. *)
Lemma areTextsSimilar_few_normalized_words (To_LowerCase : rune → rune)
    (original translated : gostring) :
  length (strings.Fields (Spec.normalize To_LowerCase original)) ≤ 2 →
  Filters.areTextsSimilar To_LowerCase original translated = true.
Proof.
  intros Hshort. rewrite areTextsSimilar_count.
  case_decide; [done|]. apply bool_decide_eq_true.
  etrans; [apply mismatchCount_le|done].
Qed.

Lemma areTextsSimilar_few_words (To_LowerCase : rune → rune)
    (original translated : gostring) :
  Spec.caseKeepsSpace To_LowerCase →
  length (strings.Fields original) ≤ 2 →
  Filters.areTextsSimilar To_LowerCase original translated = true.
Proof.
  intros Hcase Hshort. apply areTextsSimilar_few_normalized_words.
  by rewrite (Fields_normalize _ Hcase), length_fmap.
Qed.

(** * The emoji classifier *)

(** C5. [isOnlyEmoji text] is true if and only if every code point of the
    text belongs to the symbol, other-symbol or non-spacing-mark general
    category; the empty string yields true; a text with at least one letter
    or digit yields false. *)
Theorem isOnlyEmoji_iff_symbols_and_marks
    (category : rune → unicode.GeneralCategory) :
  (∀ text : gostring,
     Filters.isOnlyEmoji category text = true
     ↔ Forall (Spec.symbolOrMark category) text)
  ∧ Filters.isOnlyEmoji category [] = true
  ∧ (∀ (text : gostring) (r : rune),
       r ∈ text → Spec.letter category r ∨ Spec.digit category r →
       Filters.isOnlyEmoji category text = false).
Proof.
  split; [|split].
  - intros text. rewrite isOnlyEmoji_Forall.
    apply Forall_iff. intros r. apply isEmoji_symbolOrMark.
  - reflexivity.
  - intros text r Hin Hr.
    apply not_true_is_false. rewrite isOnlyEmoji_Forall, Forall_forall.
    intros Hall. specialize (Hall r Hin).
    by rewrite (letter_or_digit_not_emoji category r Hr) in Hall.
Qed.

Lemma isOnlyEmoji_iff_symbols_and_marks_witness :
  Filters.isOnlyEmoji Sample.category (lit "<3 u") = false
  ∧ Filters.isOnlyEmoji Sample.category [0x1F600; 0x1F389]%Z = true.
Proof.
  destruct (isOnlyEmoji_iff_symbols_and_marks Sample.category)
    as (Hiff & _ & Hletter).
  split.
  - apply (Hletter (lit "<3 u") 117%Z).
    + vm_compute. do 3 right. left.
    + left. vm_compute. do 1 right. left.
  - apply Hiff. repeat constructor.
Defined.

(** * The similarity scorer *)

(** C2. [areTextsSimilar] trims and lower-cases both texts and returns true
    when they are then equal, so [areTextsSimilar X X] is true for every
    [X]; otherwise it splits both on white space, counts the positions of
    the original's tokens at which the translated token is absent or
    differs, and returns false exactly when that count exceeds 2; so
    ["a b c"] against ["a b d"] (one mismatch) is true and ["a b c"]
    against ["x y z"] (three mismatches) is false. *)
Theorem areTextsSimilar_normalizes_then_counts (To_LowerCase : rune → rune) :
  let normalize := Spec.normalize To_LowerCase in
  let areTextsSimilar := Filters.areTextsSimilar To_LowerCase in
  (∀ original translated : gostring,
     normalize original = normalize translated →
     areTextsSimilar original translated = true)
  ∧ (∀ X : gostring, areTextsSimilar X X = true)
  ∧ (∀ original translated : gostring,
       normalize original ≠ normalize translated →
       (areTextsSimilar original translated = false
        ↔ 2 < Spec.mismatchCount (strings.Fields (normalize original))
                                 (strings.Fields (normalize translated)))
       ∧ (areTextsSimilar original translated = true
          ↔ Spec.mismatchCount (strings.Fields (normalize original))
                               (strings.Fields (normalize translated)) ≤ 2))
  ∧ (Spec.mismatchCount (strings.Fields (normalize (lit "a b c")))
                        (strings.Fields (normalize (lit "a b d"))) = 1
     ∧ areTextsSimilar (lit "a b c") (lit "a b d") = true)
  ∧ (Spec.mismatchCount (strings.Fields (normalize (lit "a b c")))
                        (strings.Fields (normalize (lit "x y z"))) = 3
     ∧ areTextsSimilar (lit "a b c") (lit "x y z") = false).
Proof.
  intros normalize areTextsSimilar. subst normalize areTextsSimilar.
  split; [|split; [|split; [|split]]].
  - intros original translated Heq.
    by rewrite areTextsSimilar_count, decide_True.
  - intros X. by rewrite areTextsSimilar_count, decide_True.
  - intros original translated Hne.
    rewrite areTextsSimilar_count, decide_False by done.
    rewrite bool_decide_eq_false, bool_decide_eq_true. lia.
  - split; reflexivity.
  - split; reflexivity.
Qed.

Lemma areTextsSimilar_normalizes_then_counts_witness :
  Filters.areTextsSimilar Sample.To_LowerCase
    (lit "  Hello World ") (lit "hello world") = true
  ∧ Filters.areTextsSimilar Sample.To_LowerCase
      (lit "bonjour le monde") (lit "hello the world") = false.
Proof.
  destruct (areTextsSimilar_normalizes_then_counts Sample.To_LowerCase)
    as (Hequal & _ & Hcount & _).
  split.
  - apply Hequal. reflexivity.
  - apply Hcount.
    + discriminate.
    + vm_compute. lia.
Defined.

(** C9. When the original text splits into at most two tokens,
    [areTextsSimilar] returns true whatever the translated text is: the
    counter grows at most once per token of the original and so never
    exceeds 2.  The tokens the loop runs over are those of the trimmed and
    lower-cased original; for a case table that keeps white space, as Go's
    does, there are as many of them as tokens of the original. *)
Theorem areTextsSimilar_short_original (To_LowerCase : rune → rune)
    (original translated : gostring) :
  Spec.mismatchCount
    (strings.Fields (Spec.normalize To_LowerCase original))
    (strings.Fields (Spec.normalize To_LowerCase translated))
  ≤ length (strings.Fields (Spec.normalize To_LowerCase original))
  ∧ (length (strings.Fields (Spec.normalize To_LowerCase original)) ≤ 2 →
     Filters.areTextsSimilar To_LowerCase original translated = true)
  ∧ (Spec.caseKeepsSpace To_LowerCase →
     length (strings.Fields original) ≤ 2 →
     Filters.areTextsSimilar To_LowerCase original translated = true).
Proof.
  split; [apply mismatchCount_le|]. split.
  - apply areTextsSimilar_few_normalized_words.
  - apply areTextsSimilar_few_words.
Qed.

Lemma areTextsSimilar_short_original_witness :
  Filters.areTextsSimilar Sample.To_LowerCase
    (lit "guten Morgen") (lit "good morning") = true.
Proof.
  destruct (areTextsSimilar_short_original Sample.To_LowerCase
              (lit "guten Morgen") (lit "good morning")) as (_ & _ & Hshort).
  apply Hshort.
  - apply Sample_caseKeepsSpace.
  - vm_compute. lia.
Defined.

(** * The banned-word filter *)

Lemma containsBannedWord_loop_exists (bannedWords : gset (list Z))
    (words : list gostring) :
  ThreeChannel.containsBannedWord_loop bannedWords words = true
  ↔ ∃ word, word ∈ words ∧ word ∈ bannedWords.
Proof.
  induction words as [|w words IH]; simpl.
  - split; [done|]. intros (word & Hin & _). by apply elem_of_nil in Hin.
  - case_bool_decide as Hw.
    + split; [|done]. intros _. exists w. split; [left|done].
    + rewrite IH. split.
      * intros (word & Hin & Hb). exists word. split; [by right|done].
      * intros (word & Hin & Hb). apply elem_of_cons in Hin as [->|Hin].
        -- done.
        -- by exists word.
Qed.

(** C6. [containsBannedWord] is true if and only if one of the tokens of the
    text, split on white space and lower-cased, is equal to a member of the
    banned set; there is no substring matching, so a banned word followed by
    punctuation does not match the bare word.  The code lower-cases the text
    and then splits it; for a case table that keeps white space, as Go's
    does, these are the lower-cased tokens of the text. *)
Theorem containsBannedWord_iff_token_banned (To_LowerCase : rune → rune) :
  (∀ (bannedSet : gset (list Z)) (text : gostring),
     ThreeChannel.containsBannedWord To_LowerCase bannedSet text = true
     ↔ ∃ word, word ∈ strings.Fields (strings.ToLower To_LowerCase text)
               ∧ word ∈ bannedSet)
  ∧ (Spec.caseKeepsSpace To_LowerCase →
     ∀ (bannedSet : gset (list Z)) (text : gostring),
       ThreeChannel.containsBannedWord To_LowerCase bannedSet text = true
       ↔ ∃ token, token ∈ strings.Fields text
                  ∧ strings.ToLower To_LowerCase token ∈ bannedSet)
  ∧ ThreeChannel.containsBannedWord To_LowerCase {[lit "word"]}
      (lit "a Word here") = true
  ∧ ThreeChannel.containsBannedWord To_LowerCase {[lit "word"]}
      (lit "a word. here") = false
  ∧ ThreeChannel.containsBannedWord To_LowerCase {[lit "word"]}
      (lit "swordfish") = false.
Proof.
  split; [|split; [|split; [|split]]].
  - intros bannedSet text. apply containsBannedWord_loop_exists.
  - intros Hcase bannedSet text. unfold ThreeChannel.containsBannedWord.
    rewrite containsBannedWord_loop_exists, (Fields_ToLower _ Hcase).
    split.
    + intros (word & Hin & Hb).
      apply list_elem_of_fmap in Hin as (token & -> & Hin). by exists token.
    + intros (token & Hin & Hb). eexists. split; [|exact Hb].
      apply list_elem_of_fmap. by exists token.
  - by vm_compute.
  - by vm_compute.
  - by vm_compute.
Qed.

Lemma containsBannedWord_iff_token_banned_witness :
  ThreeChannel.containsBannedWord Sample.To_LowerCase
    {[lit "spam"; lit "eggs"]} (lit "more SPAM please") = true.
Proof.
  destruct (containsBannedWord_iff_token_banned Sample.To_LowerCase)
    as (_ & Hiff & _).
  apply (Hiff Sample_caseKeepsSpace). exists (lit "SPAM"). split.
  - vm_compute. right. left.
  - vm_compute. set_solver.
Defined.

(** * The channel router *)

Section RouterFacts.
Import ThreeChannel.

Lemma isTranslateChannel_slots_elem (channels : list gostring)
    (channelID : gostring) :
  isTranslateChannel_slots channels channelID = true ↔ channelID ∈ channels.
Proof.
  induction channels as [|c channels IH]; simpl.
  - split; [done|]. by intros ?%elem_of_nil.
  - rewrite elem_of_cons. case_bool_decide; subst.
    + split; [by left|done].
    + rewrite IH. split; [by right|]. by intros [->|?].
Qed.

Lemma isTranslateChannel_entries_exists
    (entries : list (gostring * (gostring * gostring * gostring)))
    (channelID : gostring) :
  isTranslateChannel_entries entries channelID = true
  ↔ ∃ serverID c1 c2 c3,
      (serverID, (c1, c2, c3)) ∈ entries ∧ channelID ∈ [c1; c2; c3].
Proof.
  induction entries as [|[serverID [[c1 c2] c3]] entries IH].
  - split; [done|]. intros (? & ? & ? & ? & []%elem_of_nil & _).
  - cbn [isTranslateChannel_entries].
    destruct (isTranslateChannel_slots [c1; c2; c3] channelID) eqn:Hs.
    + split; [|done]. intros _. exists serverID, c1, c2, c3.
      split; [left|]. by apply isTranslateChannel_slots_elem.
    + rewrite IH. split.
      * intros (S' & d1 & d2 & d3 & Hin & Hc).
        exists S', d1, d2, d3. split; [by right|done].
      * intros (S' & d1 & d2 & d3 & Hin & Hc).
        apply elem_of_cons in Hin as [[= -> -> -> ->]|Hin].
        -- apply isTranslateChannel_slots_elem in Hc. congruence.
        -- by exists S', d1, d2, d3.
Qed.

Lemma isTranslateChannel_lookup
    (index : gmap (list Z) (list Z * list Z * list Z))
    (channelID : gostring) :
  isTranslateChannel index channelID = true
  ↔ ∃ serverID c1 c2 c3,
      index !! serverID = Some (c1, c2, c3) ∧ channelID ∈ [c1; c2; c3].
Proof.
  unfold isTranslateChannel. rewrite isTranslateChannel_entries_exists.
  split; intros (S' & d1 & d2 & d3 & Hin & Hc); exists S', d1, d2, d3;
    (split; [by apply elem_of_map_to_list | done]).
Qed.

Lemma loadTranslateChannels_lookup
    (table : gmap (list Z)
               (option (list Z) * option (list Z) * option (list Z)))
    (serverID : gostring) (c1 c2 c3 : option gostring) :
  table !! serverID = Some (c1, c2, c3) →
  loadTranslateChannels table !! serverID
  = Some (default [] c1, default [] c2, default [] c3).
Proof.
  intros Hrow. unfold loadTranslateChannels.
  rewrite lookup_fmap, Hrow. simpl. by destruct c1, c2, c3.
Qed.

Lemma addTranslateChannels_row (serverID : gostring)
    (channel1 channel2 channel3 : option Channel) (g : Globals) :
  let prior := default (None, None, None) (db g !! serverID) in
  db (addTranslateChannels serverID channel1 channel2 channel3 g)
  = <[serverID := (Spec.upsert channel1 prior.1.1,
                   Spec.upsert channel2 prior.1.2,
                   Spec.upsert channel3 prior.2)]> (db g).
Proof.
  unfold addTranslateChannels.
  by destruct (db g !! serverID) as [[[[c1|] [c2|]] [c3|]]|],
    channel1, channel2, channel3.
Qed.

Lemma addTranslateChannels_index (serverID : gostring)
    (channel1 channel2 channel3 : option Channel) (g : Globals) :
  translateChannels (addTranslateChannels serverID channel1 channel2 channel3 g)
  = loadTranslateChannels
      (db (addTranslateChannels serverID channel1 channel2 channel3 g)).
Proof.
  unfold addTranslateChannels.
  by destruct (db g !! serverID) as [[[c1 c2] c3]|].
Qed.
End RouterFacts.

Section RouterFacts2.
Import TwoChannel.

Lemma isTranslateChannel2_lookup
    (table : gmap (list Z) (option (list Z) * option (list Z)))
    (channelID : gostring) :
  isTranslateChannel table channelID = true
  ↔ ∃ serverID c1 c2,
      table !! serverID = Some (c1, c2)
      ∧ (c1 = Some channelID ∨ c2 = Some channelID).
Proof.
  unfold isTranslateChannel. rewrite bool_decide_eq_true.
  set (P := λ row : list Z * (option (list Z) * option (list Z)),
              row.2.1 = Some channelID ∨ row.2.2 = Some channelID).
  split.
  - intros Hpos.
    destruct (filter P (map_to_list table)) as [|[S' [c1 c2]] rest] eqn:Hf;
      [simpl in Hpos; lia|].
    assert ((S', (c1, c2)) ∈ filter P (map_to_list table)) as Hin
      by (rewrite Hf; left).
    apply list_elem_of_filter in Hin as [HP Hin].
    apply elem_of_map_to_list in Hin. by exists S', c1, c2.
  - intros (S' & c1 & c2 & Hrow & Hc).
    assert ((S', (c1, c2)) ∈ filter P (map_to_list table)) as Hin.
    { apply list_elem_of_filter. split; [done|].
      by apply elem_of_map_to_list. }
    destruct (filter P (map_to_list table)); [by apply elem_of_nil in Hin|].
    simpl. lia.
Qed.

Lemma addTranslateChannels2_row (serverID : gostring)
    (channel1 channel2 : option Channel)
    (table : gmap (list Z) (option (list Z) * option (list Z)))
    (existing1 existing2 : gostring) :
  QueryRow_Scan table serverID = Ok (existing1, existing2) →
  addTranslateChannels serverID channel1 channel2 table
  = (None, <[serverID := (Spec.upsert channel1 (Some existing1),
                          Spec.upsert channel2 (Some existing2))]> table).
Proof.
  intros Hq. unfold addTranslateChannels. rewrite Hq.
  by destruct channel1, channel2.
Qed.

Lemma QueryRow_Scan_row
    (table : gmap (list Z) (option (list Z) * option (list Z)))
    (serverID existing1 existing2 : gostring) :
  table !! serverID = Some (Some existing1, Some existing2) →
  QueryRow_Scan table serverID = Ok (existing1, existing2).
Proof. intros Hrow. unfold QueryRow_Scan. by rewrite Hrow. Qed.

Lemma QueryRow_Scan_no_row
    (table : gmap (list Z) (option (list Z) * option (list Z)))
    (serverID : gostring) :
  table !! serverID = None → QueryRow_Scan table serverID = Ok ([], []).
Proof. intros Hrow. unfold QueryRow_Scan. by rewrite Hrow. Qed.
(** The two-slot variant never writes NULL, so it can always read its own
    records back. *)
Lemma written_no_NULL
    (table : gmap (list Z) (option (list Z) * option (list Z))) :
  Spec.written table →
  ∀ serverID c1 c2, table !! serverID = Some (c1, c2) →
    is_Some c1 ∧ is_Some c2.
Proof.
  induction 1 as [|table S channel1 channel2 _ IH]; intros S' c1 c2.
  - by rewrite lookup_empty.
  - unfold addTranslateChannels.
    destruct (QueryRow_Scan table S) as [[e1 e2]|err]; simpl; [|apply IH].
    destruct (decide (S = S')) as [->|Hne].
    + rewrite lookup_insert_eq. intros [= <- <-]. eauto.
    + rewrite lookup_insert_ne by done. apply IH.
Qed.
End RouterFacts2.

(** C3. The upsert is slot-wise.  After [setChannels S {slot1: C1}] and then
    [setChannels S {slot2: C2}], both channels are enrolled and slot 1 still
    holds [C1]; in general only the supplied slots are overwritten, the
    others keep their prior value, and the prior values are all empty when
    the server has no record.  In the two-slot variant a record is read
    into Go strings, which refuses NULL; the statement is about records
    without NULL, and those are the only ones that variant writes. *)
Theorem addTranslateChannels_slotwise :
  (∀ (g : ThreeChannel.Globals) (S : gostring) (C1 C2 : Channel),
     let g1 := ThreeChannel.addTranslateChannels S (Some C1) None None g in
     let g2 := ThreeChannel.addTranslateChannels S None (Some C2) None g1 in
     ThreeChannel.isTranslateChannel (ThreeChannel.translateChannels g2) (ID C1)
     = true
     ∧ ThreeChannel.isTranslateChannel (ThreeChannel.translateChannels g2)
         (ID C2) = true
     ∧ ∃ slot3, ThreeChannel.db g2 !! S = Some (Some (ID C1), Some (ID C2), slot3))
  ∧ (∀ (g : ThreeChannel.Globals) (S : gostring)
       (channel1 channel2 channel3 : option Channel),
       let g' :=
         ThreeChannel.addTranslateChannels S channel1 channel2 channel3 g in
       let prior := default (None, None, None) (ThreeChannel.db g !! S) in
       ThreeChannel.db g' !! S
       = Some (Spec.upsert channel1 prior.1.1, Spec.upsert channel2 prior.1.2,
               Spec.upsert channel3 prior.2)
       ∧ (∀ S', S' ≠ S → ThreeChannel.db g' !! S' = ThreeChannel.db g !! S')
       ∧ ThreeChannel.translateChannels g'
         = ThreeChannel.loadTranslateChannels (ThreeChannel.db g'))
  ∧ (∀ (table : gmap (list Z) (option (list Z) * option (list Z)))
       (S : gostring) (C1 C2 : Channel),
       (∀ c1 c2, table !! S = Some (c1, c2) → is_Some c1 ∧ is_Some c2) →
       ∃ table1 table2,
         TwoChannel.addTranslateChannels S (Some C1) None table
         = (None, table1)
         ∧ TwoChannel.addTranslateChannels S None (Some C2) table1
           = (None, table2)
         ∧ TwoChannel.isTranslateChannel table2 (ID C1) = true
         ∧ TwoChannel.isTranslateChannel table2 (ID C2) = true
         ∧ table2 !! S = Some (Some (ID C1), Some (ID C2)))
  ∧ (∀ (table : gmap (list Z) (option (list Z) * option (list Z)))
       (S : gostring) (channel1 channel2 : option Channel),
       (∀ c1 c2, table !! S = Some (c1, c2) → is_Some c1 ∧ is_Some c2) →
       let prior := default (Some [], Some []) (table !! S) in
       ∃ table',
         TwoChannel.addTranslateChannels S channel1 channel2 table
         = (None, table')
         ∧ table' !! S
           = Some (Spec.upsert channel1 prior.1, Spec.upsert channel2 prior.2)
         ∧ (∀ S', S' ≠ S → table' !! S' = table !! S'))
  ∧ (∀ (table : gmap (list Z) (option (list Z) * option (list Z)))
       (S : gostring),
       Spec.written table →
       ∀ c1 c2, table !! S = Some (c1, c2) → is_Some c1 ∧ is_Some c2).
Proof.
  split; [|split; [|split; [|split]]].
  - intros g S C1 C2 g1 g2.
    assert (∃ slot3, ThreeChannel.db g2 !! S
                     = Some (Some (ID C1), Some (ID C2), slot3)) as [slot3 Hrow].
    { subst g2 g1. rewrite !addTranslateChannels_row.
      rewrite !lookup_insert_eq. simpl. eauto. }
    assert (ThreeChannel.translateChannels g2 !! S
            = Some (ID C1, ID C2, default [] slot3)) as Hindex.
    { subst g2. rewrite addTranslateChannels_index.
      by rewrite (loadTranslateChannels_lookup _ _ _ _ _ Hrow). }
    split; [|split; [|by exists slot3]].
    + apply isTranslateChannel_lookup. eexists _, _, _, _.
      split; [exact Hindex|]. left.
    + apply isTranslateChannel_lookup. eexists _, _, _, _.
      split; [exact Hindex|]. right; left.
  - intros g S channel1 channel2 channel3 g' prior. subst g' prior.
    rewrite addTranslateChannels_index, addTranslateChannels_row.
    split; [by rewrite lookup_insert_eq|]. split; [|done].
    intros S' Hne. by rewrite lookup_insert_ne.
  - intros table S C1 C2 Hnonull.
    assert (∃ e1 e2, TwoChannel.QueryRow_Scan table S = Ok (e1, e2))
      as (e1 & e2 & Hq).
    { destruct (table !! S) as [[c1 c2]|] eqn:Hrow.
      - destruct (Hnonull c1 c2 eq_refl) as [[v1 ->] [v2 ->]].
        exists v1, v2. by apply QueryRow_Scan_row.
      - exists [], []. by apply QueryRow_Scan_no_row. }
    eexists _, _. split; [by apply addTranslateChannels2_row|].
    split.
    { apply addTranslateChannels2_row, QueryRow_Scan_row.
      by rewrite lookup_insert_eq. }
    simpl. rewrite insert_insert_eq.
    split; [|split; [|by rewrite lookup_insert_eq]].
    + apply isTranslateChannel2_lookup. eexists S, _, _.
      split; [by rewrite lookup_insert_eq|by left].
    + apply isTranslateChannel2_lookup. eexists S, _, _.
      split; [by rewrite lookup_insert_eq|by right].
  - intros table S channel1 channel2 Hnonull prior. subst prior.
    destruct (table !! S) as [[c1 c2]|] eqn:Hrow.
    + destruct (Hnonull c1 c2 eq_refl) as [[v1 ->] [v2 ->]].
      eexists. split; [by apply addTranslateChannels2_row, QueryRow_Scan_row|].
      split; [by rewrite lookup_insert_eq|].
      intros S' Hne. by rewrite lookup_insert_ne.
    + eexists.
      split; [by apply addTranslateChannels2_row, QueryRow_Scan_no_row|].
      split; [by rewrite lookup_insert_eq|].
      intros S' Hne. by rewrite lookup_insert_ne.
  - intros table S Hwritten. by apply written_no_NULL.
Qed.

Lemma addTranslateChannels_slotwise_witness :
  ∃ table1 table2,
    TwoChannel.addTranslateChannels Sample.guild (Some Sample.general) None ∅
    = (None, table1)
    ∧ TwoChannel.addTranslateChannels Sample.guild None (Some Sample.random)
        table1 = (None, table2)
    ∧ TwoChannel.isTranslateChannel table2 (ID Sample.general) = true
    ∧ TwoChannel.isTranslateChannel table2 (ID Sample.random) = true
    ∧ table2 !! Sample.guild
      = Some (Some (ID Sample.general), Some (ID Sample.random)).
Proof.
  destruct addTranslateChannels_slotwise as (_ & _ & Hround & _ & Hwritten).
  apply (Hround ∅ Sample.guild Sample.general Sample.random).
  apply Hwritten. constructor.
Defined.

(** C4.  Unset channel slots never match any channel identity: for every
    channel identity [c], when no set slot of any server's record holds [c],
    [isTranslateChannel c] is false, also when records have unset (NULL or
    empty) slots.  A channel identity is what the handlers pass, the
    [ChannelID] of a message, which the platform never leaves empty; that is
    the hypothesis [c ≠ []].  The in-memory index of the three-slot variant
    and the query of the two-slot variant agree on this. *)
Theorem unset_slots_match_no_channel (c : gostring) :
  c ≠ [] →
  (∀ table, Spec.noSetSlotHolds3 table c →
     ThreeChannel.isTranslateChannel
       (ThreeChannel.loadTranslateChannels table) c = false)
  ∧ (∀ table, Spec.noSetSlotHolds2 table c →
       TwoChannel.isTranslateChannel table c = false).
Proof.
  intros Hc. split.
  - intros table Hno. apply not_true_is_false.
    rewrite isTranslateChannel_lookup.
    intros (S & d1 & d2 & d3 & Hindex & Hin).
    unfold ThreeChannel.loadTranslateChannels in Hindex.
    rewrite lookup_fmap in Hindex.
    destruct (table !! S) as [[[c1 c2] c3]|] eqn:Hrow; [|done].
    simpl in Hindex. injection Hindex as <- <- <-.
    destruct (Hno S c1 c2 c3 Hrow) as (H1 & H2 & H3).
    unfold Spec.slotHolds in *.
    rewrite !elem_of_cons, elem_of_nil in Hin.
    destruct Hin as [->|[->|[->|[]]]].
    + destruct c1; simpl in *; [by apply H1 | done].
    + destruct c2; simpl in *; [by apply H2 | done].
    + destruct c3; simpl in *; [by apply H3 | done].
  - intros table Hno. apply not_true_is_false.
    rewrite isTranslateChannel2_lookup.
    intros (S & c1 & c2 & Hrow & Hin).
    destruct (Hno S c1 c2 Hrow) as (H1 & H2).
    unfold Spec.slotHolds in *. by destruct Hin as [->| ->]; [apply H1|apply H2].
Qed.

Lemma unset_slots_match_no_channel_witness :
  ThreeChannel.isTranslateChannel
    (ThreeChannel.loadTranslateChannels
       {[Sample.guild := (Some (lit "101"), None, None)]}) (lit "102") = false.
Proof.
  apply (unset_slots_match_no_channel (lit "102")).
  - discriminate.
  - intros S c1 c2 c3 Hrow.
    apply lookup_singleton_Some in Hrow as [_ [= <- <- <-]].
    unfold Spec.slotHolds. by repeat split; intros [? _].
Defined.

(** The empty string, which is no channel identity, is how the index holds
    an unset slot: after the first [/translate] of a server, slots 2 and 3
    are unset and [isTranslateChannel] answers true for the empty string,
    which no handler ever asks about. *)
Lemma empty_string_is_an_unset_slot :
  ThreeChannel.db Sample.enrolled
  = {[Sample.guild := (Some (lit "101"), None, None)]}
  ∧ (∀ S c1 c2 c3, ThreeChannel.db Sample.enrolled !! S = Some (c1, c2, c3) →
       c1 ≠ Some [] ∧ c2 ≠ Some [] ∧ c3 ≠ Some [])
  ∧ Spec.noSetSlotHolds3 (ThreeChannel.db Sample.enrolled) []
  ∧ ThreeChannel.isTranslateChannel
      (ThreeChannel.translateChannels Sample.enrolled) [] = true.
Proof.
  assert (ThreeChannel.db Sample.enrolled
          = {[Sample.guild := (Some (lit "101"), None, None)]}) as Hdb
    by reflexivity.
  split; [done|]. split; [|split].
  - rewrite Hdb. intros S c1 c2 c3 Hrow.
    apply lookup_singleton_Some in Hrow as [_ [= <- <- <-]]. done.
  - intros S c1 c2 c3 _. unfold Spec.slotHolds. by repeat split; intros [_ ?].
  - by vm_compute.
Qed.

(** * The pipeline *)

Section PipelineFacts.
Context (category : rune → unicode.GeneralCategory).
Context (To_LowerCase : rune → rune).
Context (Getenv_TRANSLATE_PATH : gostring).
Context (cmd_Run : gostring → gostring → option error * gostring * gostring).

(** The three-slot handler, gate by gate. *)
Lemma ThreeChannel_messageCreate_run (g : ThreeChannel.Globals) (s : Session)
    (m : MessageCreate) :
  trace (ThreeChannel.messageCreate category To_LowerCase
           Getenv_TRANSLATE_PATH cmd_Run g s m)
  = if bool_decide (Author_ID m = State_User_ID s) then []
    else if negb (ThreeChannel.isTranslateChannel
                    (ThreeChannel.translateChannels g) (ChannelID m)) then []
    else if Filters.isOnlyEmoji category (Content m) then []
    else if ThreeChannel.containsBannedWord To_LowerCase
              (ThreeChannel.bannedWords g) (Content m) then []
    else TranslateToEnglish (Content m) None ::
      match TransShell.translateToEnglish Getenv_TRANSLATE_PATH cmd_Run
              (Content m) with
      | Err err => [LogPrintln (lit "Error translating message,") err]
      | Ok translatedText =>
          if Filters.areTextsSimilar To_LowerCase (Content m) translatedText
          then []
          else [ChannelMessageSend (ChannelID m)
                  (Sprintf_Translated translatedText)]
      end.
Proof.
  unfold ThreeChannel.messageCreate.
  destruct (bool_decide (Author_ID m = State_User_ID s)); [done|].
  destruct (ThreeChannel.isTranslateChannel _ _); [|done].
  destruct (Filters.isOnlyEmoji _ _); [done|].
  destruct (ThreeChannel.containsBannedWord _ _ _); [done|].
  cbn. destruct (TransShell.translateToEnglish _ _ _); [|done].
  by destruct (Filters.areTextsSimilar _ _ _).
Qed.

(** The two-slot handler, gate by gate. *)
Lemma TwoChannel_messageCreate_run
    (table : gmap (list Z) (option (list Z) * option (list Z)))
    (s : Session) (m : MessageCreate) :
  trace (TwoChannel.messageCreate category To_LowerCase
           Getenv_TRANSLATE_PATH cmd_Run table s m)
  = if bool_decide (Author_ID m = State_User_ID s) then []
    else if negb (TwoChannel.isTranslateChannel table (ChannelID m)) then []
    else if Filters.isOnlyEmoji category (Content m) then []
    else if bool_decide (length (strings.Fields (Content m)) = 1) then []
    else
      let content :=
        TwoChannel.stripPrefix To_LowerCase (strings.Fields (Content m))
          (Content m) in
      TranslateToEnglish content None ::
      match TransShell.translateToEnglish Getenv_TRANSLATE_PATH cmd_Run
              content with
      | Err err => [LogPrintln (lit "Error translating message,") err]
      | Ok translatedText =>
          if Filters.areTextsSimilar To_LowerCase content translatedText
          then []
          else [ChannelMessageSend (ChannelID m)
                  (Sprintf_Translated translatedText)]
      end.
Proof.
  unfold TwoChannel.messageCreate.
  destruct (bool_decide (Author_ID m = State_User_ID s)); [done|].
  destruct (TwoChannel.isTranslateChannel _ _); [|done].
  destruct (Filters.isOnlyEmoji _ _); [done|].
  destruct (bool_decide (length _ = 1)); [done|].
  cbn. destruct (TransShell.translateToEnglish _ _ _); [|done].
  by destruct (Filters.areTextsSimilar _ _ _).
Qed.
End PipelineFacts.

Section DetectFacts.
Context (category : rune → unicode.GeneralCategory).
Context (detect : gostring → Result gostring).

Lemma DetectCli_messageCreate_run
    (cmd_Run : gostring → option error * gostring)
    (translateChannelID : gostring) (s : Session) (m : MessageCreate) :
  trace (DetectCli.messageCreate category detect cmd_Run
           translateChannelID s m)
  = if bool_decide (Author_ID m = State_User_ID s) then []
    else if bool_decide (ChannelID m ≠ translateChannelID) then []
    else if Filters.isOnlyEmoji category (Content m) then []
    else DetectLanguage (Content m) ::
      match detect (Content m) with
      | Err err => [LogPrintln (lit "Error detecting language,") err]
      | Ok detectedLang =>
          if bool_decide (detectedLang ≠ lit "en") then
            TranslateToEnglish (Content m) None ::
            match cmd_Run (Content m) with
            | (Some err, _) =>
                [LogPrintln (lit "Error translating message,") err]
            | (None, out) =>
                [ChannelMessageSend (ChannelID m)
                   (Sprintf_Translated (strings.TrimSpace out))]
            end
          else []
      end.
Proof.
  unfold DetectCli.messageCreate.
  destruct (bool_decide (Author_ID m = State_User_ID s)); [done|].
  destruct (bool_decide (ChannelID m ≠ translateChannelID)); [done|].
  destruct (Filters.isOnlyEmoji _ _); [done|].
  cbn. destruct (detect _) as [lang|]; [|reflexivity].
  destruct (bool_decide (lang ≠ lit "en")); [|reflexivity].
  cbn. destruct (cmd_Run _) as [[err|] out]; reflexivity.
Qed.

Lemma DetectApi_messageCreate_run
    (translate : gostring → gostring → Result gostring)
    (translateChannelID : gostring) (s : Session) (m : MessageCreate) :
  trace (DetectApi.messageCreate detect translate translateChannelID s m)
  = if bool_decide (Author_ID m = State_User_ID s) then []
    else if bool_decide (ChannelID m ≠ translateChannelID) then []
    else DetectLanguage (Content m) ::
      match detect (Content m) with
      | Err err => [LogPrintln (lit "Error detecting language,") err]
      | Ok detectedLang =>
          if bool_decide (detectedLang ≠ lit "en") then
            TranslateToEnglish (Content m) (Some detectedLang) ::
            match translate (Content m) detectedLang with
            | Err err => [LogPrintln (lit "Error translating message,") err]
            | Ok translatedText =>
                [ChannelMessageSend (ChannelID m)
                   (Sprintf_Translated translatedText)]
            end
          else []
      end.
Proof.
  unfold DetectApi.messageCreate.
  destruct (bool_decide (Author_ID m = State_User_ID s)); [done|].
  destruct (bool_decide (ChannelID m ≠ translateChannelID)); [done|].
  cbn. destruct (detect _) as [lang|]; [|reflexivity].
  destruct (bool_decide (lang ≠ lit "en")); [|reflexivity].
  cbn. destruct (translate _ _); reflexivity.
Qed.
End DetectFacts.

(** C1. The gates are evaluated in order and each one ends the processing:
    for a message written by the bot itself, posted in a channel that is not
    enrolled, or made of emoji code points only, the handler does nothing at
    all, so the gateway is not invoked and no message is posted; for a
    message that passes every gate the one message posted, to the channel
    the message came from, is ["Translated: "] followed by the gateway's
    output.  Stated for the handler with the banned-word and similarity
    gates and for the handler with the language detector. *)
Theorem messageCreate_gates_in_order
    (category : rune → unicode.GeneralCategory) (To_LowerCase : rune → rune)
    (Getenv_TRANSLATE_PATH : gostring)
    (cmd_Run : gostring → gostring → option error * gostring * gostring)
    (detect : gostring → Result gostring)
    (trans_Run : gostring → option error * gostring) :
  (∀ (g : ThreeChannel.Globals) (s : Session) (m : MessageCreate),
     Author_ID m = State_User_ID s
     ∨ ThreeChannel.isTranslateChannel (ThreeChannel.translateChannels g)
         (ChannelID m) = false
     ∨ Filters.isOnlyEmoji category (Content m) = true →
     trace (ThreeChannel.messageCreate category To_LowerCase
              Getenv_TRANSLATE_PATH cmd_Run g s m) = [])
  ∧ (∀ (g : ThreeChannel.Globals) (s : Session) (m : MessageCreate)
       (translatedText : gostring),
       Author_ID m ≠ State_User_ID s →
       ThreeChannel.isTranslateChannel (ThreeChannel.translateChannels g)
         (ChannelID m) = true →
       Filters.isOnlyEmoji category (Content m) = false →
       ThreeChannel.containsBannedWord To_LowerCase
         (ThreeChannel.bannedWords g) (Content m) = false →
       TransShell.translateToEnglish Getenv_TRANSLATE_PATH cmd_Run (Content m)
       = Ok translatedText →
       Filters.areTextsSimilar To_LowerCase (Content m) translatedText = false →
       trace (ThreeChannel.messageCreate category To_LowerCase
                Getenv_TRANSLATE_PATH cmd_Run g s m)
       = [TranslateToEnglish (Content m) None;
          ChannelMessageSend (ChannelID m)
            (lit "Translated: " ++ translatedText)])
  ∧ (∀ (translateChannelID : gostring) (s : Session) (m : MessageCreate),
       Author_ID m = State_User_ID s
       ∨ ChannelID m ≠ translateChannelID
       ∨ Filters.isOnlyEmoji category (Content m) = true →
       trace (DetectCli.messageCreate category detect trans_Run
                translateChannelID s m) = [])
  ∧ (∀ (translateChannelID : gostring) (s : Session) (m : MessageCreate)
       (detectedLang out : gostring),
       Author_ID m ≠ State_User_ID s →
       ChannelID m = translateChannelID →
       Filters.isOnlyEmoji category (Content m) = false →
       detect (Content m) = Ok detectedLang →
       detectedLang ≠ lit "en" →
       trans_Run (Content m) = (None, out) →
       trace (DetectCli.messageCreate category detect trans_Run
                translateChannelID s m)
       = [DetectLanguage (Content m);
          TranslateToEnglish (Content m) None;
          ChannelMessageSend (ChannelID m)
            (lit "Translated: " ++ strings.TrimSpace out)]).
Proof.
  split; [|split; [|split]].
  - intros g s m Hgate. rewrite ThreeChannel_messageCreate_run.
    case_bool_decide; [done|].
    destruct Hgate as [?|[Hch|Hemoji]]; [done| |].
    + by rewrite Hch.
    + rewrite Hemoji. by destruct (negb _).
  - intros g s m translatedText Hself Hch Hemoji Hban Hout Hsim.
    rewrite ThreeChannel_messageCreate_run.
    by rewrite bool_decide_eq_false_2, Hch, Hemoji, Hban, Hout, Hsim.
  - intros ch s m Hgate. rewrite DetectCli_messageCreate_run.
    case_bool_decide; [done|].
    destruct Hgate as [?|[Hch|Hemoji]]; [done| |].
    + by rewrite bool_decide_eq_true_2.
    + rewrite Hemoji. by case_bool_decide.
  - intros ch s m lang out Hself Hch Hemoji Hlang Hne Hout.
    rewrite DetectCli_messageCreate_run.
    rewrite bool_decide_eq_false_2 by done.
    rewrite (bool_decide_eq_false_2 (ChannelID m ≠ ch)) by (by intros []).
    rewrite Hemoji, Hlang, bool_decide_eq_true_2 by done.
    by rewrite Hout.
Qed.

Lemma messageCreate_gates_in_order_witness :
  trace (ThreeChannel.messageCreate Sample.category Sample.To_LowerCase
           Sample.TRANSLATE_PATH Sample.cmd_Run Sample.enrolled Sample.bot
           (Sample.message (lit "101") (lit "bonjour le monde")))
  = [TranslateToEnglish (lit "bonjour le monde") None;
     ChannelMessageSend (lit "101") (lit "Translated: hello the world")]
  ∧ trace (ThreeChannel.messageCreate Sample.category Sample.To_LowerCase
             Sample.TRANSLATE_PATH Sample.cmd_Run Sample.enrolled Sample.bot
             (Sample.message (lit "101") [0x1F600; 0x1F389]%Z)) = []
  ∧ trace (ThreeChannel.messageCreate Sample.category Sample.To_LowerCase
             Sample.TRANSLATE_PATH Sample.cmd_Run Sample.enrolled Sample.bot
             (Sample.message (lit "555") (lit "bonjour le monde"))) = []
  ∧ trace (DetectCli.messageCreate Sample.category Sample.detect
             Sample.trans_Run (lit "101") Sample.bot
             (Sample.message (lit "101") (lit "bonjour le monde")))
    = [DetectLanguage (lit "bonjour le monde");
       TranslateToEnglish (lit "bonjour le monde") None;
       ChannelMessageSend (lit "101") (lit "Translated: hello the world")].
Proof.
  destruct (messageCreate_gates_in_order Sample.category Sample.To_LowerCase
              Sample.TRANSLATE_PATH Sample.cmd_Run Sample.detect
              (Sample.trans_Run))
    as (Hgate & Hpost & _ & Hpost').
  split; [|split; [|split]].
  - apply (Hpost Sample.enrolled Sample.bot
             (Sample.message (lit "101") (lit "bonjour le monde")));
      try discriminate; by vm_compute.
  - apply Hgate. right; right. by vm_compute.
  - apply Hgate. right; left. by vm_compute.
  - apply (Hpost' (lit "101") Sample.bot
             (Sample.message (lit "101") (lit "bonjour le monde"))
             (lit "fr") (lit "hello the world" ++ [10]%Z));
      try discriminate; by vm_compute.
Defined.

(** The end-to-end scenario of the specification on the three-slot handler:
    a message outside the enrolled channels and an emoji-only message never
    reach the gateway, ["bonjour le monde"] is posted as its translation,
    and ["hello world"], translated to itself, is held back by the
    similarity gate. *)
Example pipeline_scenario :
  let run channelID content :=
    trace (ThreeChannel.messageCreate Sample.category Sample.To_LowerCase
             Sample.TRANSLATE_PATH Sample.cmd_Run Sample.enrolled Sample.bot
             (Sample.message channelID content)) in
  count isGatewayCall (run (lit "555") (lit "bonjour le monde")) = 0
  ∧ run (lit "101") [0x1F600; 0x1F389]%Z = []
  ∧ run (lit "101") (lit "bonjour le monde")
    = [TranslateToEnglish (lit "bonjour le monde") None;
       ChannelMessageSend (lit "101") (lit "Translated: hello the world")]
  ∧ run (lit "101") (lit "hello world")
    = [TranslateToEnglish (lit "hello world") None]
  ∧ run (lit "101") (lit "buy spam now") = [].
Proof. by vm_compute. Qed.

(** Facts about a trace that has been computed: its shape, its counts, and
    the gate hypotheses it contradicts. *)
Ltac trace_facts :=
  repeat split; unfold count; simpl;
  try lia; try done; try (by left); try (by right).

(** C7. When the language detector or the translation gateway fails for a
    message, the handler logs the error and stops: nothing is posted, no
    other notification is produced, and the failed call is not repeated.
    Stated for the gateway of the three-slot handler and for the detector
    and the gateway of the handler that uses both remote services. *)
Theorem failure_is_logged_and_skipped
    (category : rune → unicode.GeneralCategory) (To_LowerCase : rune → rune)
    (Getenv_TRANSLATE_PATH : gostring)
    (cmd_Run : gostring → gostring → option error * gostring * gostring)
    (detect : gostring → Result gostring)
    (translate : gostring → gostring → Result gostring) :
  (∀ (g : ThreeChannel.Globals) (s : Session) (m : MessageCreate) (err : error),
     TransShell.translateToEnglish Getenv_TRANSLATE_PATH cmd_Run (Content m)
     = Err err →
     let t := trace (ThreeChannel.messageCreate category To_LowerCase
                       Getenv_TRANSLATE_PATH cmd_Run g s m) in
     (t = [] ∨ t = [TranslateToEnglish (Content m) None;
                    LogPrintln (lit "Error translating message,") err])
     ∧ count isPost t = 0 ∧ count isGatewayCall t ≤ 1
     ∧ (Author_ID m ≠ State_User_ID s →
        ThreeChannel.isTranslateChannel (ThreeChannel.translateChannels g)
          (ChannelID m) = true →
        Filters.isOnlyEmoji category (Content m) = false →
        ThreeChannel.containsBannedWord To_LowerCase
          (ThreeChannel.bannedWords g) (Content m) = false →
        t = [TranslateToEnglish (Content m) None;
             LogPrintln (lit "Error translating message,") err]))
  ∧ (∀ (translateChannelID : gostring) (s : Session) (m : MessageCreate)
       (err : error),
       detect (Content m) = Err err →
       let t := trace (DetectApi.messageCreate detect translate
                         translateChannelID s m) in
       (t = [] ∨ t = [DetectLanguage (Content m);
                      LogPrintln (lit "Error detecting language,") err])
       ∧ count isPost t = 0 ∧ count isGatewayCall t = 0
       ∧ count isDetectorCall t ≤ 1
       ∧ (Author_ID m ≠ State_User_ID s → ChannelID m = translateChannelID →
          t = [DetectLanguage (Content m);
               LogPrintln (lit "Error detecting language,") err]))
  ∧ (∀ (translateChannelID : gostring) (s : Session) (m : MessageCreate)
       (detectedLang : gostring) (err : error),
       detect (Content m) = Ok detectedLang →
       translate (Content m) detectedLang = Err err →
       let t := trace (DetectApi.messageCreate detect translate
                         translateChannelID s m) in
       count isPost t = 0 ∧ count isGatewayCall t ≤ 1
       ∧ count isDetectorCall t ≤ 1
       ∧ (Author_ID m ≠ State_User_ID s → ChannelID m = translateChannelID →
          detectedLang ≠ lit "en" →
          t = [DetectLanguage (Content m);
               TranslateToEnglish (Content m) (Some detectedLang);
               LogPrintln (lit "Error translating message,") err])).
Proof.
  split; [|split].
  - intros g s m err Herr t. subst t.
    rewrite ThreeChannel_messageCreate_run, Herr.
    case_bool_decide; [trace_facts|].
    destruct (ThreeChannel.isTranslateChannel _ _); [|trace_facts].
    destruct (Filters.isOnlyEmoji _ _); [trace_facts|].
    destruct (ThreeChannel.containsBannedWord _ _ _); trace_facts.
  - intros ch s m err Herr t. subst t.
    rewrite DetectApi_messageCreate_run, Herr.
    case_bool_decide; [trace_facts|].
    case_bool_decide; trace_facts.
  - intros ch s m lang err Hlang Herr t. subst t.
    rewrite DetectApi_messageCreate_run, Hlang, Herr.
    case_bool_decide; [trace_facts|].
    case_bool_decide; [trace_facts|].
    case_bool_decide; trace_facts.
Qed.

Lemma failure_is_logged_and_skipped_witness :
  trace (ThreeChannel.messageCreate Sample.category Sample.To_LowerCase
           Sample.TRANSLATE_PATH Sample.cmd_Run Sample.enrolled Sample.bot
           (Sample.message (lit "101") (lit "guten morgen allerseits")))
  = [TranslateToEnglish (lit "guten morgen allerseits") None;
     LogPrintln (lit "Error translating message,")
       (lit "cmd.Run() failed with exit status 1: no network")]
  ∧ trace (DetectApi.messageCreate Sample.detect Sample.translate (lit "101")
             Sample.bot
             (Sample.message (lit "101") (lit "guten morgen allerseits")))
    = [DetectLanguage (lit "guten morgen allerseits");
       LogPrintln (lit "Error detecting language,")
         (lit "unexpected response format or empty data")].
Proof.
  destruct (failure_is_logged_and_skipped Sample.category Sample.To_LowerCase
              Sample.TRANSLATE_PATH Sample.cmd_Run Sample.detect
              Sample.translate) as (Hgateway & Hdetector & _).
  split.
  - apply (Hgateway Sample.enrolled Sample.bot
             (Sample.message (lit "101") (lit "guten morgen allerseits")));
      try discriminate; by vm_compute.
  - apply (Hdetector (lit "101") Sample.bot
             (Sample.message (lit "101") (lit "guten morgen allerseits")));
      try discriminate; by vm_compute.
Defined.

Section TrivialContent.
Context (category : rune → unicode.GeneralCategory).
Context (To_LowerCase : rune → rune).
Context (Getenv_TRANSLATE_PATH : gostring).
Context (cmd_Run : gostring → gostring → option error * gostring * gostring).

Lemma stripPrefix_en (content w0 w : gostring) :
  strings.ToLower To_LowerCase w0 = lit "en" →
  TwoChannel.stripPrefix To_LowerCase [w0; w] content = w.
Proof.
  intros Hen. unfold TwoChannel.stripPrefix. simpl.
  by rewrite Hen, !bool_decide_eq_true_2.
Qed.

Lemma second_word_is_one_word (content w0 w : gostring) :
  strings.Fields content = [w0; w] → strings.Fields w = [w].
Proof.
  intros Hwords.
  pose proof (FieldsFunc_fields unicode.IsSpace content) as Hall.
  unfold strings.Fields in Hwords. rewrite Hwords in Hall.
  apply Forall_cons in Hall as [_ Hall]. apply Forall_cons in Hall as [Hw _].
  by apply FieldsFunc_field.
Qed.
End TrivialContent.

(** C8. In the variant with the trivial-content check, a message that splits
    into exactly one token is dropped before any translation call; and for a
    message that splits into exactly two tokens, the first being ["en"], the
    prefix is stripped: the text handed to the gateway is the second token
    alone. *)
Theorem trivial_content_check
    (category : rune → unicode.GeneralCategory) (To_LowerCase : rune → rune)
    (Getenv_TRANSLATE_PATH : gostring)
    (cmd_Run : gostring → gostring → option error * gostring * gostring) :
  let messageCreate :=
    TwoChannel.messageCreate category To_LowerCase Getenv_TRANSLATE_PATH
      cmd_Run in
  (∀ table (s : Session) (m : MessageCreate),
     length (strings.Fields (Content m)) = 1 →
     trace (messageCreate table s m) = [])
  ∧ (∀ table (s : Session) (m : MessageCreate) (w : gostring),
       strings.Fields (Content m) = [lit "en"; w] →
       (∀ text hint,
          TranslateToEnglish text hint ∈ trace (messageCreate table s m) →
          text = w)
       ∧ (Author_ID m ≠ State_User_ID s →
          TwoChannel.isTranslateChannel table (ChannelID m) = true →
          Filters.isOnlyEmoji category (Content m) = false →
          ∃ rest,
            trace (messageCreate table s m) = TranslateToEnglish w None :: rest
            ∧ count isGatewayCall rest = 0)).
Proof.
  intros messageCreate. subst messageCreate. split.
  - intros table s m Hone. rewrite TwoChannel_messageCreate_run, Hone.
    rewrite (bool_decide_eq_true_2 (1 = 1)) by done.
    by repeat (destruct (_ : bool)).
  - intros table s m w Hwords.
    rewrite TwoChannel_messageCreate_run, Hwords.
    rewrite stripPrefix_en by reflexivity.
    rewrite (bool_decide_eq_false_2 (length [lit "en"; w] = 1)) by done.
    split.
    + intros text hint.
      case_bool_decide; [by intros ?%elem_of_nil|].
      destruct (negb _); [by intros ?%elem_of_nil|].
      destruct (Filters.isOnlyEmoji _ _); [by intros ?%elem_of_nil|].
      rewrite elem_of_cons. intros [[= -> ->]|Hin]; [done|].
      destruct (TransShell.translateToEnglish _ _ _) as [out|err].
      * destruct (Filters.areTextsSimilar _ _ _).
        -- by apply elem_of_nil in Hin.
        -- by apply list_elem_of_singleton in Hin.
      * by apply list_elem_of_singleton in Hin.
    + intros Hself Hch Hemoji.
      rewrite bool_decide_eq_false_2, Hch, Hemoji by done. simpl.
      eexists. split; [done|].
      destruct (TransShell.translateToEnglish _ _ _) as [out|err]; [|done].
      by destruct (Filters.areTextsSimilar _ _ _).
Qed.

Lemma trivial_content_check_witness :
  trace (TwoChannel.messageCreate Sample.category Sample.To_LowerCase
           Sample.TRANSLATE_PATH Sample.cmd_Run Sample.enrolled2 Sample.bot
           (Sample.message (lit "101") (lit "bonjour"))) = []
  ∧ ∃ rest,
      trace (TwoChannel.messageCreate Sample.category Sample.To_LowerCase
               Sample.TRANSLATE_PATH Sample.cmd_Run Sample.enrolled2 Sample.bot
               (Sample.message (lit "101") (lit "en monde")))
      = TranslateToEnglish (lit "monde") None :: rest
      ∧ count isGatewayCall rest = 0.
Proof.
  destruct (trivial_content_check Sample.category Sample.To_LowerCase
              Sample.TRANSLATE_PATH Sample.cmd_Run) as (Hone & Hen).
  split.
  - apply Hone. by vm_compute.
  - apply (Hen Sample.enrolled2 Sample.bot
             (Sample.message (lit "101") (lit "en monde")) (lit "monde"));
      try discriminate; by vm_compute.
Defined.

(** C10. The ["en"]-prefix override never leads to a posted message: for a
    message of two tokens whose first lower-cases to ["en"], the stripped
    content is one token, [areTextsSimilar] on it is true whatever the
    translation is, and so whenever the translation succeeds the message is
    suppressed. *)
Theorem en_prefix_never_emits
    (category : rune → unicode.GeneralCategory) (To_LowerCase : rune → rune)
    (Getenv_TRANSLATE_PATH : gostring)
    (cmd_Run : gostring → gostring → option error * gostring * gostring)
    (table : gmap (list Z) (option (list Z) * option (list Z)))
    (s : Session) (m : MessageCreate) (w0 w : gostring) :
  Spec.caseKeepsSpace To_LowerCase →
  strings.Fields (Content m) = [w0; w] →
  strings.ToLower To_LowerCase w0 = lit "en" →
  let content :=
    TwoChannel.stripPrefix To_LowerCase (strings.Fields (Content m))
      (Content m) in
  let t := trace (TwoChannel.messageCreate category To_LowerCase
                    Getenv_TRANSLATE_PATH cmd_Run table s m) in
  content = w
  ∧ strings.Fields content = [w]
  ∧ (∀ translatedText,
       Filters.areTextsSimilar To_LowerCase content translatedText = true)
  ∧ count isPost t = 0
  ∧ (∀ translatedText,
       TransShell.translateToEnglish Getenv_TRANSLATE_PATH cmd_Run content
       = Ok translatedText →
       t = [] ∨ t = [TranslateToEnglish w None]).
Proof.
  intros Hcase Hwords Hen content t. subst content t.
  rewrite TwoChannel_messageCreate_run, Hwords.
  rewrite (stripPrefix_en To_LowerCase _ _ _ Hen).
  pose proof (second_word_is_one_word _ _ _ Hwords) as Hone.
  assert (∀ translatedText,
            Filters.areTextsSimilar To_LowerCase w translatedText = true)
    as Hsim.
  { intros translatedText. apply areTextsSimilar_few_words; [done|].
    rewrite Hone. simpl. lia. }
  split; [done|]. split; [done|]. split; [done|].
  rewrite (bool_decide_eq_false_2 (length [w0; w] = 1)) by done.
  cbv zeta. split.
  - case_bool_decide; [done|]. destruct (negb _); [done|]. 
    destruct (Filters.isOnlyEmoji _ _); [done|].
    destruct (TransShell.translateToEnglish _ _ _) as [out|err]; [|done].
    by rewrite (Hsim out).
  - intros translatedText Hok. rewrite Hok, (Hsim translatedText).
    case_bool_decide; [by left|]. destruct (negb _); [by left|].
    destruct (Filters.isOnlyEmoji _ _); [by left|by right].
Qed.

Lemma en_prefix_never_emits_witness :
  trace (TwoChannel.messageCreate Sample.category Sample.To_LowerCase
           Sample.TRANSLATE_PATH Sample.cmd_Run Sample.enrolled2 Sample.bot
           (Sample.message (lit "101") (lit "EN monde")))
  = [TranslateToEnglish (lit "monde") None]
  ∧ count isPost
      (trace (TwoChannel.messageCreate Sample.category Sample.To_LowerCase
                Sample.TRANSLATE_PATH Sample.cmd_Run Sample.enrolled2
                Sample.bot (Sample.message (lit "101") (lit "EN monde")))) = 0.
Proof.
  destruct (en_prefix_never_emits Sample.category Sample.To_LowerCase
              Sample.TRANSLATE_PATH Sample.cmd_Run Sample.enrolled2 Sample.bot
              (Sample.message (lit "101") (lit "EN monde"))
              (lit "EN") (lit "monde"))
    as (_ & _ & _ & Hpost & _).
  - apply Sample_caseKeepsSpace.
  - by vm_compute.
  - by vm_compute.
  - split; [by vm_compute | exact Hpost].
Defined.

(** * Beyond the claims: more facts about the library functions *)

Section TrimFacts.
Context (f : rune → bool).

Lemma TrimLeftFunc_noop (s : gostring) :
  (∀ r s', s = r :: s' → f r = false) → strings.TrimLeftFunc f s = s.
Proof.
  destruct s as [|r s']; [done|]. intros Hhead. simpl.
  by rewrite (Hhead r s' eq_refl).
Qed.

Lemma TrimLeftFunc_head (s : gostring) (r : rune) (s' : gostring) :
  strings.TrimLeftFunc f s = r :: s' → f r = false.
Proof.
  induction s as [|x s IH]; simpl; [done|].
  destruct (f x) eqn:Hx; [done|]. by intros [= -> ->].
Qed.

Lemma TrimLeftFunc_idem (s : gostring) :
  strings.TrimLeftFunc f (strings.TrimLeftFunc f s) = strings.TrimLeftFunc f s.
Proof.
  apply TrimLeftFunc_noop. intros r s'. apply TrimLeftFunc_head.
Qed.

(** The head of what [TrimRightFunc] keeps is the head of its argument. *)
Lemma TrimRightFunc_head (s : gostring) (r : rune) (s' : gostring) :
  strings.TrimRightFunc f s = r :: s' → ∃ s'', s = r :: s''.
Proof.
  destruct (TrimRightFunc_split f s) as (post & Hs & _).
  intros Hr. rewrite Hr in Hs. simpl in Hs. eauto.
Qed.

Lemma TrimFunc_head (s : gostring) (r : rune) (s' : gostring) :
  strings.TrimFunc f s = r :: s' → f r = false.
Proof.
  unfold strings.TrimFunc. intros Hr.
  apply TrimRightFunc_head in Hr as [s'' Hr].
  by apply TrimLeftFunc_head in Hr.
Qed.

Lemma TrimFunc_last (s : gostring) (r : rune) :
  last (strings.TrimFunc f s) = Some r → f r = false.
Proof.
  unfold strings.TrimFunc, strings.TrimRightFunc.
  rewrite last_reverse.
  destruct (strings.TrimLeftFunc f (reverse (strings.TrimLeftFunc f s)))
    as [|x t] eqn:Ht; [done|].
  intros [= ->]. by apply TrimLeftFunc_head in Ht.
Qed.

Lemma TrimRightFunc_noop (s : gostring) :
  (∀ r, last s = Some r → f r = false) → strings.TrimRightFunc f s = s.
Proof.
  intros Hlast. unfold strings.TrimRightFunc.
  rewrite TrimLeftFunc_noop; [apply reverse_involutive|].
  intros r s' Hrev. apply Hlast.
  rewrite <- (reverse_involutive s), Hrev, last_reverse. done.
Qed.

Lemma TrimFunc_noop (s : gostring) :
  (∀ r s', s = r :: s' → f r = false) →
  (∀ r, last s = Some r → f r = false) →
  strings.TrimFunc f s = s.
Proof.
  intros Hhead Hlast. unfold strings.TrimFunc.
  rewrite TrimLeftFunc_noop by done. by apply TrimRightFunc_noop.
Qed.

Lemma TrimFunc_idem (s : gostring) :
  strings.TrimFunc f (strings.TrimFunc f s) = strings.TrimFunc f s.
Proof.
  apply TrimFunc_noop.
  - intros r s'. apply TrimFunc_head.
  - intros r. apply TrimFunc_last.
Qed.

Lemma TrimFunc_all (s : gostring) :
  Forall (λ r, f r = true) s → strings.TrimFunc f s = [].
Proof.
  intros Hall. unfold strings.TrimFunc.
  assert (strings.TrimLeftFunc f s = []) as ->; [|done].
  induction Hall as [|x s Hx _ IH]; simpl; [done|]. by rewrite Hx.
Qed.

Lemma TrimFunc_field (w : gostring) :
  Forall (λ r, f r = false) w → strings.TrimFunc f w = w.
Proof.
  intros Hw. apply TrimFunc_noop.
  - intros r s' ->. by apply Forall_cons in Hw as [? _].
  - intros r Hlast. rewrite Forall_forall in Hw. apply Hw.
    by apply last_Some_elem_of.
Qed.

Lemma FieldsFunc_loop_open (w : gostring) (s : gostring) :
  strings.FieldsFunc_loop f (Some w) s ≠ [].
Proof.
  revert w. induction s as [|x s IH]; intros w; simpl; [done|].
  destruct (f x); [done|]. apply IH.
Qed.

Lemma FieldsFunc_nil_all (s : gostring) :
  strings.FieldsFunc f s = [] → Forall (λ r, f r = true) s.
Proof.
  unfold strings.FieldsFunc.
  induction s as [|x s IH]; simpl; [done|].
  destruct (f x) eqn:Hx.
  - intros Hs. constructor; [done|]. by apply IH.
  - intros Hs. by apply FieldsFunc_loop_open in Hs.
Qed.
End TrimFacts.

(** * Beyond the claims: the similarity scorer *)

Section MoreSimilarityFacts.

Lemma mismatchCount_from_prefix (pre originalWords more : list gostring) :
  sum_list
    (imap (λ i originalWord,
             if decide ((pre ++ originalWords ++ more) !! (length pre + i)
                        = Some originalWord)
             then 0 else 1) originalWords) = 0.
Proof.
  revert pre. induction originalWords as [|w ws IH]; intros pre; [reflexivity|].
  simpl. rewrite Nat.add_0_r.
  rewrite decide_True by (by rewrite lookup_app_r, Nat.sub_diag).
  simpl. specialize (IH (pre ++ [w])).
  rewrite <- (assoc_L (++)) in IH. simpl in IH.
  erewrite imap_ext; [exact IH|]. intros i x _. simpl.
  by replace (length (pre ++ [w]) + i) with (length pre + S i)
    by (rewrite length_app; simpl; lia).
Qed.

Lemma mismatchCount_extended (originalWords more : list gostring) :
  Spec.mismatchCount originalWords (originalWords ++ more) = 0.
Proof. apply (mismatchCount_from_prefix []). Qed.

Lemma mismatchCount_from_absent (translatedWords rest : list gostring)
    (k : nat) :
  length rest - (length translatedWords - k)
  ≤ sum_list
      (imap (λ i originalWord,
               if decide (translatedWords !! (k + i) = Some originalWord)
               then 0 else 1) rest).
Proof.
  revert k. induction rest as [|w ws IH]; intros k; simpl; [lia|].
  rewrite Nat.add_0_r.
  rewrite (imap_ext _ (λ i originalWord,
             if decide (translatedWords !! (S k + i) = Some originalWord)
             then 0 else 1)); last first.
  { intros i x _. simpl. by rewrite Nat.add_succ_r. }
  specialize (IH (S k)).
  destruct (decide (translatedWords !! k = Some w)) as [Heq|Hne].
  - apply lookup_lt_Some in Heq. lia.
  - lia.
Qed.

Lemma mismatchCount_absent (originalWords translatedWords : list gostring) :
  length originalWords - length translatedWords
  ≤ Spec.mismatchCount originalWords translatedWords.
Proof.
  pose proof (mismatchCount_from_absent translatedWords originalWords 0) as H.
  by rewrite Nat.sub_0_r in H.
Qed.
End MoreSimilarityFacts.

(** X1. A translation that repeats the original and goes on is held back:
    when the tokens of the trimmed, lower-cased translation begin with all
    the tokens of the trimmed, lower-cased original, [areTextsSimilar] is
    true, however many tokens follow.  With a case table that keeps white
    space the same holds for the tokens of the texts as given. *)
Theorem areTextsSimilar_translation_extends (To_LowerCase : rune → rune)
    (original translated : gostring) (more : list gostring) :
  (strings.Fields (Spec.normalize To_LowerCase translated)
   = strings.Fields (Spec.normalize To_LowerCase original) ++ more →
   Filters.areTextsSimilar To_LowerCase original translated = true)
  ∧ (Spec.caseKeepsSpace To_LowerCase →
     strings.Fields translated = strings.Fields original ++ more →
     Filters.areTextsSimilar To_LowerCase original translated = true).
Proof.
  assert (strings.Fields (Spec.normalize To_LowerCase translated)
          = strings.Fields (Spec.normalize To_LowerCase original) ++ more →
          Filters.areTextsSimilar To_LowerCase original translated = true)
    as Hnorm.
  { intros Hext. rewrite areTextsSimilar_count. case_decide; [done|].
    rewrite Hext, mismatchCount_extended. apply bool_decide_eq_true; lia. }
  split; [done|]. intros Hcase Hext.
  rewrite areTextsSimilar_count. case_decide; [done|].
  rewrite !(Fields_normalize _ Hcase), Hext, fmap_app, mismatchCount_extended.
  apply bool_decide_eq_true; lia.
Qed.

Lemma areTextsSimilar_translation_extends_witness :
  Filters.areTextsSimilar Sample.To_LowerCase
    (lit "see you later") (lit "See you later alligator, in a while") = true.
Proof.
  destruct (areTextsSimilar_translation_extends Sample.To_LowerCase
              (lit "see you later")
              (lit "See you later alligator, in a while")
              [lit "alligator,"; lit "in"; lit "a"; lit "while"])
    as [Hnorm _].
  apply Hnorm. by vm_compute.
Defined.

Lemma areTextsSimilar_absent_words (To_LowerCase : rune → rune)
    (original translated : gostring) :
  length (strings.Fields (Spec.normalize To_LowerCase translated)) + 3
  ≤ length (strings.Fields (Spec.normalize To_LowerCase original)) →
  Filters.areTextsSimilar To_LowerCase original translated = false.
Proof.
  intros Hshort. rewrite areTextsSimilar_count.
  rewrite decide_False by (intros Heq; rewrite Heq in Hshort; lia).
  apply bool_decide_eq_false.
  pose proof (mismatchCount_absent
    (strings.Fields (Spec.normalize To_LowerCase original))
    (strings.Fields (Spec.normalize To_LowerCase translated))). lia.
Qed.

(** X2. A translation at least three tokens shorter than the original is
    never held back: every position of the original past the end of the
    translation counts as a mismatch, so [areTextsSimilar] is false. *)
Theorem areTextsSimilar_translation_shorter (To_LowerCase : rune → rune)
    (original translated : gostring) :
  (length (strings.Fields (Spec.normalize To_LowerCase translated)) + 3
   ≤ length (strings.Fields (Spec.normalize To_LowerCase original)) →
   Filters.areTextsSimilar To_LowerCase original translated = false)
  ∧ (Spec.caseKeepsSpace To_LowerCase →
     length (strings.Fields translated) + 3
     ≤ length (strings.Fields original) →
     Filters.areTextsSimilar To_LowerCase original translated = false).
Proof.
  split; [apply areTextsSimilar_absent_words|].
  intros Hcase Hshort. apply areTextsSimilar_absent_words.
  by rewrite !(Fields_normalize _ Hcase), !length_fmap.
Qed.

Lemma areTextsSimilar_translation_shorter_witness :
  Filters.areTextsSimilar Sample.To_LowerCase
    (lit "je ne sais pas") (lit "dunno") = false.
Proof.
  destruct (areTextsSimilar_translation_shorter Sample.To_LowerCase
              (lit "je ne sais pas") (lit "dunno")) as [Hnorm _].
  apply Hnorm. vm_compute. lia.
Defined.

(** * Beyond the claims: the handlers *)

(** X3. The three-slot handler posts exactly when every gate is passed: a
    post is in the trace if and only if it goes to the channel of the
    message, the author is not the bot, the channel is enrolled, the content
    is not emoji-only and holds no banned word, the gateway succeeds and its
    output is not similar to the content; the post is then the label and
    that output.  The gateway is called exactly when the first four gates
    are passed, so a banned word also keeps the text from the gateway. *)
Theorem ThreeChannel_posts_exactly_when
    (category : rune → unicode.GeneralCategory) (To_LowerCase : rune → rune)
    (Getenv_TRANSLATE_PATH : gostring)
    (cmd_Run : gostring → gostring → option error * gostring * gostring)
    (g : ThreeChannel.Globals) (s : Session) (m : MessageCreate) :
  let t := trace (ThreeChannel.messageCreate category To_LowerCase
                    Getenv_TRANSLATE_PATH cmd_Run g s m) in
  let admitted :=
    Author_ID m ≠ State_User_ID s
    ∧ ThreeChannel.isTranslateChannel (ThreeChannel.translateChannels g)
        (ChannelID m) = true
    ∧ Filters.isOnlyEmoji category (Content m) = false
    ∧ ThreeChannel.containsBannedWord To_LowerCase
        (ThreeChannel.bannedWords g) (Content m) = false in
  (∀ channelID content,
     ChannelMessageSend channelID content ∈ t
     ↔ channelID = ChannelID m ∧ admitted
       ∧ ∃ translatedText,
           TransShell.translateToEnglish Getenv_TRANSLATE_PATH cmd_Run
             (Content m) = Ok translatedText
           ∧ Filters.areTextsSimilar To_LowerCase (Content m) translatedText
             = false
           ∧ content = lit "Translated: " ++ translatedText)
  ∧ (∀ text sourceLang,
       TranslateToEnglish text sourceLang ∈ t
       ↔ text = Content m ∧ sourceLang = None ∧ admitted)
  ∧ (t = [] ↔ ¬ admitted).
Proof.
  intros t admitted. subst t admitted.
  rewrite ThreeChannel_messageCreate_run.
  case_bool_decide as Hself.
  { split; [|split]; [intros ??|intros ??|]; rewrite ?elem_of_nil; tauto. }
  destruct (ThreeChannel.isTranslateChannel _ _) eqn:Hch; simpl; last first.
  { split; [|split]; [intros ??|intros ??|]; rewrite ?elem_of_nil;
      intuition congruence. }
  destruct (Filters.isOnlyEmoji _ _) eqn:Hemoji.
  { split; [|split]; [intros ??|intros ??|]; rewrite ?elem_of_nil;
      intuition congruence. }
  destruct (ThreeChannel.containsBannedWord _ _ _) eqn:Hban.
  { split; [|split]; [intros ??|intros ??|]; rewrite ?elem_of_nil;
      intuition congruence. }
  destruct (TransShell.translateToEnglish _ _ _) as [out|err] eqn:Hout.
  - destruct (Filters.areTextsSimilar _ _ _) eqn:Hsim.
    + split; [|split].
      * intros ch txt. rewrite list_elem_of_singleton. split; [done|].
        intros (_ & _ & out' & [= <-] & Hsim' & _). congruence.
      * intros text hint. rewrite list_elem_of_singleton.
        split; [by intros [= -> ->]|by intros (-> & -> & _)].
      * split; [done|]. intros Hn. by destruct Hn.
    + split; [|split].
      * intros ch txt. rewrite elem_of_cons, list_elem_of_singleton.
        split.
        -- intros [?|[= -> ->]]; [done|]. repeat split; try done.
           by exists out.
        -- intros (-> & _ & out' & [= <-] & _ & ->). by right.
      * intros text hint. rewrite elem_of_cons, list_elem_of_singleton.
        split; [by intros [[= -> ->]|?]|by intros (-> & -> & _); left].
      * split; [done|]. intros Hn. by destruct Hn.
  - split; [|split].
    + intros ch txt. rewrite elem_of_cons, list_elem_of_singleton.
      split; [by intros [?|?]|]. by intros (_ & _ & out' & ? & _).
    + intros text hint. rewrite elem_of_cons, list_elem_of_singleton.
      split; [by intros [[= -> ->]|?]|by intros (-> & -> & _); left].
    + split; [done|]. intros Hn. by destruct Hn.
Qed.

Section ShortMessages.
Context (To_LowerCase : rune → rune).

(** What the two-slot handler hands on after the prefix check has at most
    two tokens when the message has. *)
Lemma stripPrefix_few_words (content : gostring) :
  length (strings.Fields content) ≤ 2 →
  length (strings.Fields
            (TwoChannel.stripPrefix To_LowerCase (strings.Fields content)
               content)) ≤ 2.
Proof.
  intros Hshort. unfold TwoChannel.stripPrefix.
  destruct (bool_decide (length (strings.Fields content) = 2)) eqn:Htwo;
    [|done].
  destruct (bool_decide (_ = lit "en")); [|done]. simpl.
  apply bool_decide_eq_true in Htwo.
  destruct (strings.Fields content) as [|w0 [|w [|]]] eqn:Hwords; try done.
  simpl. rewrite (second_word_is_one_word _ _ _ Hwords). simpl. lia.
Qed.
End ShortMessages.

(** X4. A message of at most two tokens is never answered: in the variants
    with the similarity gate, whatever the gateway returns, nothing is
    posted for it (for a case table that keeps white space, as Go's
    does). *)
Theorem short_messages_are_never_posted
    (category : rune → unicode.GeneralCategory) (To_LowerCase : rune → rune)
    (Getenv_TRANSLATE_PATH : gostring)
    (cmd_Run : gostring → gostring → option error * gostring * gostring)
    (s : Session) (m : MessageCreate) :
  Spec.caseKeepsSpace To_LowerCase →
  length (strings.Fields (Content m)) ≤ 2 →
  (∀ g : ThreeChannel.Globals,
     count isPost
       (trace (ThreeChannel.messageCreate category To_LowerCase
                 Getenv_TRANSLATE_PATH cmd_Run g s m)) = 0)
  ∧ (∀ table : gmap (list Z) (option (list Z) * option (list Z)),
       count isPost
         (trace (TwoChannel.messageCreate category To_LowerCase
                   Getenv_TRANSLATE_PATH cmd_Run table s m)) = 0).
Proof.
  intros Hcase Hshort. split.
  - intros g. rewrite ThreeChannel_messageCreate_run.
    case_bool_decide; [done|]. destruct (negb _); [done|].
    destruct (Filters.isOnlyEmoji _ _); [done|].
    destruct (ThreeChannel.containsBannedWord _ _ _); [done|].
    destruct (TransShell.translateToEnglish _ _ _) as [out|err]; [|done].
    by rewrite (areTextsSimilar_few_words _ _ _ Hcase Hshort).
  - intros table. rewrite TwoChannel_messageCreate_run. cbv zeta.
    case_bool_decide; [done|]. destruct (negb _); [done|].
    destruct (Filters.isOnlyEmoji _ _); [done|].
    case_bool_decide; [done|].
    destruct (TransShell.translateToEnglish _ _ _) as [out|err]; [|done].
    by rewrite (areTextsSimilar_few_words _ _ _ Hcase
                  (stripPrefix_few_words _ _ Hshort)).
Qed.

Lemma short_messages_are_never_posted_witness :
  count isPost
    (trace (ThreeChannel.messageCreate Sample.category Sample.To_LowerCase
              Sample.TRANSLATE_PATH Sample.cmd_Run Sample.enrolled Sample.bot
              (Sample.message (lit "101") (lit "au revoir")))) = 0.
Proof.
  destruct (short_messages_are_never_posted Sample.category
              Sample.To_LowerCase Sample.TRANSLATE_PATH Sample.cmd_Run
              Sample.bot (Sample.message (lit "101") (lit "au revoir")))
    as [Hthree _].
  - apply Sample_caseKeepsSpace.
  - vm_compute. lia.
  - apply Hthree.
Defined.

Lemma DetectApiAuto_messageCreate_shapes
    (detect : gostring → Result gostring) (translate : gostring → Run gostring)
    (translateChannelID : gostring) (s : Session) (m : MessageCreate) :
  let t := (DetectApiAuto.messageCreate detect translate translateChannelID
              s m).1 in
  t = []
  ∨ t = [DetectLanguage (Content m)]
  ∨ (∃ err, t = [DetectLanguage (Content m);
                 LogPrintln (lit "Error detecting language,") err])
  ∨ t = [DetectLanguage (Content m); TranslateToEnglish (Content m) None]
  ∨ (∃ err, t = [DetectLanguage (Content m);
                 TranslateToEnglish (Content m) None;
                 LogPrintln (lit "Error translating message,") err])
  ∨ (∃ translatedText,
       t = [DetectLanguage (Content m); TranslateToEnglish (Content m) None;
            ChannelMessageSend (ChannelID m)
              (lit "Translated: " ++ translatedText)]).
Proof.
  unfold DetectApiAuto.messageCreate.
  destruct (_ || _); [by left|].
  destruct (detect _) as [lang|err]; [|right; right; left; by exists err].
  case_bool_decide; [|by right; left].
  destruct (translate _) as [[out|err]|]; simpl.
  - do 5 right. by exists out.
  - do 4 right. left. by exists err.
  - do 3 right. by left.
Qed.

(** The shapes a trace with the expected conduct can have. *)
Lemma orderly_shapes (m : MessageCreate) (t : list Event) :
  t = []
  ∨ (∃ text hint, t = [TranslateToEnglish text hint]
       ∧ (text = Content m
          ∨ ∃ prefix, strings.Fields (Content m) = [prefix; text]))
  ∨ (∃ text hint msg err,
       t = [TranslateToEnglish text hint; LogPrintln msg err]
       ∧ (text = Content m
          ∨ ∃ prefix, strings.Fields (Content m) = [prefix; text]))
  ∨ (∃ text hint translatedText,
       t = [TranslateToEnglish text hint;
            ChannelMessageSend (ChannelID m)
              (lit "Translated: " ++ translatedText)]
       ∧ (text = Content m
          ∨ ∃ prefix, strings.Fields (Content m) = [prefix; text]))
  ∨ t = [DetectLanguage (Content m)]
  ∨ (∃ msg err, t = [DetectLanguage (Content m); LogPrintln msg err])
  ∨ (∃ hint, t = [DetectLanguage (Content m);
                  TranslateToEnglish (Content m) hint])
  ∨ (∃ hint msg err,
       t = [DetectLanguage (Content m); TranslateToEnglish (Content m) hint;
            LogPrintln msg err])
  ∨ (∃ hint translatedText,
       t = [DetectLanguage (Content m); TranslateToEnglish (Content m) hint;
            ChannelMessageSend (ChannelID m)
              (lit "Translated: " ++ translatedText)]) →
  Traces.orderly m t.
Proof.
  unfold Traces.orderly, count.
  intros [->|[(text & hint & -> & Htext)|[(text & hint & msg & err & -> & Htext)
    |[(text & hint & out & -> & Htext)|[->|[(msg & err & ->)|[(hint & ->)
    |[(hint & msg & err & ->)|(hint & out & ->)]]]]]]]]; simpl;
    (split; [lia|]); (split; [lia|]); (split; [lia|]);
    (split; [|split]); intros a b;
    rewrite ?elem_of_cons, ?elem_of_nil; try tauto; try done.
  all: try (intros [?|[?|?]]; simplify_eq; eauto; done).
  all: try (intros [?|[?|[?|?]]]; simplify_eq; eauto; done).
  all: try (intros [?|?]; simplify_eq; eauto; done).
Qed.

Lemma stripPrefix_cases (To_LowerCase : rune → rune) (content : gostring) :
  let text :=
    TwoChannel.stripPrefix To_LowerCase (strings.Fields content) content in
  text = content ∨ ∃ prefix, strings.Fields content = [prefix; text].
Proof.
  unfold TwoChannel.stripPrefix.
  case_bool_decide as Htwo; [|by left].
  case_bool_decide; [|by left]. right. simpl.
  destruct (strings.Fields content) as [|w0 [|w [|]]]; try done.
  by exists w0.
Qed.

(** X5. Whatever the detector, the gateway, the tables and the message are,
    every handler calls the detector at most once, the gateway at most once
    and posts at most once; a post goes to the channel the message came from
    and begins with ["Translated: "]; the text given to the gateway is the
    content of the message (or its second token, after the ["en"] prefix is
    stripped); and a run that logs an error posts nothing. *)
Theorem handlers_are_orderly
    (category : rune → unicode.GeneralCategory) (To_LowerCase : rune → rune)
    (Getenv_TRANSLATE_PATH : gostring)
    (cmd_Run : gostring → gostring → option error * gostring * gostring)
    (detect : gostring → Result gostring)
    (trans_Run : gostring → option error * gostring)
    (translate : gostring → gostring → Result gostring)
    (translate_bare : gostring → Run gostring)
    (g : ThreeChannel.Globals)
    (table : gmap (list Z) (option (list Z) * option (list Z)))
    (translateChannelID : gostring) (s : Session) (m : MessageCreate) :
  Traces.orderly m
    (trace (ThreeChannel.messageCreate category To_LowerCase
              Getenv_TRANSLATE_PATH cmd_Run g s m))
  ∧ Traces.orderly m
      (trace (TwoChannel.messageCreate category To_LowerCase
                Getenv_TRANSLATE_PATH cmd_Run table s m))
  ∧ Traces.orderly m
      (trace (DetectCli.messageCreate category detect trans_Run
                translateChannelID s m))
  ∧ Traces.orderly m
      (trace (DetectApi.messageCreate detect translate translateChannelID
                s m))
  ∧ Traces.orderly m
      (DetectApiAuto.messageCreate detect translate_bare translateChannelID
         s m).1.
Proof.
  split; [|split; [|split; [|split]]]; apply orderly_shapes.
  - rewrite ThreeChannel_messageCreate_run.
    case_bool_decide; [by left|]. destruct (negb _); [by left|].
    destruct (Filters.isOnlyEmoji _ _); [by left|].
    destruct (ThreeChannel.containsBannedWord _ _ _); [by left|].
    destruct (TransShell.translateToEnglish _ _ _) as [out|err].
    + destruct (Filters.areTextsSimilar _ _ _).
      * right; left. eexists _, _. split; [done|by left].
      * do 3 right. left. eexists _, _, _. split; [done|by left].
    + do 2 right. left. eexists _, _, _, _. split; [done|by left].
  - rewrite TwoChannel_messageCreate_run. cbv zeta.
    pose proof (stripPrefix_cases To_LowerCase (Content m)) as Htext.
    simpl in Htext.
    case_bool_decide; [by left|]. destruct (negb _); [by left|].
    destruct (Filters.isOnlyEmoji _ _); [by left|].
    case_bool_decide; [by left|].
    destruct (TransShell.translateToEnglish _ _ _) as [out|err].
    + destruct (Filters.areTextsSimilar _ _ _).
      * right; left. eexists _, _. split; [done|exact Htext].
      * do 3 right. left. eexists _, _, _. split; [done|exact Htext].
    + do 2 right. left. eexists _, _, _, _. split; [done|exact Htext].
  - rewrite DetectCli_messageCreate_run.
    case_bool_decide; [by left|]. case_bool_decide; [by left|].
    destruct (Filters.isOnlyEmoji _ _); [by left|].
    destruct (detect _) as [lang|err]; [|do 5 right; left; by eexists _, _].
    case_bool_decide; [|by do 4 right; left].
    destruct (trans_Run _) as [[err|] out].
    + do 7 right. left. by eexists _, _, _.
    + do 8 right. by eexists _, _.
  - rewrite DetectApi_messageCreate_run.
    case_bool_decide; [by left|]. case_bool_decide; [by left|].
    destruct (detect _) as [lang|err]; [|do 5 right; left; by eexists _, _].
    case_bool_decide; [|by do 4 right; left].
    destruct (translate _ _) as [out|err].
    + do 8 right. by eexists _, _.
    + do 7 right. left. by eexists _, _, _.
  - destruct (DetectApiAuto_messageCreate_shapes detect translate_bare
                translateChannelID s m)
      as [->|[->|[(err & ->)|[->|[(err & ->)|(out & ->)]]]]].
    + by left.
    + by do 4 right; left.
    + do 5 right; left. by eexists _, _.
    + do 6 right; left. by eexists.
    + do 7 right; left. by eexists _, _, _.
    + do 8 right. by eexists _, _.
Qed.

(** X6. In the variants with a language detector the gateway is called
    exactly when the earlier gates are passed and the detector names a
    language other than ["en"]; the detector's answer ["en"] ends the
    processing with nothing translated and nothing posted.  The remote
    variant hands the detected language to the gateway. *)
Theorem gateway_called_only_for_other_languages
    (category : rune → unicode.GeneralCategory)
    (detect : gostring → Result gostring)
    (trans_Run : gostring → option error * gostring)
    (translate : gostring → gostring → Result gostring)
    (translateChannelID : gostring) (s : Session) (m : MessageCreate) :
  let cli := trace (DetectCli.messageCreate category detect trans_Run
                      translateChannelID s m) in
  let api := trace (DetectApi.messageCreate detect translate
                      translateChannelID s m) in
  (∀ text sourceLang,
     TranslateToEnglish text sourceLang ∈ cli
     ↔ text = Content m ∧ sourceLang = None
       ∧ Author_ID m ≠ State_User_ID s ∧ ChannelID m = translateChannelID
       ∧ Filters.isOnlyEmoji category (Content m) = false
       ∧ ∃ detectedLang, detect (Content m) = Ok detectedLang
                         ∧ detectedLang ≠ lit "en")
  ∧ (∀ text sourceLang,
       TranslateToEnglish text sourceLang ∈ api
       ↔ text = Content m
         ∧ Author_ID m ≠ State_User_ID s ∧ ChannelID m = translateChannelID
         ∧ ∃ detectedLang, detect (Content m) = Ok detectedLang
                           ∧ detectedLang ≠ lit "en"
                           ∧ sourceLang = Some detectedLang)
  ∧ (detect (Content m) = Ok (lit "en") →
     (cli = [] ∨ cli = [DetectLanguage (Content m)])
     ∧ (api = [] ∨ api = [DetectLanguage (Content m)])).
Proof.
  intros cli api. subst cli api.
  rewrite DetectCli_messageCreate_run, DetectApi_messageCreate_run.
  split; [|split].
  - intros text hint.
    case_bool_decide as Hself; [rewrite elem_of_nil; tauto|].
    case_bool_decide as Hch; [rewrite elem_of_nil; tauto|].
    destruct (Filters.isOnlyEmoji _ _); [rewrite elem_of_nil; intuition congruence|].
    rewrite elem_of_cons.
    destruct (detect _) as [lang|err].
    + case_bool_decide as Hen.
      * rewrite elem_of_cons. split.
        -- intros [?|[[= -> ->]|Hin]]; [done| |].
           ++ repeat split; try done. by exists lang.
           ++ destruct (trans_Run _) as [[?|] ?];
                by apply list_elem_of_singleton in Hin.
        -- intros (-> & -> & _). right. by left.
      * rewrite elem_of_nil. split; [by intros [?|?]|].
        intros (_ & _ & _ & _ & _ & lang' & [= <-] & ?). done.
    + rewrite list_elem_of_singleton. split; [by intros [?|?]|].
      intros (_ & _ & _ & _ & _ & lang' & ? & _). done.
  - intros text hint.
    case_bool_decide as Hself; [rewrite elem_of_nil; tauto|].
    case_bool_decide as Hch; [rewrite elem_of_nil; tauto|].
    rewrite elem_of_cons.
    destruct (detect _) as [lang|err].
    + case_bool_decide as Hen.
      * rewrite elem_of_cons. split.
        -- intros [?|[[= -> ->]|Hin]]; [done| |].
           ++ repeat split; try done. by exists lang.
           ++ destruct (translate _ _);
                by apply list_elem_of_singleton in Hin.
        -- intros (-> & _ & _ & lang' & [= <-] & _ & ->). right. by left.
      * rewrite elem_of_nil. split; [by intros [?|?]|].
        intros (_ & _ & _ & lang' & [= <-] & ? & _). done.
    + rewrite list_elem_of_singleton. split; [by intros [?|?]|].
      intros (_ & _ & _ & lang' & ? & _). done.
  - intros ->. rewrite (bool_decide_eq_false_2 (lit "en" ≠ lit "en"))
      by (by intros []).
    split.
    + case_bool_decide; [by left|]. case_bool_decide; [by left|].
      destruct (Filters.isOnlyEmoji _ _); [by left|by right].
    + case_bool_decide; [by left|]. case_bool_decide; [by left|by right].
Qed.

Lemma gateway_called_only_for_other_languages_witness :
  trace (DetectApi.messageCreate Sample.detect Sample.translate (lit "101")
           Sample.bot (Sample.message (lit "101") (lit "hello world")))
  = [DetectLanguage (lit "hello world")].
Proof.
  destruct (gateway_called_only_for_other_languages Sample.category
              Sample.detect Sample.trans_Run Sample.translate (lit "101")
              Sample.bot (Sample.message (lit "101") (lit "hello world")))
    as (_ & _ & Hen).
  destruct (Hen eq_refl) as [_ [Hnil|Hone]].
  - by vm_compute in Hnil.
  - exact Hone.
Defined.

(** X7. A gateway that prints nothing but white space is answered with an
    empty translation: when [trans] exits without error and with blank
    output, a message of at least three tokens that passes the gates of the
    three-slot handler is answered with the bare label ["Translated: "]
    (for a case table that keeps white space). *)
Theorem blank_translation_is_posted
    (category : rune → unicode.GeneralCategory) (To_LowerCase : rune → rune)
    (Getenv_TRANSLATE_PATH : gostring)
    (cmd_Run : gostring → gostring → option error * gostring * gostring)
    (g : ThreeChannel.Globals) (s : Session) (m : MessageCreate)
    (out stderr : gostring) :
  Spec.caseKeepsSpace To_LowerCase →
  Getenv_TRANSLATE_PATH ≠ [] →
  cmd_Run Getenv_TRANSLATE_PATH (Content m) = (None, out, stderr) →
  Forall (λ r, unicode.IsSpace r = true) out →
  Author_ID m ≠ State_User_ID s →
  ThreeChannel.isTranslateChannel (ThreeChannel.translateChannels g)
    (ChannelID m) = true →
  Filters.isOnlyEmoji category (Content m) = false →
  ThreeChannel.containsBannedWord To_LowerCase (ThreeChannel.bannedWords g)
    (Content m) = false →
  3 ≤ length (strings.Fields (Content m)) →
  trace (ThreeChannel.messageCreate category To_LowerCase
           Getenv_TRANSLATE_PATH cmd_Run g s m)
  = [TranslateToEnglish (Content m) None;
     ChannelMessageSend (ChannelID m) (lit "Translated: ")].
Proof.
  intros Hcase Hpath Hrun Hblank Hself Hch Hemoji Hban Hlong.
  rewrite ThreeChannel_messageCreate_run.
  rewrite bool_decide_eq_false_2, Hch, Hemoji, Hban by done. simpl.
  unfold TransShell.translateToEnglish.
  rewrite bool_decide_eq_false_2, Hrun by done.
  unfold strings.TrimSpace. rewrite (TrimFunc_all _ _ Hblank).
  rewrite areTextsSimilar_absent_words; [done|].
  rewrite !(Fields_normalize _ Hcase), !length_fmap. simpl. lia.
Qed.

Lemma blank_translation_is_posted_witness :
  trace (ThreeChannel.messageCreate Sample.category Sample.To_LowerCase
           Sample.TRANSLATE_PATH (λ _ _, (None, lit "  " ++ [10%Z], []))
           Sample.enrolled Sample.bot
           (Sample.message (lit "101") (lit "bonjour le monde")))
  = [TranslateToEnglish (lit "bonjour le monde") None;
     ChannelMessageSend (lit "101") (lit "Translated: ")].
Proof.
  apply (blank_translation_is_posted Sample.category Sample.To_LowerCase
           Sample.TRANSLATE_PATH (λ _ _, (None, lit "  " ++ [10%Z], []))
           Sample.enrolled Sample.bot
           (Sample.message (lit "101") (lit "bonjour le monde"))
           (lit "  " ++ [10%Z]) []).
  - apply Sample_caseKeepsSpace.
  - discriminate.
  - reflexivity.
  - by repeat constructor.
  - discriminate.
  - by vm_compute.
  - by vm_compute.
  - by vm_compute.
  - vm_compute. lia.
Defined.

(** X8. What [translateToEnglish] of the command-line variants returns has
    no white space at either end, and trimming it again changes nothing;
    without [TRANSLATE_PATH] it fails for every text, whatever the
    subprocess would do. *)
Theorem translateToEnglish_output_is_trimmed
    (Getenv_TRANSLATE_PATH : gostring)
    (cmd_Run : gostring → gostring → option error * gostring * gostring)
    (text : gostring) :
  (∀ translatedText,
     TransShell.translateToEnglish Getenv_TRANSLATE_PATH cmd_Run text
     = Ok translatedText →
     strings.TrimSpace translatedText = translatedText
     ∧ (∀ r rest, translatedText = r :: rest → unicode.IsSpace r = false)
     ∧ (∀ r, last translatedText = Some r → unicode.IsSpace r = false))
  ∧ (Getenv_TRANSLATE_PATH = [] →
     TransShell.translateToEnglish Getenv_TRANSLATE_PATH cmd_Run text
     = Err (lit "TRANSLATE_PATH environment variable is not set")).
Proof.
  unfold TransShell.translateToEnglish. split.
  - intros translatedText. case_bool_decide; [done|].
    destruct (cmd_Run _ _) as [[[err|] out] stderr]; [done|].
    intros [= <-]. unfold strings.TrimSpace.
    split; [apply TrimFunc_idem|]. split.
    + intros r rest. apply TrimFunc_head.
    + intros r. apply TrimFunc_last.
  - intros ->. done.
Qed.

Lemma translateToEnglish_output_is_trimmed_witness :
  TransShell.translateToEnglish Sample.TRANSLATE_PATH Sample.cmd_Run
    (lit "bonjour le monde") = Ok (lit "hello the world")
  ∧ strings.TrimSpace (lit "hello the world") = lit "hello the world".
Proof.
  destruct (translateToEnglish_output_is_trimmed Sample.TRANSLATE_PATH
              Sample.cmd_Run (lit "bonjour le monde")) as [Htrim _].
  split; [reflexivity|]. by apply Htrim.
Defined.

(** * Beyond the claims: the channel router *)

Section MoreRouterFacts.
Import ThreeChannel.

Lemma addTranslateChannels_unfold (serverID : gostring)
    (channel1 channel2 channel3 : option Channel) (g : Globals) :
  let prior := default (None, None, None) (db g !! serverID) in
  let table :=
    <[serverID := (Spec.upsert channel1 prior.1.1,
                   Spec.upsert channel2 prior.1.2,
                   Spec.upsert channel3 prior.2)]> (db g) in
  addTranslateChannels serverID channel1 channel2 channel3 g
  = {| db := table; bannedWords := bannedWords g;
       translateChannels := loadTranslateChannels table |}.
Proof.
  unfold addTranslateChannels.
  by destruct (db g !! serverID) as [[[[c1|] [c2|]] [c3|]]|],
    channel1, channel2, channel3.
Qed.

(** The index built from a table enrolls a non-empty identity exactly when
    a column of some row holds it. *)
Lemma loadTranslateChannels_exact
    (table : gmap (list Z)
               (option (list Z) * option (list Z) * option (list Z)))
    (channelID : gostring) :
  channelID ≠ [] →
  isTranslateChannel (loadTranslateChannels table) channelID = true
  ↔ ∃ serverID c1 c2 c3,
      table !! serverID = Some (c1, c2, c3)
      ∧ (c1 = Some channelID ∨ c2 = Some channelID ∨ c3 = Some channelID).
Proof.
  intros Hne. rewrite isTranslateChannel_lookup. split.
  - intros (S & d1 & d2 & d3 & Hindex & Hin).
    unfold loadTranslateChannels in Hindex. rewrite lookup_fmap in Hindex.
    destruct (table !! S) as [[[c1 c2] c3]|] eqn:Hrow; [|done].
    simpl in Hindex. injection Hindex as <- <- <-.
    exists S, c1, c2, c3. split; [done|].
    rewrite !elem_of_cons, elem_of_nil in Hin.
    destruct Hin as [->|[->|[->|[]]]].
    + left. by destruct c1.
    + right; left. by destruct c2.
    + right; right. by destruct c3.
  - intros (S & c1 & c2 & c3 & Hrow & Hin).
    eexists S, _, _, _.
    split; [by apply loadTranslateChannels_lookup|].
    rewrite !elem_of_cons.
    destruct Hin as [->|[->| ->]]; simpl; eauto.
Qed.
End MoreRouterFacts.

(** X9. After [addTranslateChannels], a non-empty channel identity is
    enrolled exactly when the server's record, with the supplied slots
    overwritten and the others kept, holds it in some slot, or the record of
    another server already held it: the lookup is over the records of all
    servers and a command of one server leaves the others alone. *)
Theorem enrollment_after_addTranslateChannels (g : ThreeChannel.Globals)
    (S : gostring) (channel1 channel2 channel3 : option Channel)
    (channelID : gostring) :
  channelID ≠ [] →
  let prior := default (None, None, None) (ThreeChannel.db g !! S) in
  ThreeChannel.isTranslateChannel
    (ThreeChannel.translateChannels
       (ThreeChannel.addTranslateChannels S channel1 channel2 channel3 g))
    channelID = true
  ↔ (Spec.upsert channel1 prior.1.1 = Some channelID
     ∨ Spec.upsert channel2 prior.1.2 = Some channelID
     ∨ Spec.upsert channel3 prior.2 = Some channelID)
    ∨ ∃ S' c1 c2 c3,
        S' ≠ S ∧ ThreeChannel.db g !! S' = Some (c1, c2, c3)
        ∧ (c1 = Some channelID ∨ c2 = Some channelID ∨ c3 = Some channelID).
Proof.
  intros Hne prior. subst prior.
  rewrite addTranslateChannels_unfold. cbn [ThreeChannel.translateChannels].
  rewrite (loadTranslateChannels_exact _ _ Hne). split.
  - intros (S' & c1 & c2 & c3 & Hrow & Hin).
    destruct (decide (S' = S)) as [->|Hother].
    + rewrite lookup_insert_eq in Hrow. injection Hrow as <- <- <-.
      by left.
    + rewrite lookup_insert_ne in Hrow by done.
      right. by exists S', c1, c2, c3.
  - intros [Hin|(S' & c1 & c2 & c3 & Hother & Hrow & Hin)].
    + eexists S, _, _, _. split; [by rewrite lookup_insert_eq|done].
    + exists S', c1, c2, c3. split; [|done].
      by rewrite lookup_insert_ne.
Qed.

Lemma enrollment_after_addTranslateChannels_witness :
  ThreeChannel.isTranslateChannel
    (ThreeChannel.translateChannels
       (ThreeChannel.addTranslateChannels (lit "8") None (Some Sample.random)
          None Sample.enrolled))
    (lit "101") = true.
Proof.
  apply (enrollment_after_addTranslateChannels Sample.enrolled (lit "8")
           None (Some Sample.random) None (lit "101")).
  - discriminate.
  - right. exists Sample.guild, (Some (lit "101")), None, None.
    split; [discriminate|]. split; [reflexivity|by left].
Defined.

(** X10. Overwriting a slot drops the channel it held: when a channel is
    held by the first slot of one record only, among the records of all
    servers, and that slot is given another channel, the old channel is no
    longer enrolled and the handler does nothing for a message posted in it,
    while the new channel is enrolled. *)
Theorem overwritten_channel_is_dropped
    (category : rune → unicode.GeneralCategory) (To_LowerCase : rune → rune)
    (Getenv_TRANSLATE_PATH : gostring)
    (cmd_Run : gostring → gostring → option error * gostring * gostring)
    (g : ThreeChannel.Globals) (S old : gostring) (new : Channel)
    (c2 c3 : option gostring) (s : Session) (m : MessageCreate) :
  old ≠ [] →
  ID new ≠ old →
  ThreeChannel.db g !! S = Some (Some old, c2, c3) →
  c2 ≠ Some old → c3 ≠ Some old →
  (∀ S' d1 d2 d3, S' ≠ S → ThreeChannel.db g !! S' = Some (d1, d2, d3) →
     d1 ≠ Some old ∧ d2 ≠ Some old ∧ d3 ≠ Some old) →
  let g' := ThreeChannel.addTranslateChannels S (Some new) None None g in
  ThreeChannel.isTranslateChannel (ThreeChannel.translateChannels g') old
  = false
  ∧ ThreeChannel.isTranslateChannel (ThreeChannel.translateChannels g')
      (ID new) = true
  ∧ (ChannelID m = old →
     trace (ThreeChannel.messageCreate category To_LowerCase
              Getenv_TRANSLATE_PATH cmd_Run g' s m) = []).
Proof.
  intros Hne Hnew Hrow Hc2 Hc3 Hothers g'. subst g'.
  assert (ThreeChannel.isTranslateChannel
            (ThreeChannel.translateChannels
               (ThreeChannel.addTranslateChannels S (Some new) None None g))
            old = false) as Hdropped.
  { apply not_true_is_false.
    rewrite addTranslateChannels_unfold.
    cbn [ThreeChannel.translateChannels].
    rewrite (loadTranslateChannels_exact _ _ Hne), Hrow. simpl.
    intros (S' & d1 & d2 & d3 & Hrow' & Hin).
    destruct (decide (S' = S)) as [->|Hother].
    - rewrite lookup_insert_eq in Hrow'. injection Hrow' as <- <- <-.
      destruct Hin as [[= ?]|[?|?]]; done.
    - rewrite lookup_insert_ne in Hrow' by done.
      destruct (Hothers S' d1 d2 d3 Hother Hrow') as (? & ? & ?).
      destruct Hin as [?|[?|?]]; done. }
  split; [done|]. split.
  - rewrite addTranslateChannels_unfold.
    cbn [ThreeChannel.translateChannels].
    apply isTranslateChannel_lookup. eexists S, _, _, _.
    split; [apply loadTranslateChannels_lookup; by rewrite lookup_insert_eq|].
    simpl. left.
  - intros Hch. rewrite ThreeChannel_messageCreate_run, Hch, Hdropped.
    by case_bool_decide.
Qed.

Lemma overwritten_channel_is_dropped_witness :
  trace (ThreeChannel.messageCreate Sample.category Sample.To_LowerCase
           Sample.TRANSLATE_PATH Sample.cmd_Run
           (ThreeChannel.addTranslateChannels Sample.guild
              (Some Sample.random) None None Sample.enrolled)
           Sample.bot (Sample.message (lit "101") (lit "bonjour le monde")))
  = [].
Proof.
  destruct (overwritten_channel_is_dropped Sample.category
              Sample.To_LowerCase Sample.TRANSLATE_PATH Sample.cmd_Run
              Sample.enrolled Sample.guild (lit "101") Sample.random
              None None Sample.bot
              (Sample.message (lit "101") (lit "bonjour le monde")))
    as (_ & _ & Hnothing); [done..| |by apply Hnothing].
  intros S' d1 d2 d3 Hother Hrow.
  assert (ThreeChannel.db Sample.enrolled
          = {[Sample.guild := (Some (lit "101"), None, None)]}) as Hdb
    by reflexivity.
  rewrite Hdb in Hrow. by rewrite lookup_singleton_ne in Hrow.
Defined.

(** X11. No command clears a slot or removes a record: after
    [addTranslateChannels], with whatever arguments, every server that had
    a record still has one, and each of its slots that was set is still
    set. *)
Theorem slots_are_never_cleared (g : ThreeChannel.Globals) (S S' : gostring)
    (channel1 channel2 channel3 : option Channel)
    (c1 c2 c3 : option gostring) :
  ThreeChannel.db g !! S' = Some (c1, c2, c3) →
  ∃ c1' c2' c3',
    ThreeChannel.db
      (ThreeChannel.addTranslateChannels S channel1 channel2 channel3 g)
    !! S' = Some (c1', c2', c3')
    ∧ (is_Some c1 → is_Some c1') ∧ (is_Some c2 → is_Some c2')
    ∧ (is_Some c3 → is_Some c3')
    ∧ (S' ≠ S → c1' = c1 ∧ c2' = c2 ∧ c3' = c3).
Proof.
  intros Hrow. rewrite addTranslateChannels_unfold. cbn [ThreeChannel.db].
  destruct (decide (S' = S)) as [->|Hother].
  - rewrite lookup_insert_eq, Hrow. simpl. eexists _, _, _.
    split; [done|].
    destruct channel1, channel2, channel3; simpl;
      (repeat split; [eauto..|done|done|done]).
  - rewrite lookup_insert_ne by done. by exists c1, c2, c3.
Qed.

Lemma slots_are_never_cleared_witness :
  ∃ c1' c2' c3',
    ThreeChannel.db
      (ThreeChannel.addTranslateChannels Sample.guild None
         (Some Sample.random) None Sample.enrolled)
    !! Sample.guild = Some (c1', c2', c3')
    ∧ (is_Some (Some (lit "101")) → is_Some c1')
    ∧ (is_Some (@None (list Z)) → is_Some c2')
    ∧ (is_Some (@None (list Z)) → is_Some c3')
    ∧ (Sample.guild ≠ Sample.guild →
       c1' = Some (lit "101") ∧ c2' = None ∧ c3' = None).
Proof.
  apply (slots_are_never_cleared Sample.enrolled Sample.guild Sample.guild
           None (Some Sample.random) None (Some (lit "101")) None None).
  reflexivity.
Defined.

(** X12. Repeating a command changes nothing: [addTranslateChannels] with
    the same arguments a second time leaves the table, the index and the
    banned words as the first call left them. *)
Theorem addTranslateChannels_idempotent (g : ThreeChannel.Globals)
    (S : gostring) (channel1 channel2 channel3 : option Channel) :
  ThreeChannel.addTranslateChannels S channel1 channel2 channel3
    (ThreeChannel.addTranslateChannels S channel1 channel2 channel3 g)
  = ThreeChannel.addTranslateChannels S channel1 channel2 channel3 g.
Proof.
  rewrite (addTranslateChannels_unfold S channel1 channel2 channel3
             (ThreeChannel.addTranslateChannels S channel1 channel2 channel3
                g)).
  rewrite (addTranslateChannels_unfold S channel1 channel2 channel3 g).
  cbn [ThreeChannel.db ThreeChannel.bannedWords].
  rewrite lookup_insert_eq, insert_insert_eq. simpl.
  by destruct channel1, channel2, channel3.
Qed.

(** * Beyond the claims: the slash commands *)

(** Decide the equality of two literals. *)
Ltac lit_decide :=
  repeat match goal with
  | |- context [decide (lit ?a = lit ?b)] =>
      let Hd := fresh in
      destruct (decide (lit a = lit b)) as [Hd|Hd];
      [try (vm_compute in Hd; discriminate Hd)
      |try (exfalso; apply Hd; reflexivity)]
  end.

Section OptionFacts.

Lemma lastNamed_cons (name : gostring) (o : ChannelOption)
    (options : list ChannelOption) :
  CommandSpec.lastNamed name (o :: options)
  = match CommandSpec.lastNamed name options with
    | Some c => Some c
    | None => if decide (Name o = name) then Some (ChannelValue o) else None
    end.
Proof.
  unfold CommandSpec.lastNamed. rewrite filter_cons.
  case_decide; [|by destruct (last _)].
  rewrite last_cons. by destruct (last _).
Qed.

Lemma lastNamed_elem (name : gostring) (options : list ChannelOption)
    (c : Channel) :
  CommandSpec.lastNamed name options = Some c →
  ∃ o, o ∈ options ∧ Name o = name ∧ ChannelValue o = c.
Proof.
  unfold CommandSpec.lastNamed. intros Hlast.
  destruct (last _) as [o|] eqn:Ho; [|done]. injection Hlast as <-.
  apply last_Some_elem_of, list_elem_of_filter in Ho as [? ?]. by exists o.
Qed.

Lemma lastNamed_None (name : gostring) (options : list ChannelOption) :
  (∀ o, o ∈ options → Name o ≠ name) →
  CommandSpec.lastNamed name options = None.
Proof.
  intros Hnone. destruct (CommandSpec.lastNamed name options) as [c|] eqn:Hc;
    [|done].
  apply lastNamed_elem in Hc as (o & Hin & Hname & _).
  by destruct (Hnone o Hin).
Qed.

Lemma options_loop3_last (options : list ChannelOption)
    (a1 a2 a3 : option Channel) :
  ThreeChannelCommands.options_loop options (a1, a2, a3)
  = (from_option Some a1 (CommandSpec.lastNamed (lit "channel1") options),
     from_option Some a2 (CommandSpec.lastNamed (lit "channel2") options),
     from_option Some a3 (CommandSpec.lastNamed (lit "channel3") options)).
Proof.
  revert a1 a2 a3. induction options as [|o options IH]; intros a1 a2 a3;
    [done|].
  cbn [ThreeChannelCommands.options_loop]. rewrite !lastNamed_cons.
  case_bool_decide as H1.
  { rewrite IH, H1. lit_decide.
    by destruct (CommandSpec.lastNamed (lit "channel1") options),
      (CommandSpec.lastNamed (lit "channel2") options),
      (CommandSpec.lastNamed (lit "channel3") options). }
  case_bool_decide as H2.
  { rewrite IH, H2. lit_decide.
    by destruct (CommandSpec.lastNamed (lit "channel1") options),
      (CommandSpec.lastNamed (lit "channel2") options),
      (CommandSpec.lastNamed (lit "channel3") options). }
  case_bool_decide as H3.
  { rewrite IH, H3. lit_decide.
    by destruct (CommandSpec.lastNamed (lit "channel1") options),
      (CommandSpec.lastNamed (lit "channel2") options),
      (CommandSpec.lastNamed (lit "channel3") options). }
  rewrite IH, !decide_False by done.
  by destruct (CommandSpec.lastNamed (lit "channel1") options),
    (CommandSpec.lastNamed (lit "channel2") options),
    (CommandSpec.lastNamed (lit "channel3") options).
Qed.

Lemma options_loop2_last (options : list ChannelOption)
    (a1 a2 : option Channel) :
  TwoChannelCommands.options_loop options (a1, a2)
  = (from_option Some a1 (CommandSpec.lastNamed (lit "channel1") options),
     from_option Some a2 (CommandSpec.lastNamed (lit "channel2") options)).
Proof.
  revert a1 a2. induction options as [|o options IH]; intros a1 a2; [done|].
  cbn [TwoChannelCommands.options_loop]. rewrite !lastNamed_cons.
  case_bool_decide as H1.
  { rewrite IH, H1. lit_decide.
    by destruct (CommandSpec.lastNamed (lit "channel1") options),
      (CommandSpec.lastNamed (lit "channel2") options). }
  case_bool_decide as H2.
  { rewrite IH, H2. lit_decide.
    by destruct (CommandSpec.lastNamed (lit "channel1") options),
      (CommandSpec.lastNamed (lit "channel2") options). }
  rewrite IH, !decide_False by done.
  by destruct (CommandSpec.lastNamed (lit "channel1") options),
    (CommandSpec.lastNamed (lit "channel2") options).
Qed.
End OptionFacts.

(** X13. [/translate] of the three-slot variant reads, for each slot, the
    last option of that slot's name and passes over options of other names.
    When none of the three is given the command is refused with an error
    text and nothing changes; otherwise the slots given are written and
    every channel given is enrolled afterwards. *)
Theorem handleTranslateCommand_enrolls_what_it_names
    (GuildID : gostring) (options : list ChannelOption)
    (g : ThreeChannel.Globals) :
  let channel1 := CommandSpec.lastNamed (lit "channel1") options in
  let channel2 := CommandSpec.lastNamed (lit "channel2") options in
  let channel3 := CommandSpec.lastNamed (lit "channel3") options in
  let result := ThreeChannelCommands.handleTranslateCommand GuildID options g in
  (channel1 = None ∧ channel2 = None ∧ channel3 = None →
   result = (lit "Error: At least one channel must be provided.", g))
  ∧ (¬ (channel1 = None ∧ channel2 = None ∧ channel3 = None) →
     result
     = (ThreeChannelCommands.responseContent channel1 channel2 channel3,
        ThreeChannel.addTranslateChannels GuildID channel1 channel2 channel3 g)
     ∧ ∀ c, channel1 = Some c ∨ channel2 = Some c ∨ channel3 = Some c →
         ThreeChannel.isTranslateChannel
           (ThreeChannel.translateChannels result.2) (ID c) = true)
  ∧ ((∀ o, o ∈ options →
        Name o ≠ lit "channel1" ∧ Name o ≠ lit "channel2"
        ∧ Name o ≠ lit "channel3") →
     result = (lit "Error: At least one channel must be provided.", g)).
Proof.
  intros channel1 channel2 channel3 result.
  assert (channel1 = None ∧ channel2 = None ∧ channel3 = None →
          result = (lit "Error: At least one channel must be provided.", g))
    as Hrefused.
  { subst result. unfold ThreeChannelCommands.handleTranslateCommand.
    rewrite options_loop3_last. fold channel1 channel2 channel3.
    by intros (-> & -> & ->). }
  split; [done|]. split.
  - intros Hsome. subst result.
    unfold ThreeChannelCommands.handleTranslateCommand.
    rewrite options_loop3_last. fold channel1 channel2 channel3.
    assert (bool_decide (from_option Some None channel1 = None)
            && bool_decide (from_option Some None channel2 = None)
            && bool_decide (from_option Some None channel3 = None) = false)
      as ->.
    { destruct channel1, channel2, channel3; try done. by destruct Hsome. }
    assert (∀ c : option Channel, from_option Some None c = c) as Hid
      by (by intros []).
    rewrite !Hid. split; [done|]. cbn [snd].
    intros c Hc. rewrite addTranslateChannels_unfold.
    cbn [ThreeChannel.translateChannels].
    apply isTranslateChannel_lookup. eexists GuildID, _, _, _.
    split; [apply loadTranslateChannels_lookup; by rewrite lookup_insert_eq|].
    rewrite !elem_of_cons.
    destruct Hc as [->|[->| ->]]; simpl; eauto.
  - intros Hnames. apply Hrefused.
    repeat split; apply lastNamed_None; intros o Hin;
      by destruct (Hnames o Hin) as (? & ? & ?).
Qed.

Lemma handleTranslateCommand_enrolls_what_it_names_witness :
  ThreeChannel.isTranslateChannel
    (ThreeChannel.translateChannels
       (ThreeChannelCommands.handleTranslateCommand Sample.guild
          Sample2.options Sample.startup).2) (lit "102") = true
  ∧ ThreeChannelCommands.handleTranslateCommand Sample.guild [] Sample.startup
    = (lit "Error: At least one channel must be provided.", Sample.startup).
Proof.
  destruct (handleTranslateCommand_enrolls_what_it_names Sample.guild
              Sample2.options Sample.startup) as (_ & Hnamed & _).
  destruct (handleTranslateCommand_enrolls_what_it_names Sample.guild
              [] Sample.startup) as (_ & _ & Hnone).
  split.
  - destruct Hnamed as [_ Henrolled]; [by intros (? & ? & ?)|].
    apply (Henrolled Sample.random). right; left. reflexivity.
  - apply Hnone. by intros o ?%elem_of_nil.
Defined.

(** X14. The confirmation of [/translate] lists the slots that were given,
    in order, joined by [" and"]: it is ["Translation enabled for"] followed
    by one [" channel i: <#id>"] per given slot with [" and"] between
    them, in both variants that have slots. *)
Theorem responseContent_lists_the_given_slots
    (channel1 channel2 channel3 : option Channel) :
  ThreeChannelCommands.responseContent channel1 channel2 channel3
  = lit "Translation enabled for"
    ++ strings_.Join (CommandSpec.item (lit " channel 1: ") channel1
                      ++ CommandSpec.item (lit " channel 2: ") channel2
                      ++ CommandSpec.item (lit " channel 3: ") channel3)
                     (lit " and")
  ∧ TwoChannelCommands.responseContent channel1 channel2
    = lit "Translation enabled for"
      ++ strings_.Join (CommandSpec.item (lit " channel 1: ") channel1
                        ++ CommandSpec.item (lit " channel 2: ") channel2)
                       (lit " and").
Proof.
  unfold ThreeChannelCommands.responseContent,
    TwoChannelCommands.responseContent.
  destruct channel1, channel2, channel3;
    cbn [CommandSpec.item strings_.Join app];
    repeat case_bool_decide; try done;
    cbn [orb]; rewrite ?app_nil_r, <- ?(assoc_L (++)); split; reflexivity.
Qed.

Lemma written_QueryRow_Scan
    (table : gmap (list Z) (option (list Z) * option (list Z)))
    (serverID : gostring) :
  Spec.written table →
  ∃ existing1 existing2,
    TwoChannel.QueryRow_Scan table serverID = Ok (existing1, existing2).
Proof.
  intros Hwritten. destruct (table !! serverID) as [[c1 c2]|] eqn:Hrow.
  - destruct (written_no_NULL table Hwritten serverID c1 c2 Hrow)
      as [[v1 ->] [v2 ->]].
    exists v1, v2. by apply QueryRow_Scan_row.
  - exists [], []. by apply QueryRow_Scan_no_row.
Qed.

(** X15. [interactionCreate] of the two-slot variant answers nothing and
    changes nothing for an interaction that is not the [translate] command;
    it refuses a command without [channel1] and [channel2]; when the
    server's record holds a NULL it answers with the failure text, which
    ends in the error of [Scan] for the first column that is NULL, and
    leaves the table alone; and on a table that only this variant has
    written it confirms, and every channel given is enrolled afterwards. *)
Theorem TwoChannel_interactionCreate_outcomes (isApplicationCommand : bool)
    (CommandName GuildID : gostring) (options : list ChannelOption)
    (table : gmap (list Z) (option (list Z) * option (list Z))) :
  let channel1 := CommandSpec.lastNamed (lit "channel1") options in
  let channel2 := CommandSpec.lastNamed (lit "channel2") options in
  let result :=
    TwoChannelCommands.interactionCreate isApplicationCommand CommandName
      GuildID options table in
  (isApplicationCommand = false ∨ CommandName ≠ lit "translate" →
   result = (None, table))
  ∧ (isApplicationCommand = true → CommandName = lit "translate" →
     (channel1 = None ∧ channel2 = None →
      result
      = (Some (lit "Error: At least one channel must be provided."), table))
     ∧ (¬ (channel1 = None ∧ channel2 = None) →
        (∀ c2, table !! GuildID = Some (None, c2) →
           result
           = (Some (lit "Failed to enable translation for channels: "
                    ++ lit "sql: Scan error on column index 0, name "
                    ++ [34%Z] ++ lit "channel_id1" ++ [34%Z]
                    ++ lit ": converting NULL to string is unsupported"),
              table))
        ∧ (∀ c1, table !! GuildID = Some (Some c1, None) →
           result
           = (Some (lit "Failed to enable translation for channels: "
                    ++ lit "sql: Scan error on column index 1, name "
                    ++ [34%Z] ++ lit "channel_id2" ++ [34%Z]
                    ++ lit ": converting NULL to string is unsupported"),
              table))
        ∧ (Spec.written table →
           result.1 = Some (TwoChannelCommands.responseContent channel1 channel2)
           ∧ ∀ c, channel1 = Some c ∨ channel2 = Some c →
               TwoChannel.isTranslateChannel result.2 (ID c) = true))).
Proof.
  intros channel1 channel2 result. subst result.
  unfold TwoChannelCommands.interactionCreate. split.
  - intros [->|Hname]; [done|]. destruct isApplicationCommand; [|done].
    by rewrite bool_decide_eq_false_2.
  - intros -> ->. rewrite bool_decide_eq_true_2 by done.
    rewrite options_loop2_last. fold channel1 channel2.
    assert (∀ c : option Channel, from_option Some None c = c) as Hid
      by (by intros []).
    rewrite !Hid. split.
    + by intros [-> ->].
    + intros Hsome.
      assert (bool_decide (channel1 = None) && bool_decide (channel2 = None)
              = false) as ->.
      { destruct channel1, channel2; try done. by destruct Hsome. }
      split; [|split].
      * intros c2 Hrow.
        unfold TwoChannel.addTranslateChannels, TwoChannel.QueryRow_Scan.
        rewrite Hrow. reflexivity.
      * intros c1 Hrow.
        unfold TwoChannel.addTranslateChannels, TwoChannel.QueryRow_Scan.
        rewrite Hrow. reflexivity.
      * intros Hwritten.
        destruct (written_QueryRow_Scan table GuildID Hwritten)
          as (e1 & e2 & Hq).
        rewrite (addTranslateChannels2_row _ _ _ _ _ _ Hq).
        split; [done|]. cbn [snd]. intros c Hc.
        apply isTranslateChannel2_lookup. eexists GuildID, _, _.
        split; [by rewrite lookup_insert_eq|].
        destruct Hc as [-> | ->]; simpl; eauto.
Qed.

Lemma TwoChannel_interactionCreate_outcomes_witness :
  TwoChannel.isTranslateChannel
    (TwoChannelCommands.interactionCreate true (lit "translate") Sample.guild
       Sample2.options ∅).2 (lit "101") = true
  ∧ TwoChannelCommands.interactionCreate true (lit "translate") Sample.guild
      Sample2.options {[Sample.guild := (Some (lit "101"), None)]}
    = (Some (lit "Failed to enable translation for channels: "
             ++ lit "sql: Scan error on column index 1, name "
             ++ [34%Z] ++ lit "channel_id2" ++ [34%Z]
             ++ lit ": converting NULL to string is unsupported"),
       {[Sample.guild := (Some (lit "101"), None)]}).
Proof.
  split.
  - destruct (TwoChannel_interactionCreate_outcomes true (lit "translate")
                Sample.guild Sample2.options ∅) as [_ Hcommand].
    destruct (Hcommand eq_refl eq_refl) as [_ Hgiven].
    destruct Hgiven as (_ & _ & Hwritten); [by intros [? ?]|].
    destruct (Hwritten ltac:(constructor)) as [_ Henrolled].
    apply (Henrolled Sample.general). by left.
  - destruct (TwoChannel_interactionCreate_outcomes true (lit "translate")
                Sample.guild Sample2.options
                {[Sample.guild := (Some (lit "101"), None)]}) as [_ Hcommand].
    destruct (Hcommand eq_refl eq_refl) as [_ Hgiven].
    destruct Hgiven as (_ & Hfailed & _); [by intros [? ?]|].
    apply (Hfailed (lit "101")). apply lookup_singleton_eq.
Defined.

Lemma options_loop1_first (options : list ChannelOption)
    (translateChannelID : gostring) :
  OneChannelCommands.options_loop options translateChannelID
  = match CommandSpec.firstNamed (lit "channel") options with
    | Some c =>
        (Some (lit "Translation enabled for channel: " ++ Mention c), ID c)
    | None => (None, translateChannelID)
    end.
Proof.
  unfold CommandSpec.firstNamed.
  induction options as [|o options IH]; [done|].
  cbn [OneChannelCommands.options_loop]. rewrite filter_cons.
  case_bool_decide as Hname.
  - by rewrite decide_True.
  - by rewrite decide_False.
Qed.

(** X16. In the variants with one channel, [/translate] makes the channel of
    its first option named ["channel"] the only enrolled one, for the whole
    process: afterwards the handlers do nothing for a message posted in any
    other channel, the one enrolled before included.  Without such an
    option, and for any other interaction, nothing is answered and nothing
    changes. *)
Theorem OneChannel_interactionCreate_replaces
    (options : list ChannelOption) (translateChannelID : gostring) :
  let result :=
    OneChannelCommands.interactionCreate true (lit "translate") options
      translateChannelID in
  (∀ c, CommandSpec.firstNamed (lit "channel") options = Some c →
     result = (Some (lit "Translation enabled for channel: " ++ Mention c),
               ID c)
     ∧ ∀ (category : rune → unicode.GeneralCategory)
         (detect : gostring → Result gostring)
         (trans_Run : gostring → option error * gostring)
         (translate : gostring → gostring → Result gostring)
         (translate_bare : gostring → Run gostring)
         (s : Session) (m : MessageCreate),
         ChannelID m ≠ ID c →
         trace (DetectCli.messageCreate category detect trans_Run result.2
                  s m) = []
         ∧ trace (DetectApi.messageCreate detect translate result.2 s m) = []
         ∧ (DetectApiAuto.messageCreate detect translate_bare result.2 s m).1
           = [])
  ∧ (CommandSpec.firstNamed (lit "channel") options = None →
     result = (None, translateChannelID))
  ∧ (∀ isApplicationCommand CommandName,
       isApplicationCommand = false ∨ CommandName ≠ lit "translate" →
       OneChannelCommands.interactionCreate isApplicationCommand CommandName
         options translateChannelID = (None, translateChannelID)).
Proof.
  intros result. subst result. unfold OneChannelCommands.interactionCreate.
  rewrite bool_decide_eq_true_2 by done. rewrite options_loop1_first.
  split; [|split].
  - intros c ->. split; [done|]. cbn [snd].
    intros category detect trans_Run translate translate_bare s m Hother.
    rewrite DetectCli_messageCreate_run, DetectApi_messageCreate_run.
    unfold DetectApiAuto.messageCreate.
    rewrite (bool_decide_eq_true_2 (ChannelID m ≠ ID c)) by done.
    rewrite orb_true_r. by case_bool_decide.
  - by intros ->.
  - intros isCmd name [->|Hname]; [done|]. destruct isCmd; [|done].
    by rewrite bool_decide_eq_false_2.
Qed.

Lemma OneChannel_interactionCreate_replaces_witness :
  trace (DetectCli.messageCreate Sample.category Sample.detect
           Sample.trans_Run
           (OneChannelCommands.interactionCreate true (lit "translate")
              [{| Name := lit "channel"; ChannelValue := Sample.random |}]
              (lit "101")).2
           Sample.bot (Sample.message (lit "101") (lit "bonjour le monde")))
  = [].
Proof.
  destruct (OneChannel_interactionCreate_replaces
              [{| Name := lit "channel"; ChannelValue := Sample.random |}]
              (lit "101")) as [Hfirst _].
  destruct (Hfirst Sample.random eq_refl) as [_ Hothers].
  apply (Hothers Sample.category Sample.detect Sample.trans_Run
           Sample.translate (λ _, Panicked) Sample.bot
           (Sample.message (lit "101") (lit "bonjour le monde"))).
  discriminate.
Defined.

(** ** The ban list *)

Lemma Split_no_sep (sep : rune) (piece s : gostring) :
  sep ∉ s → strings_.Split_loop sep piece s = [piece ++ s].
Proof.
  revert piece. induction s as [|r s IH]; intros piece Hsep; simpl.
  - by rewrite app_nil_r.
  - apply not_elem_of_cons in Hsep as [Hr Hs].
    rewrite bool_decide_eq_false_2 by done.
    rewrite IH by done. by rewrite <- (assoc_L (++)).
Qed.

Lemma loadBannedWords_table (table : gset (list Z)) :
  ThreeChannelCommands.loadBannedWords table = table.
Proof.
  unfold ThreeChannelCommands.loadBannedWords.
  rewrite <- (list_to_set_elements_L table) at 2.
  induction (elements table) as [|word rows IH]; simpl; [done|].
  by rewrite IH.
Qed.

Section BanwordFacts.
Context (To_LowerCase : rune → rune).

Lemma storable_cons (word : gostring) (wordList : list gostring) :
  filter (λ word, word ≠ [])
    (CommandSpec.stored To_LowerCase <$> word :: wordList)
  = (if decide (CommandSpec.stored To_LowerCase word = []) then []
     else [CommandSpec.stored To_LowerCase word])
    ++ filter (λ word, word ≠ [])
         (CommandSpec.stored To_LowerCase <$> wordList).
Proof.
  rewrite fmap_cons, filter_cons.
  destruct (decide (CommandSpec.stored To_LowerCase word = [])) as [Hw|Hw].
  - by rewrite decide_False by (by intros ?).
  - by rewrite decide_True.
Qed.

(** The loop of [handleBanwordAddCommand]: the table gains the words that
    can be stored, and [addedWords] gains those of them that the table did
    not hold, once each and in the order given. *)
Lemma handleBanwordAddCommand_loop_spec (wordList : list gostring)
    (table : gset (list Z)) (addedWords : list gostring) :
  let given :=
    filter (λ word, word ≠ [])
      (CommandSpec.stored To_LowerCase <$> wordList) in
  ∃ fresh,
    ThreeChannelCommands.handleBanwordAddCommand_loop To_LowerCase wordList
      table addedWords
    = (table ∪ list_to_set given, addedWords ++ fresh)
    ∧ NoDup fresh
    ∧ (∀ w, w ∈ fresh ↔ w ∈ given ∧ w ∉ table)
    ∧ fresh `sublist_of` given.
Proof.
  revert table addedWords.
  induction wordList as [|word wordList IH]; intros table addedWords given.
  - exists []. subst given. simpl.
    rewrite app_nil_r, (right_id_L ∅ (∪)).
    split; [done|]. split; [constructor|]. split; [|done].
    intros w. split; [intros []%elem_of_nil | intros [[]%elem_of_nil _]].
  - subst given. rewrite storable_cons.
    cbn [ThreeChannelCommands.handleBanwordAddCommand_loop].
    fold (CommandSpec.stored To_LowerCase word).
    set (w := CommandSpec.stored To_LowerCase word).
    destruct (decide (w = [])) as [Hw|Hw].
    + rewrite (bool_decide_eq_true_2 _ Hw). apply IH.
    + rewrite (bool_decide_eq_false_2 _ Hw).
      destruct (decide (w ∈ table)) as [Hin|Hout].
      * rewrite (bool_decide_eq_true_2 _ Hin).
        rewrite bool_decide_eq_false_2 by done.
        destruct (IH table addedWords) as (fresh & -> & Hnodup & Hfresh & Hsub).
        exists fresh. split; [|split; [done|split]].
        -- f_equal. simpl. apply set_eq. intros x.
           rewrite !elem_of_union, elem_of_singleton. intuition congruence.
        -- intros w'. rewrite Hfresh. simpl. rewrite elem_of_cons.
           split; [tauto|]. intros [[->|?] ?]; tauto.
        -- by apply sublist_cons.
      * rewrite (bool_decide_eq_false_2 _ Hout).
        rewrite bool_decide_eq_true_2 by done.
        destruct (IH ({[w]} ∪ table) (addedWords ++ [w]))
          as (fresh & -> & Hnodup & Hfresh & Hsub).
        exists (w :: fresh). split; [|split; [|split]].
        -- f_equal; [|by rewrite <- (assoc_L (++))].
           simpl. apply set_eq. intros x.
           rewrite !elem_of_union, elem_of_singleton. tauto.
        -- constructor; [|done]. rewrite Hfresh, elem_of_union,
             elem_of_singleton. tauto.
        -- intros w'. simpl. rewrite !elem_of_cons, Hfresh.
           rewrite elem_of_union, elem_of_singleton.
           destruct (decide (w' = w)) as [->|Hne]; tauto.
        -- by apply sublist_skip.
Qed.

(** [handleBanwordAddCommand], by what it added. *)
Lemma handleBanwordAddCommand_spec (words : gostring)
    (st : ThreeChannelCommands.State) :
  let given := CommandSpec.storable To_LowerCase words in
  let table := ThreeChannelCommands.wordban st ∪ list_to_set given in
  ∃ addedWords,
    NoDup addedWords
    ∧ (∀ w, w ∈ addedWords ↔ w ∈ given ∧ w ∉ ThreeChannelCommands.wordban st)
    ∧ addedWords `sublist_of` given
    ∧ ThreeChannelCommands.handleBanwordAddCommand To_LowerCase words st
      = if decide (addedWords = []) then
          (lit "No new words were added to the ban list.",
           {| ThreeChannelCommands.wordban := table;
              ThreeChannelCommands.vars := ThreeChannelCommands.vars st |})
        else
          (lit "Added words to ban list: "
           ++ strings_.Join addedWords (lit ", "),
           {| ThreeChannelCommands.wordban := table;
              ThreeChannelCommands.vars :=
                ThreeChannelCommands.reload table
                  (ThreeChannelCommands.vars st) |}).
Proof.
  intros given table. subst given table.
  unfold ThreeChannelCommands.handleBanwordAddCommand, CommandSpec.storable.
  destruct (handleBanwordAddCommand_loop_spec (strings_.Split words 44)
              (ThreeChannelCommands.wordban st) [])
    as (fresh & -> & Hnodup & Hfresh & Hsub).
  exists fresh. split; [done|]. split; [done|]. split; [done|].
  rewrite app_nil_l. destruct fresh as [|w fresh]; [done|].
  rewrite bool_decide_eq_true_2 by (simpl; lia).
  by rewrite decide_False.
Qed.

Lemma handleBanwordAddCommand_table (words : gostring)
    (st : ThreeChannelCommands.State) :
  ThreeChannelCommands.wordban
    (ThreeChannelCommands.handleBanwordAddCommand To_LowerCase words st).2
  = ThreeChannelCommands.wordban st
    ∪ list_to_set (CommandSpec.storable To_LowerCase words).
Proof.
  destruct (handleBanwordAddCommand_spec words st) as (added & _ & _ & _ & ->).
  by destruct (decide (added = [])).
Qed.

Lemma handleBanwordAddCommand_cached (words : gostring)
    (st : ThreeChannelCommands.State) :
  CommandSpec.cached st
  ∨ (∃ w, w ∈ CommandSpec.storable To_LowerCase words
          ∧ w ∉ ThreeChannelCommands.wordban st) →
  CommandSpec.cached
    (ThreeChannelCommands.handleBanwordAddCommand To_LowerCase words st).2.
Proof.
  destruct (handleBanwordAddCommand_spec words st)
    as (added & _ & Hadded & _ & ->).
  unfold CommandSpec.cached.
  destruct (decide (added = [])) as [->|Hne]; cbn [snd
    ThreeChannelCommands.vars ThreeChannelCommands.wordban
    ThreeChannelCommands.reload ThreeChannel.bannedWords].
  - intros [Hcached|(w & Hw & Hnew)].
    + rewrite Hcached.
      assert (∀ w, w ∈ CommandSpec.storable To_LowerCase words →
                   w ∈ ThreeChannelCommands.wordban st) as Hold.
      { intros w Hw.
        destruct (decide (w ∈ ThreeChannelCommands.wordban st)); [done|].
        exfalso. by eapply elem_of_nil, Hadded. }
      apply set_eq. intros x. rewrite elem_of_union, elem_of_list_to_set.
      specialize (Hold x). tauto.
    + exfalso. by eapply elem_of_nil, Hadded.
  - intros _. apply loadBannedWords_table.
Qed.
End BanwordFacts.

(** X17. [/banword add] stores every piece of its comma-separated argument
    that is not empty once lower-cased and trimmed.  Its answer names the
    pieces that the table did not hold yet, each once and in the order
    given, or says that nothing was added.  It leaves the enrolled channels
    alone, and the cache of banned words agrees with the table afterwards
    if it did before or if a word was added. *)
Theorem handleBanwordAddCommand_stores_the_new_words
    (To_LowerCase : rune → rune) (words : gostring)
    (st : ThreeChannelCommands.State) :
  let given := CommandSpec.storable To_LowerCase words in
  let result :=
    ThreeChannelCommands.handleBanwordAddCommand To_LowerCase words st in
  ThreeChannelCommands.wordban result.2
  = ThreeChannelCommands.wordban st ∪ list_to_set given
  ∧ ThreeChannel.translateChannels (ThreeChannelCommands.vars result.2)
    = ThreeChannel.translateChannels (ThreeChannelCommands.vars st)
  ∧ (∃ addedWords,
       NoDup addedWords
       ∧ (∀ w, w ∈ addedWords
               ↔ w ∈ given ∧ w ∉ ThreeChannelCommands.wordban st)
       ∧ addedWords `sublist_of` given
       ∧ result.1
         = if decide (addedWords = []) then
             lit "No new words were added to the ban list."
           else lit "Added words to ban list: "
                ++ strings_.Join addedWords (lit ", "))
  ∧ (CommandSpec.cached st
     ∨ (∃ w, w ∈ given ∧ w ∉ ThreeChannelCommands.wordban st) →
     CommandSpec.cached result.2).
Proof.
  intros given result. subst given result.
  split; [apply handleBanwordAddCommand_table|].
  split; [|split; [|apply handleBanwordAddCommand_cached]].
  - destruct (handleBanwordAddCommand_spec To_LowerCase words st)
      as (added & _ & _ & _ & ->).
    by destruct (decide (added = [])).
  - destruct (handleBanwordAddCommand_spec To_LowerCase words st)
      as (added & Hnodup & Hadded & Hsub & ->).
    exists added. by destruct (decide (added = [])).
Qed.

Lemma containsBannedWord_loop_fields (bannedWords bannedWords' : gset (list Z))
    (words : list gostring) :
  Forall (Spec.isField unicode.IsSpace) words →
  (∀ w, Spec.isField unicode.IsSpace w → w ∈ bannedWords ↔ w ∈ bannedWords') →
  ThreeChannel.containsBannedWord_loop bannedWords words
  = ThreeChannel.containsBannedWord_loop bannedWords' words.
Proof.
  intros Hwords Hsame.
  induction Hwords as [|word words Hword _ IH]; simpl; [done|].
  rewrite IH. by rewrite (bool_decide_ext _ _ (Hsame word Hword)).
Qed.

(** X18. Only the entries of the ban list that are not empty and hold no
    white space can ever match: two ban lists that agree on those block the
    same messages.  So a phrase banned with [/banword add], which the
    command stores with its inner white space, blocks nothing. *)
Theorem entries_with_white_space_never_match (To_LowerCase : rune → rune)
    (bannedWords bannedWords' : gset (list Z)) (text : gostring) :
  (∀ w, Spec.isField unicode.IsSpace w → w ∈ bannedWords ↔ w ∈ bannedWords') →
  ThreeChannel.containsBannedWord To_LowerCase bannedWords text
  = ThreeChannel.containsBannedWord To_LowerCase bannedWords' text.
Proof.
  intros Hsame. unfold ThreeChannel.containsBannedWord.
  apply containsBannedWord_loop_fields; [|done].
  apply FieldsFunc_fields.
Qed.

Lemma entries_with_white_space_never_match_witness :
  lit "bad word"
  ∈ ThreeChannelCommands.wordban
      (ThreeChannelCommands.handleBanwordAddCommand Sample.To_LowerCase
         (lit "Bad Word") Sample2.state).2
  ∧ ThreeChannel.containsBannedWord Sample.To_LowerCase
      (ThreeChannelCommands.wordban
         (ThreeChannelCommands.handleBanwordAddCommand Sample.To_LowerCase
            (lit "Bad Word") Sample2.state).2)
      (lit "a bad word")
    = ThreeChannel.containsBannedWord Sample.To_LowerCase
        (ThreeChannelCommands.wordban Sample2.state) (lit "a bad word").
Proof.
  assert (ThreeChannelCommands.wordban
            (ThreeChannelCommands.handleBanwordAddCommand Sample.To_LowerCase
               (lit "Bad Word") Sample2.state).2
          = {[lit "bad word"]} ∪ ThreeChannelCommands.wordban Sample2.state)
    as Htable by (by vm_compute).
  rewrite Htable. split.
  - apply elem_of_union_l, elem_of_singleton. reflexivity.
  - apply entries_with_white_space_never_match.
    intros w [_ Hfield]. rewrite elem_of_union, elem_of_singleton.
    split; [|by right]. intros [->|Hw]; [|done].
    exfalso. rewrite Forall_forall in Hfield.
    specialize (Hfield 32%Z). vm_compute in Hfield.
    enough (false = true) by done. symmetry. apply Hfield.
    do 3 right. left.
Defined.

(** X19. A word added with [/banword add] blocks from then on: when the
    cache agreed with the table before the command, a message that has the
    stored word among its tokens, lower-cased, draws no reaction, whoever
    sent it and in whichever channel. *)
Theorem added_word_blocks_messages
    (category : rune → unicode.GeneralCategory) (To_LowerCase : rune → rune)
    (Getenv_TRANSLATE_PATH : gostring)
    (cmd_Run : gostring → gostring → option error * gostring * gostring)
    (words : gostring) (st : ThreeChannelCommands.State) (s : Session)
    (m : MessageCreate) (w : gostring) :
  CommandSpec.cached st →
  w ∈ CommandSpec.storable To_LowerCase words →
  w ∈ strings.Fields (strings.ToLower To_LowerCase (Content m)) →
  trace (ThreeChannel.messageCreate category To_LowerCase
           Getenv_TRANSLATE_PATH cmd_Run
           (ThreeChannelCommands.vars
              (ThreeChannelCommands.handleBanwordAddCommand To_LowerCase
                 words st).2) s m)
  = [].
Proof.
  intros Hcached Hstored Htoken.
  rewrite ThreeChannel_messageCreate_run.
  destruct (bool_decide _); [done|].
  destruct (negb _); [done|].
  destruct (Filters.isOnlyEmoji _ _); [done|].
  assert (ThreeChannel.containsBannedWord To_LowerCase
            (ThreeChannel.bannedWords
               (ThreeChannelCommands.vars
                  (ThreeChannelCommands.handleBanwordAddCommand To_LowerCase
                     words st).2)) (Content m) = true) as ->; [|done].
  apply containsBannedWord_loop_exists. exists w. split; [done|].
  rewrite (handleBanwordAddCommand_cached To_LowerCase words st) by by left.
  rewrite handleBanwordAddCommand_table.
  apply elem_of_union_r. by apply elem_of_list_to_set.
Qed.

Lemma added_word_blocks_messages_witness :
  trace (ThreeChannel.messageCreate Sample.category Sample.To_LowerCase
           Sample.TRANSLATE_PATH Sample.cmd_Run
           (ThreeChannelCommands.vars
              (ThreeChannelCommands.handleBanwordAddCommand
                 Sample.To_LowerCase (lit "Scam, Bad Word") Sample2.state).2)
           Sample.bot (Sample.message (lit "101") (lit "this is a SCAM")))
  = [].
Proof.
  apply (added_word_blocks_messages _ _ _ _ _ _ _ _ (lit "scam")).
  - reflexivity.
  - vm_compute. left.
  - vm_compute. do 3 right. left.
Defined.

(** X20. [/banword remove] lower-cases and trims its whole argument.  When
    nothing is left it refuses and changes nothing.  Otherwise it deletes
    that one word from the table, reloads the cache from the table, leaves
    the enrolled channels alone and reports the removal, also of a word that
    was never banned; afterwards a message is blocked exactly when one of
    its tokens is another word of the table. *)
Theorem handleBanwordRemoveCommand_outcomes (To_LowerCase : rune → rune)
    (word : gostring) (st : ThreeChannelCommands.State) :
  let w := CommandSpec.stored To_LowerCase word in
  let result :=
    ThreeChannelCommands.handleBanwordRemoveCommand To_LowerCase word st in
  (w = [] → result = (lit "No word provided to remove.", st))
  ∧ (w ≠ [] →
     result.1 = lit "Removed word from ban list: " ++ w
     ∧ ThreeChannelCommands.wordban result.2
       = ThreeChannelCommands.wordban st ∖ {[w]}
     ∧ CommandSpec.cached result.2
     ∧ ThreeChannel.translateChannels (ThreeChannelCommands.vars result.2)
       = ThreeChannel.translateChannels (ThreeChannelCommands.vars st)
     ∧ ∀ text,
         ThreeChannel.containsBannedWord To_LowerCase
           (ThreeChannel.bannedWords (ThreeChannelCommands.vars result.2))
           text = true
         ↔ ∃ token,
             token ∈ strings.Fields (strings.ToLower To_LowerCase text)
             ∧ token ∈ ThreeChannelCommands.wordban st ∧ token ≠ w).
Proof.
  intros w result. subst w result.
  unfold ThreeChannelCommands.handleBanwordRemoveCommand, CommandSpec.stored.
  set (w := strings.TrimSpace (strings.ToLower To_LowerCase word)).
  split; intros Hw.
  - by rewrite bool_decide_eq_true_2.
  - rewrite bool_decide_eq_false_2 by done.
    cbn [fst snd ThreeChannelCommands.vars ThreeChannelCommands.wordban
         ThreeChannelCommands.reload ThreeChannel.bannedWords
         ThreeChannel.translateChannels].
    split; [done|]. split; [done|].
    split; [apply loadBannedWords_table|]. split; [done|].
    intros text. rewrite loadBannedWords_table.
    unfold ThreeChannel.containsBannedWord.
    rewrite containsBannedWord_loop_exists.
    split; intros (token & Htoken & Hbanned); exists token.
    + apply elem_of_difference in Hbanned as [? Hne].
      rewrite elem_of_singleton in Hne. done.
    + destruct Hbanned as [? Hne]. split; [done|].
      apply elem_of_difference. by rewrite elem_of_singleton.
Qed.

Lemma stored_no_sep (To_LowerCase : rune → rune) (words : gostring) :
  44%Z ∉ words →
  CommandSpec.storable To_LowerCase words
  = if decide (CommandSpec.stored To_LowerCase words = []) then []
    else [CommandSpec.stored To_LowerCase words].
Proof.
  intros Hsep. unfold CommandSpec.storable, strings_.Split.
  rewrite (Split_no_sep _ _ _ Hsep), app_nil_l, storable_cons.
  apply app_nil_r.
Qed.

(** X21. [/banword remove] does not split its argument as [/banword add]
    does.  Given the argument of an earlier [add], it takes away at most the
    one entry that is the whole argument, lower-cased and trimmed: every
    other word that [add] stored stays in the table.  For an argument
    without a comma whose word was not banned before, the table is what it
    was before the two commands. *)
Theorem remove_after_add (To_LowerCase : rune → rune) (words : gostring)
    (st : ThreeChannelCommands.State) :
  let added :=
    (ThreeChannelCommands.handleBanwordAddCommand To_LowerCase words st).2 in
  let removed :=
    (ThreeChannelCommands.handleBanwordRemoveCommand To_LowerCase words
       added).2 in
  (∀ w, w ∈ CommandSpec.storable To_LowerCase words →
        w ≠ CommandSpec.stored To_LowerCase words →
        w ∈ ThreeChannelCommands.wordban removed)
  ∧ (44%Z ∉ words →
     CommandSpec.stored To_LowerCase words ∉ ThreeChannelCommands.wordban st →
     ThreeChannelCommands.wordban removed = ThreeChannelCommands.wordban st).
Proof.
  intros added removed.
  assert (ThreeChannelCommands.wordban removed
          = if decide (CommandSpec.stored To_LowerCase words = [])
            then ThreeChannelCommands.wordban added
            else ThreeChannelCommands.wordban added
                 ∖ {[CommandSpec.stored To_LowerCase words]}) as Hremoved.
  { subst removed.
    unfold ThreeChannelCommands.handleBanwordRemoveCommand.
    fold (CommandSpec.stored To_LowerCase words).
    destruct (decide (CommandSpec.stored To_LowerCase words = [])) as [Hw|Hw].
    - by rewrite bool_decide_eq_true_2.
    - by rewrite bool_decide_eq_false_2. }
  assert (ThreeChannelCommands.wordban added
          = ThreeChannelCommands.wordban st
            ∪ list_to_set (CommandSpec.storable To_LowerCase words))
    as Hadded by apply handleBanwordAddCommand_table.
  rewrite Hremoved, Hadded. split.
  - intros w Hw Hne.
    assert (w ∈ ThreeChannelCommands.wordban st
                ∪ list_to_set (CommandSpec.storable To_LowerCase words)).
    { apply elem_of_union_r. by apply elem_of_list_to_set. }
    destruct (decide _); [done|].
    apply elem_of_difference. by rewrite elem_of_singleton.
  - intros Hsep Hnew. rewrite (stored_no_sep _ _ Hsep).
    destruct (decide _) as [Hw|Hw].
    + simpl. apply (right_id_L ∅ (∪)).
    + apply set_eq. intros x.
      rewrite elem_of_difference, elem_of_union, elem_of_list_to_set,
        list_elem_of_singleton, elem_of_singleton.
      split; [tauto|]. intros Hx. split; [by left|]. by intros ->.
Qed.

Lemma remove_after_add_witness :
  (lit "scam"
   ∈ ThreeChannelCommands.wordban
       (ThreeChannelCommands.handleBanwordRemoveCommand Sample.To_LowerCase
          (lit "Scam,Hoax")
          (ThreeChannelCommands.handleBanwordAddCommand Sample.To_LowerCase
             (lit "Scam,Hoax") Sample2.state).2).2)
  ∧ ThreeChannelCommands.wordban
      (ThreeChannelCommands.handleBanwordRemoveCommand Sample.To_LowerCase
         (lit " Scam ")
         (ThreeChannelCommands.handleBanwordAddCommand Sample.To_LowerCase
            (lit " Scam ") Sample2.state).2).2
    = ThreeChannelCommands.wordban Sample2.state.
Proof.
  split.
  - apply (remove_after_add Sample.To_LowerCase (lit "Scam,Hoax")
             Sample2.state).
    + vm_compute. left.
    + vm_compute. discriminate.
  - apply (remove_after_add Sample.To_LowerCase (lit " Scam ") Sample2.state).
    + vm_compute. intros Hin. repeat (apply elem_of_cons in Hin as [Hin|Hin];
        [discriminate|]). by apply elem_of_nil in Hin.
    + vm_compute. discriminate.
Defined.

Lemma Split_loop_sep (sep : rune) (piece s t : gostring) :
  sep ∉ s →
  strings_.Split_loop sep piece (s ++ sep :: t)
  = (piece ++ s) :: strings_.Split_loop sep [] t.
Proof.
  revert piece. induction s as [|r s IH]; intros piece Hsep; simpl.
  - by rewrite bool_decide_eq_true_2, app_nil_r.
  - apply not_elem_of_cons in Hsep as [Hr Hs].
    rewrite bool_decide_eq_false_2 by done.
    rewrite IH by done. by rewrite <- (assoc_L (++)).
Qed.

(** Splitting what [Join] made with [", "] at the commas gives the rows
    back, all but the first after a space. *)
Lemma Split_Join (row : gostring) (rows : list gostring) (piece : gostring) :
  Forall (λ row, 44%Z ∉ row) (row :: rows) →
  strings_.Split_loop 44 piece (strings_.Join (row :: rows) (lit ", "))
  = (piece ++ row) :: ((λ row, 32%Z :: row) <$> rows).
Proof.
  revert row piece. induction rows as [|row' rows IH]; intros row piece Hrows.
  - apply Forall_cons in Hrows as [Hrow _]. simpl.
    by apply Split_no_sep.
  - apply Forall_cons in Hrows as [Hrow Hrows].
    change (strings_.Join (row :: row' :: rows) (lit ", "))
      with (row ++ 44%Z :: 32%Z :: strings_.Join (row' :: rows) (lit ", ")).
    rewrite Split_loop_sep by done.
    cbn [strings_.Split_loop]. rewrite bool_decide_eq_false_2 by done.
    by rewrite IH.
Qed.

Lemma stored_space (To_LowerCase : rune → rune) (row : gostring) :
  CommandSpec.stored To_LowerCase (32%Z :: row)
  = CommandSpec.stored To_LowerCase row.
Proof. reflexivity. Qed.

(** X22. The answer of [/banword list] can be given back to [/banword add]:
    when no row holds a comma and every row is as [add] stores words, not
    empty and unchanged by lower-casing and trimming, the listing after the
    label splits into exactly the rows, in their order, and adding it to a
    table yields the table with the rows. *)
Theorem banword_list_can_be_added_back (To_LowerCase : rune → rune)
    (rows : list gostring) (st : ThreeChannelCommands.State) :
  Forall (λ row, row ≠ [] ∧ (44%Z ∉ row)
                 ∧ CommandSpec.stored To_LowerCase row = row) rows →
  ∃ listing,
    ThreeChannelCommands.handleBanwordListCommand rows
    = lit "Banned words: " ++ listing
    ∧ CommandSpec.storable To_LowerCase listing = rows
    ∧ ThreeChannelCommands.wordban
        (ThreeChannelCommands.handleBanwordAddCommand To_LowerCase listing
           st).2
      = ThreeChannelCommands.wordban st ∪ list_to_set rows.
Proof.
  intros Hrows. exists (strings_.Join rows (lit ", ")).
  split; [done|].
  assert (CommandSpec.storable To_LowerCase (strings_.Join rows (lit ", "))
          = rows) as Hback.
  { unfold CommandSpec.storable, strings_.Split.
    destruct Hrows as [|row rows (Hne & Hsep & Hstored) Hrows]; [done|].
    rewrite Split_Join, app_nil_l.
    2:{ constructor; [done|].
        eapply Forall_impl; [exact Hrows|]. by intros ? (_ & ? & _). }
    rewrite storable_cons, Hstored. rewrite decide_False by done.
    simpl. f_equal.
    induction Hrows as [|row1 rows1 (Hne1 & _ & Hstored1) _ IH]; [done|].
    rewrite fmap_cons, storable_cons, stored_space, Hstored1.
    rewrite decide_False by done. simpl. f_equal. apply IH. }
  split; [done|].
  by rewrite handleBanwordAddCommand_table, Hback.
Qed.

Lemma banword_list_can_be_added_back_witness :
  ∃ listing,
    ThreeChannelCommands.handleBanwordListCommand [lit "spam"; lit "hoax"]
    = lit "Banned words: " ++ listing
    ∧ CommandSpec.storable Sample.To_LowerCase listing
      = [lit "spam"; lit "hoax"]
    ∧ ThreeChannelCommands.wordban
        (ThreeChannelCommands.handleBanwordAddCommand Sample.To_LowerCase
           listing Sample2.state).2
      = ThreeChannelCommands.wordban Sample2.state
        ∪ list_to_set [lit "spam"; lit "hoax"].
Proof.
  apply (banword_list_can_be_added_back Sample.To_LowerCase
           [lit "spam"; lit "hoax"] Sample2.state).
  repeat constructor; try done; vm_compute; intros Hin;
    repeat (apply elem_of_cons in Hin as [Hin|Hin]; [discriminate|]);
    by apply elem_of_nil in Hin.
Defined.

(** ** The remote services *)

Lemma HasPrefix_app (s prefix : gostring) :
  strings_.HasPrefix s prefix = true ↔ ∃ post, s = prefix ++ post.
Proof.
  revert s. induction prefix as [|p prefix IH]; intros s.
  - split; [by exists s|by destruct s].
  - destruct s as [|r s]; simpl.
    + split; [done|]. by intros [post ?].
    + rewrite andb_true_iff, bool_decide_eq_true, IH. split.
      * intros [-> [post ->]]. eauto.
      * intros [post [= -> ->]]. eauto.
Qed.

Lemma Contains_app (s substr : gostring) :
  strings_.Contains s substr = true ↔ ∃ pre post, s = pre ++ substr ++ post.
Proof.
  induction s as [|r s IH].
  - cbn [strings_.Contains]. rewrite orb_false_r, HasPrefix_app. split.
    + intros [post ->]. by exists [], post.
    + intros (pre & post & Hs). destruct pre; [by exists post|done].
  - cbn [strings_.Contains]. rewrite orb_true_iff, HasPrefix_app, IH. split.
    + intros [[post ->]|(pre & post & ->)].
      * by exists [], post.
      * by exists (r :: pre), post.
    + intros (pre & post & Hs). destruct pre as [|x pre].
      * left. by exists post.
      * right. injection Hs as -> ->. by exists pre, post.
Qed.

(** The two shapes of a detection answer: none is read by both copies. *)
Lemma detectionLanguage_not_flat (result : gmap (list Z) json.Value)
    (language : gostring) :
  detectionLanguage result = Ok language →
  detectionLanguage_flat result
  = Err (lit "unexpected response format or empty data").
Proof.
  unfold detectionLanguage, detectionLanguage_flat.
  by destruct (result !! lit "data") as [[]|].
Qed.

Lemma detectionLanguage_flat_not_nested (result : gmap (list Z) json.Value)
    (language : gostring) :
  detectionLanguage_flat result = Ok language →
  detectionLanguage result
  = Err (lit "unexpected response format or empty data").
Proof.
  unfold detectionLanguage, detectionLanguage_flat.
  by destruct (result !! lit "data") as [[]|].
Qed.

(** X23. The copies of [detectLanguage] read two different shapes, and no
    answer fits both.  When the service answers in the shape that the
    variant with [trans] accepts, the second copy of [main.go] fails on it,
    and its handler logs that failure for every message it admits, without
    calling the gateway; and an answer that the second copy accepts is
    refused by the reading of the other two. *)
Theorem nested_detection_answer_fails_the_flat_copy
    (Unmarshal : gostring → Result (gmap (list Z) json.Value))
    (Do : gostring → http.Outcome) (translate : gostring → Run gostring)
    (translateChannelID : gostring) (s : Session) (m : MessageCreate)
    (language : gostring) :
  DetectCli_detectLanguage Unmarshal Do (Content m) = Ok language →
  DetectApiAuto_detectLanguage Unmarshal Do (Content m)
  = Err (lit "unexpected response format or empty data")
  ∧ (Author_ID m ≠ State_User_ID s → ChannelID m = translateChannelID →
     DetectApiAuto.messageCreate (DetectApiAuto_detectLanguage Unmarshal Do)
       translate translateChannelID s m
     = ([DetectLanguage (Content m);
         LogPrintln (lit "Error detecting language,")
           (lit "unexpected response format or empty data")], false))
  ∧ (∀ text language',
       DetectApiAuto_detectLanguage Unmarshal Do text = Ok language' →
       DetectCli_detectLanguage Unmarshal Do text
       = Err (lit "unexpected response format or empty data")
       ∧ ∃ err, DetectApi_detectLanguage Unmarshal Do text = Err err).
Proof.
  intros Hnested.
  assert (DetectApiAuto_detectLanguage Unmarshal Do (Content m)
          = Err (lit "unexpected response format or empty data")) as Hflat.
  { revert Hnested.
    unfold DetectCli_detectLanguage, DetectApiAuto_detectLanguage.
    destruct (Do _); [done..|]. destruct (Unmarshal _); [|done].
    apply detectionLanguage_not_flat. }
  split; [done|]. split.
  - intros Hauthor Hchannel. unfold DetectApiAuto.messageCreate.
    rewrite (bool_decide_eq_false_2 _ Hauthor).
    rewrite (bool_decide_eq_false_2 (ChannelID m ≠ translateChannelID))
      by (by intros ?).
    by rewrite Hflat.
  - intros text language'.
    unfold DetectCli_detectLanguage, DetectApi_detectLanguage,
      DetectApiAuto_detectLanguage.
    destruct (Do _); [done..|]. destruct (negb _).
    + destruct (Unmarshal _); [|done]. intros Hl.
      split; [by eapply detectionLanguage_flat_not_nested|eauto].
    + destruct (Unmarshal _); [|done]. intros Hl.
      rewrite (detectionLanguage_flat_not_nested _ _ Hl). eauto.
Qed.

Lemma nested_detection_answer_fails_the_flat_copy_witness :
  DetectApiAuto.messageCreate
    (DetectApiAuto_detectLanguage Sample3.Unmarshal Sample3.Do)
    (λ _, Panicked) (lit "101") Sample.bot
    (Sample.message (lit "101") (lit "bonjour le monde"))
  = ([DetectLanguage (lit "bonjour le monde");
      LogPrintln (lit "Error detecting language,")
        (lit "unexpected response format or empty data")], false).
Proof.
  destruct (nested_detection_answer_fails_the_flat_copy Sample3.Unmarshal
              Sample3.Do (λ _, Panicked) (lit "101") Sample.bot
              (Sample.message (lit "101") (lit "bonjour le monde"))
              (lit "fr")) as (_ & Hlogs & _).
  - by vm_compute.
  - apply Hlogs; [by vm_compute|reflexivity].
Defined.



(** X25. The first copy of [translateToEnglish] in [main.go] yields a
    translation only from a response with status 200 whose content type
    mentions [application/json], whose body decodes, and whose
    [responseData] is an object with the string [translatedText], which it
    returns as it is. *)
Theorem DetectApi_translateToEnglish_succeeds_iff
    (Unmarshal : gostring → Result (gmap (list Z) json.Value))
    (Get : gostring → gostring → http.Outcome)
    (text sourceLang translated : gostring) :
  DetectApi_translateToEnglish Unmarshal Get text sourceLang = Ok translated
  ↔ ∃ ContentType body result responseData,
      Get text sourceLang = http.Responded 200 ContentType body
      ∧ (∃ pre post, ContentType = pre ++ lit "application/json" ++ post)
      ∧ Unmarshal body = Ok result
      ∧ result !! lit "responseData" = Some (json.Object responseData)
      ∧ responseData !! lit "translatedText" = Some (json.String translated).
Proof.
  unfold DetectApi_translateToEnglish.
  destruct (Get text sourceLang)
    as [err|StatusCode ? ? err|StatusCode ContentType body] eqn:HGet.
  - split; [done|]. by intros (? & ? & ? & ? & ? & _).
  - split; [by case_bool_decide|]. by intros (? & ? & ? & ? & ? & _).
  - case_bool_decide as Hstatus.
    { split; [done|]. intros (? & ? & ? & ? & [= -> _ _] & _). done. }
    subst StatusCode.
    destruct (strings_.Contains ContentType (lit "application/json"))
      eqn:Htype; cbn [negb].
    2:{ split; [done|]. intros (? & ? & ? & ? & [= <- _] & Hjson & _).
        apply Contains_app in Hjson. congruence. }
    apply Contains_app in Htype.
    destruct (Unmarshal body) as [result|err] eqn:Hbody.
    2:{ split; [done|]. intros (? & ? & ? & ? & [= _ <-] & _ & ? & _).
        congruence. }
    unfold translatedText.
    destruct (result !! lit "responseData") as [v|] eqn:Hdata.
    2:{ split; [done|].
        intros (? & ? & ? & ? & [= _ <-] & _ & ? & ? & _). congruence. }
    destruct v as [| | | | |responseData];
      try (split; [done|];
           intros (? & ? & ? & ? & [= _ <-] & _ & ? & ? & _); congruence).
    cbn [json.asObject].
    destruct (responseData !! lit "translatedText") as [v|] eqn:Htext.
    2:{ split; [done|].
        intros (? & ? & ? & ? & [= _ <-] & _ & ? & ? & ?). congruence. }
    destruct v as [| | |t| |];
      try (split; [done|];
           intros (? & ? & ? & ? & [= _ <-] & _ & ? & ? & ?); congruence).
    cbn [json.asString]. split.
    + intros [= ->]. by eexists _, _, _, _.
    + intros (? & ? & ? & ? & [= _ <-] & _ & ? & ? & ?). congruence.
Qed.

(** X26. The first copy of [detectLanguage] in [main.go] differs from the
    one of the variant with [trans] by its look at the content type only:
    it detects a language exactly when the other does and the content type
    of the response mentions [application/json]. *)
Theorem DetectApi_detectLanguage_succeeds_iff
    (Unmarshal : gostring → Result (gmap (list Z) json.Value))
    (Do : gostring → http.Outcome) (text language : gostring) :
  DetectApi_detectLanguage Unmarshal Do text = Ok language
  ↔ DetectCli_detectLanguage Unmarshal Do text = Ok language
    ∧ ∃ StatusCode ContentType body pre post,
        Do (detectPayload text) = http.Responded StatusCode ContentType body
        ∧ ContentType = pre ++ lit "application/json" ++ post.
Proof.
  unfold DetectApi_detectLanguage, DetectCli_detectLanguage.
  destruct (Do (detectPayload text))
    as [err|? ? ? err|StatusCode ContentType body]; [by split; [|intros []]..|].
  destruct (strings_.Contains ContentType (lit "application/json")) eqn:Htype;
    cbn [negb].
  - apply Contains_app in Htype as (pre & post & ->).
    split; [|by intros []]. intros Hl. split; [done|].
    by eexists _, _, _, _, _.
  - split; [done|]. intros (_ & ? & ? & ? & ? & ? & [= _ <- _] & Hjson).
    assert (strings_.Contains ContentType (lit "application/json") = true)
      by (apply Contains_app; eauto).
    congruence.
Qed.
